(** * cd-mcp: the Czech Railways mobile-API client ([src/cd-api.ts])

    A shallow embedding of [CdApiClient] and of the JavaScript built-ins it
    calls, followed by the properties of the date codec, of the station
    resolver and of the connection-search orchestrator.

    Conventions of the embedding.
    - A JavaScript string is a [string]; each [ascii] stands for one code
      unit.  The only characters the code inspects are ASCII ones.
    - A JavaScript number that holds an integer (epoch milliseconds, upstream
      identifiers, prices in minor units) is a [Z]; [NaN] is [None] of an
      [option Z].  IEEE doubles are exact on integers up to [2^53], which
      covers the whole range of valid [Date] time values.  A quotient
      ([iPrice / 100], [ms / 60000]) is a [Q].
    - [undefined] and [null] are [None].
    - A thrown exception or rejected promise is the left injection of a sum;
      network calls are answered by an [Upstream] oracle and logged.
    - The responses of the upstream have the shapes of the TypeScript
      interfaces; a field is optional where the code guards against its
      absence.

    The definitions come first: the built-ins, [parseDate], the data model,
    the client, then the vocabulary of the statements and the stub upstreams
    of the examples.  The properties follow. *)

From Stdlib Require Import ZArith List String Ascii Bool Lia QArith Qround.
Import ListNotations.

Local Open Scope string_scope.
Local Open Scope list_scope.
Local Open Scope Z_scope.

Infix "+++" := String.append (at level 60, right associativity).

(** ** Exceptions *)

Inductive JsError : Type :=
| Error (message : string)
| RangeError (message : string)
| TypeError (message : string)
| SyntaxError (message : string).

(** [Exc A]: a computation that either throws or returns. *)
Definition Exc (A : Type) : Type := (JsError + A)%type.

Definition Return {A} (a : A) : Exc A := inr a.
Definition Throw {A} (e : JsError) : Exc A := inl e.

Definition ebind {A B} (m : Exc A) (f : A -> Exc B) : Exc B :=
  match m with
  | inl e => inl e
  | inr a => f a
  end.

(** [Array.prototype.map] with a callback that may throw: the first
    exception aborts the traversal. *)
Fixpoint emap {A B} (f : A -> Exc B) (l : list A) : Exc (list B) :=
  match l with
  | [] => Return []
  | x :: xs => ebind (f x) (fun y => ebind (emap f xs) (fun ys => Return (y :: ys)))
  end.

(** The same with the element index, as in [arr.map((x, idx) => ...)]. *)
Fixpoint emapi_from {A B} (i : nat) (f : A -> nat -> Exc B) (l : list A) : Exc (list B) :=
  match l with
  | [] => Return []
  | x :: xs =>
      ebind (f x i) (fun y => ebind (emapi_from (S i) f xs) (fun ys => Return (y :: ys)))
  end.

Definition emapi {A B} (f : A -> nat -> Exc B) (l : list A) : Exc (list B) :=
  emapi_from 0 f l.

(** ** Strings and decimal digits *)

Definition is_digit (c : ascii) : bool :=
  let n := Z.of_N (N_of_ascii c) in (48 <=? n) && (n <=? 57).

Definition digit_value (c : ascii) : Z := Z.of_N (N_of_ascii c) - 48.

Definition digit_char (d : Z) : ascii := ascii_of_N (Z.to_N (48 + d)).

(** [strip_prefix p s]: the rest of [s] after the literal [p], if [s]
    starts with it. *)
Fixpoint strip_prefix (p s : string) : option string :=
  match p with
  | EmptyString => Some s
  | String a p' =>
      match s with
      | String b s' => if Ascii.eqb a b then strip_prefix p' s' else None
      | EmptyString => None
      end
  end.

(** The longest prefix of decimal digits, and the rest: a greedy [\d*]. *)
Fixpoint span_digits (s : string) : string * string :=
  match s with
  | String c s' =>
      if is_digit c
      then let (d, r) := span_digits s' in (String c d, r)
      else (EmptyString, s)
  | EmptyString => (EmptyString, EmptyString)
  end.

(** The integer written by a string of decimal digits, most significant
    digit first. *)
Fixpoint read_digits (acc : Z) (s : string) : Z :=
  match s with
  | String c s' => read_digits (10 * acc + digit_value c) s'
  | EmptyString => acc
  end.

(** Exactly [n] decimal digits, then the rest. *)
Fixpoint take_digits (n : nat) (acc : Z) (s : string) : option (Z * string) :=
  match n with
  | O => Some (acc, s)
  | S k =>
      match s with
      | String c s' =>
          if is_digit c then take_digits k (10 * acc + digit_value c) s' else None
      | EmptyString => None
      end
  end.

(** [pad n v]: the [n] low decimal digits of [v], zero padded
    ([String(v).padStart(n, "0")] for [0 <= v < 10^n]). *)
Fixpoint pad (n : nat) (v : Z) : string :=
  match n with
  | O => EmptyString
  | S k => String (digit_char ((v / 10 ^ Z.of_nat k) mod 10)) (pad k v)
  end.

(** Number of decimal digits of a non-negative integer; the fuel bounds the
    number of divisions. *)
Fixpoint ndigits (fuel : nat) (v : Z) : nat :=
  match fuel with
  | O => 1%nat
  | S f => if v <? 10 then 1%nat else S (ndigits f (v / 10))
  end.

Definition num_digits (v : Z) : nat := ndigits (Z.to_nat (Z.log2 v)) v.

(** [Number.prototype.toString] on an integer that a double holds exactly,
    up to [2^53] in magnitude: plain decimal notation, with a minus sign
    when negative.  (A larger double prints the shortest digits that read
    back to it, and from [10^21] in exponent form; the statements about
    the decimal form of an identifier carry the bound.) *)
Definition Z_toString (v : Z) : string :=
  if v <? 0 then String "-" (pad (num_digits (- v)) (- v))
  else pad (num_digits v) v.

(** [String(n)] and template interpolation of a number; [NaN] prints as
    ["NaN"]. *)
Definition Number_toString (n : option Z) : string :=
  match n with
  | Some v => Z_toString v
  | None => "NaN"
  end.

(** [parseInt(s, 10)] on a string without leading white space: an optional
    sign, then the longest run of digits; [NaN] when there is no digit.
    The result is the double nearest to the integer written; it is that
    integer itself up to [2^53], and rounding is monotone, so every
    comparison of the result made below (all against [8.64e15 < 2^53]) is
    decided by the exact integer. *)
Definition parseInt (s : string) : option Z :=
  let (negative, body) :=
    match s with
    | String "-" r => (true, r)
    | String "+" r => (false, r)
    | _ => (false, s)
    end in
  let (ds, _) := span_digits body in
  match ds with
  | EmptyString => None
  | _ => Some (if negative then - read_digits 0 ds else read_digits 0 ds)
  end.

(** ** The option monad of the parsers *)

Notation "'let?' x := e 'in' k" :=
  (match e with Some x => k | None => None end)
  (at level 10, x pattern, e at level 100, k at level 200).

Notation "'let!' x := e 'in' k" :=
  (ebind e (fun x => k))
  (at level 10, x pattern, e at level 100, k at level 200).

Definition expect (c : ascii) (s : string) : option string :=
  match s with
  | String c' r => if Ascii.eqb c c' then Some r else None
  | EmptyString => None
  end.

(** ** [Date]: time values, calendar arithmetic, [toISOString], parsing

    A [Date] object is its time value: an integral number of milliseconds
    since the epoch, or [NaN] (an invalid date). *)

Definition Date : Type := option Z.

Definition msPerDay : Z := 86400000.
Definition maxTime : Z := 8640000000000000.

Definition TimeClip (t : option Z) : Date :=
  match t with
  | Some v => if Z.abs v <=? maxTime then Some v else None
  | None => None
  end.

(** [new Date(n)] for a number [n]. *)
Definition new_Date_number (n : option Z) : Date := TimeClip n.

Definition getTime (d : Date) : option Z := d.

Definition Day (t : Z) : Z := t / msPerDay.
Definition TimeWithinDay (t : Z) : Z := t mod msPerDay.

Definition DaysInYear (y : Z) : Z :=
  if (y mod 4 =? 0) && (negb (y mod 100 =? 0) || (y mod 400 =? 0)) then 366 else 365.

Definition InLeapYear (y : Z) : Z := if DaysInYear y =? 366 then 1 else 0.

Definition DayFromYear (y : Z) : Z :=
  365 * (y - 1970) + (y - 1969) / 4 - (y - 1901) / 100 + (y - 1601) / 400.

(** The year that contains day number [d]: the largest [y] with
    [DayFromYear y <= d], found from an estimate that is off by at most
    one. *)
Definition YearFromDay (d : Z) : Z :=
  let y := 1970 + (400 * d) / 146097 in
  if DayFromYear (y + 1) <=? d then y + 1
  else if DayFromYear y <=? d then y
  else y - 1.

(** Day number within the year at which month [m] (0 to 11) starts. *)
Definition month_start (m leap : Z) : Z :=
  if m =? 0 then 0
  else if m =? 1 then 31
  else if m =? 2 then 59 + leap
  else if m =? 3 then 90 + leap
  else if m =? 4 then 120 + leap
  else if m =? 5 then 151 + leap
  else if m =? 6 then 181 + leap
  else if m =? 7 then 212 + leap
  else if m =? 8 then 243 + leap
  else if m =? 9 then 273 + leap
  else if m =? 10 then 304 + leap
  else 334 + leap.

Definition DaysInMonth (m leap : Z) : Z :=
  if m =? 1 then 28 + leap
  else if (m =? 3) || (m =? 5) || (m =? 8) || (m =? 10) then 30
  else 31.

Definition MonthFromDay (diy leap : Z) : Z :=
  if diy <? 31 then 0
  else if diy <? 59 + leap then 1
  else if diy <? 90 + leap then 2
  else if diy <? 120 + leap then 3
  else if diy <? 151 + leap then 4
  else if diy <? 181 + leap then 5
  else if diy <? 212 + leap then 6
  else if diy <? 243 + leap then 7
  else if diy <? 273 + leap then 8
  else if diy <? 304 + leap then 9
  else if diy <? 334 + leap then 10
  else 11.

Definition MakeDay (year month date : Z) : Z :=
  DayFromYear year + month_start month (InLeapYear year) + date - 1.

Definition MakeTime (hour min sec ms : Z) : Z :=
  hour * 3600000 + min * 60000 + sec * 1000 + ms.

Definition MakeDate (day time : Z) : Z := day * msPerDay + time.

(** The year of an ISO string: four digits for years 0 to 9999, otherwise
    a sign and six digits. *)
Definition year_string (y : Z) : string :=
  if (0 <=? y) && (y <=? 9999) then pad 4 y
  else if y <? 0 then String "-" (pad 6 (- y))
  else String "+" (pad 6 y).

(** The string form of a valid time value: [YYYY-MM-DDTHH:mm:ss.sssZ]. *)
Definition iso_string (t : Z) : string :=
  let day := Day t in
  let time := TimeWithinDay t in
  let year := YearFromDay day in
  let leap := InLeapYear year in
  let diy := day - DayFromYear year in
  let month := MonthFromDay diy leap in
  let date := diy - month_start month leap + 1 in
  year_string year +++ "-" +++ pad 2 (month + 1) +++ "-" +++ pad 2 date +++ "T" +++
  pad 2 (time / 3600000) +++ ":" +++ pad 2 ((time / 60000) mod 60) +++ ":" +++
  pad 2 ((time / 1000) mod 60) +++ "." +++ pad 3 (time mod 1000) +++ "Z".

(** [Date.prototype.toISOString]: throws on an invalid date. *)
Definition toISOString (d : Date) : Exc string :=
  match d with
  | Some t => Return (iso_string t)
  | None => Throw (RangeError "Invalid time value")
  end.

Definition parse_year (s : string) : option (Z * string) :=
  match s with
  | String "+" r => take_digits 6 0 r
  | String "-" r =>
      let? (y, r') := take_digits 6 0 r in
      if y =? 0 then None else Some (- y, r')
  | _ => take_digits 4 0 s
  end.

(** A string in the complete UTC form of the ECMAScript date-time format,
    with every field in its calendar range, denotes one instant. *)
Definition parse_iso_utc (s : string) : option Z :=
  let? (year, r) := parse_year s in
  let? r := expect "-" r in
  let? (month, r) := take_digits 2 0 r in
  let? r := expect "-" r in
  let? (date, r) := take_digits 2 0 r in
  let? r := expect "T" r in
  let? (hour, r) := take_digits 2 0 r in
  let? r := expect ":" r in
  let? (min, r) := take_digits 2 0 r in
  let? r := expect ":" r in
  let? (sec, r) := take_digits 2 0 r in
  let? r := expect "." r in
  let? (ms, r) := take_digits 3 0 r in
  let? r := expect "Z" r in
  match r with
  | EmptyString =>
      if (1 <=? month) && (month <=? 12) && (1 <=? date) &&
         (date <=? DaysInMonth (month - 1) (InLeapYear year)) &&
         (hour <=? 23) && (min <=? 59) && (sec <=? 59)
      then TimeClip (Some (MakeDate (MakeDay year (month - 1) date) (MakeTime hour min sec ms)))
      else None
  | _ => None
  end.

(** [Math.round]: the nearest integer, halves going up. *)
Definition Math_round (q : Q) : Z := Qfloor (q + (1 # 2)).

Definition Qlt_bool (a b : Q) : bool := negb (Qle_bool b a).

(** ** [parseDate]

    [raw.match(/\/Date\((-?\d+)\)\//)]: the pattern is tried at each
    position from the left.  At one position the match is forced: the
    literal prefix, the sign if there is one, every digit that follows (one
    at least), the literal suffix.  The result is capture group 1. *)

Definition match_here (s : string) : option string :=
  let? r1 := strip_prefix "/Date(" s in
  let (sign, r2) :=
    match r1 with
    | String "-" r => ("-", r)
    | _ => ("", r1)
    end in
  let (ds, r3) := span_digits r2 in
  match ds with
  | EmptyString => None
  | _ => let? _ := strip_prefix ")/" r3 in Some (sign +++ ds)
  end.

Fixpoint regex_match (s : string) : option string :=
  match match_here s with
  | Some g => Some g
  | None =>
      match s with
      | String _ s' => regex_match s'
      | EmptyString => None
      end
  end.

(** Truthiness of a string: the empty string is falsy. *)
Definition truthy (s : string) : bool :=
  match s with
  | EmptyString => false
  | _ => true
  end.

Definition parseDate (raw : string) : Exc string :=
  match regex_match raw with
  | None => Return raw
  | Some m1 =>
      if negb (truthy m1) then Return raw
      else toISOString (new_Date_number (parseInt m1))
  end.

(** The encoder of the search request: [`/Date(${depMs})/`]. *)
Definition dtDateTime_of (depMs : option Z) : string :=
  "/Date(" +++ Number_toString depMs +++ ")/".

(** ** Data model ([src/types.ts] and the interfaces of [cd-api.ts])

    Field names are those of the source.  Where two interfaces share a
    name the field gets a prefix: [leg_] for [ConnectionLeg], [station_]
    for [StationInfo], and [ss_], [cs_], [sc_], [gp_], [pr_] for the bodies
    of the four requests. *)

Definition APP_ID : string := "{A6AB5B3E-8A7E-4E84-9DC8-801561CE886F}".
Definition USER_DESC : string :=
  "294|34|MCP-Client|^|mcp-cd-server|en|US|440|1080|2154|1.0.0".
Definition DEFAULT_CURRENCY : string := "CZK".

Record Location : Type := {
  key : string;
  name : string;
  type : string
}.

Record ConnectionLeg : Type := {
  leg_from : string;
  leg_to : string;
  leg_departure : string;
  leg_arrival : string;
  trainNumber : string;
  trainType : option string
}.

Record Money : Type := {
  amount : Q;
  currency : string
}.

Record Connection : Type := {
  id : string;
  departure : string;
  arrival : string;
  duration : option Z;
  transfers : Z;
  legs : list ConnectionLeg;
  price : option Money
}.

Record ConnectionSearchResult : Type := {
  handle : option string;
  connections : list Connection
}.

Record StationInfo : Type := {
  station_id : Z;
  station_name : string
}.

Record ListItem : Type := {
  iListID : Z;
  sName : string
}.

Record StationSearchItem : Type := {
  oItem : option ListItem
}.

Record RawLeg : Type := {
  dtDateTime1 : string;
  dtDateTime2 : string;
  sStationName1 : string;
  sStationName2 : string;
  sType : option string;
  sNum1 : option string;
  sNum2 : option string;
  sNum3 : option string
}.

Record RawConnection : Type := {
  iID : Z;
  aoTrains : list RawLeg
}.

Record ConnInfo : Type := {
  aoConnections : option (list RawConnection)
}.

Record ConnectionInfo : Type := {
  iHandle : Z;
  oConnInfo : option ConnInfo
}.

Record PriceInfo : Type := {
  iPrice : option Z
}.

Record SessionResult : Type := {
  sSessionID : string
}.

(** ** Request bodies *)

Record StationSearchBody : Type := {
  ss_iLang : Z;
  ss_sMask : string;
  ss_iMaxCount : Z;
  ss_sAppID : string;
  ss_sUserDesc : string
}.

Record NotificationsSettings : Type := {
  iNotificationMask : Z;
  iInitialAdvance : Z;
  iDelayLimit : Z;
  iChangeAdvance : Z;
  iGetOffAdvance : Z
}.

Record SessionBody : Type := {
  cs_iLang : Z;
  cs_sAppID : string;
  cs_sUserDesc : string;
  cs_sUser : string;
  cs_sPwd : string;
  cs_iTokenType : Z;
  oRegisterNotificationsSettings : NotificationsSettings
}.

Record PassengerEntry : Type := {
  iPassengerId : Z;
  iCount : Z;
  iAge : Z
}.

Record PriceClass : Type := {
  iClass : Z;
  bBusiness : bool
}.

Record ConnParms : Type := {
  iSearchConnectionFlags : Z;
  iCarrier : Z
}.

Record ConnectionSearchBody : Type := {
  sc_iLang : Z;
  sc_sSessionID : string;
  oFrom : ListItem;
  oTo : ListItem;
  aoVia : list ListItem;
  aoChange : list ListItem;
  dtDateTime : string;
  bIsDep : bool;
  oConnParms : ConnParms;
  iMaxObjectsCount : Z;
  sc_iMaxCount : Z;
  oPriceRequestClass : PriceClass;
  sc_aoPassengers : list PassengerEntry
}.

Record PriceRequest : Type := {
  pr_aoPassengers : list PassengerEntry;
  iConnHandleThere : Z;
  iConnIDThere : Z;
  oClass : PriceClass;
  iDocType : Z
}.

Record PriceBody : Type := {
  gp_iLang : Z;
  gp_sSessionID : string;
  gp_iHandle : Z;
  aiConnID : list Z;
  oPriceRequest : PriceRequest;
  bStopIfAgeError : bool
}.

(** A request is an endpoint with its body. *)
Inductive Request : Type :=
| SearchGlobalListItemInfoExt (body : StationSearchBody)
| CreateSession (body : SessionBody)
| SearchConnectionInfo1 (body : ConnectionSearchBody)
| GetConnectionsPrice (body : PriceBody).

(** The type of the [d] field that the envelope of each endpoint carries.
    Where the code guards against a missing value, the value is optional. *)
Definition ReplyType (r : Request) : Type :=
  match r with
  | SearchGlobalListItemInfoExt _ => option (list StationSearchItem)
  | CreateSession _ => SessionResult
  | SearchConnectionInfo1 _ => option ConnectionInfo
  | GetConnectionsPrice _ => option (list PriceInfo)
  end.

(** What [fetch] does with a request: it rejects, or it resolves to a
    response with a status, a text body and a JSON body (already projected
    to the [d] field of the envelope, which may itself fail to be read). *)
Inductive FetchResult (T : Type) : Type :=
| Rejected (e : JsError)
| Response (ok : bool) (status : Z) (statusText : string)
           (text : Exc string) (json : Exc T).

Arguments Rejected {T} e.
Arguments Response {T} ok status statusText text json.

(** The upstream answers every request; when the two concurrent station
    look-ups both fail, [left_rejects_first] tells which failure reaches
    [Promise.all] first. *)
Record Upstream : Type := {
  answer : forall r : Request, FetchResult (ReplyType r);
  left_rejects_first : bool
}.

(** ** The monad of the asynchronous methods: a log of the requests issued,
    and a result or an exception. *)

Definition M (A : Type) : Type := (list Request * Exc A)%type.

Definition ret {A} (a : A) : M A := ([], Return a).

Definition bind {A B} (m : M A) (f : A -> M B) : M B :=
  match m with
  | (t1, inr a) => let (t2, r) := f a in (t1 ++ t2, r)
  | (t1, inl e) => (t1, inl e)
  end.

Definition lift {A} (x : Exc A) : M A := ([], x).

Definition try_catch {A} (body : M A) (handler : JsError -> M A) : M A :=
  match body with
  | (t1, inl e) => let (t2, r) := handler e in (t1 ++ t2, r)
  | (t1, inr a) => (t1, inr a)
  end.

(** [Promise.all] of two promises: both computations are started, in
    order; the result is the pair, or the rejection that comes first. *)
Definition Promise_all2 {A B} (left_first : bool) (m1 : M A) (m2 : M B) : M (A * B) :=
  let (t1, r1) := m1 in
  let (t2, r2) := m2 in
  (t1 ++ t2,
   match r1, r2 with
   | inr a, inr b => inr (a, b)
   | inl e, inr _ => inl e
   | inr _, inl e => inl e
   | inl e1, inl e2 => if left_first then inl e1 else inl e2
   end).

Notation "x <- e ;; k" := (bind e (fun x => k))
  (at level 61, e at next level, right associativity).
Notation "' p <- e ;; k" := (bind e (fun x => match x with p => k end))
  (at level 61, p pattern, e at next level, right associativity).

(** ** [CdApiClient] *)

Section Client.

(** The host's [Date.parse] on strings that are not in the complete UTC
    form above (other ISO forms are read in local time, and anything else
    is implementation-defined). *)
Variable host_parse : string -> option Z.

Variable upstream : Upstream.

(** [new Date(s)] for a string [s]. *)
Definition new_Date_string (s : string) : Date :=
  match parse_iso_utc s with
  | Some t => Some t
  | None => TimeClip (host_parse s)
  end.

(** The promise returned by [fetch], then the checks of [postRequest]. *)
Definition settle {T} (r : FetchResult T) : Exc T :=
  match r with
  | Rejected e => Throw e
  | Response ok status statusText text json =>
      if negb ok then
        let! errorText := text in
        Throw (Error ("API request failed: " +++ Z_toString status +++ " " +++
                      statusText +++ " - " +++ errorText))
      else json
  end.

Definition postRequest (r : Request) : M (ReplyType r) :=
  ([r], settle (answer upstream r)).

Definition stationSearchBody (mask : string) (maxCount : Z) : StationSearchBody :=
  {| ss_iLang := 1; ss_sMask := mask; ss_iMaxCount := maxCount;
     ss_sAppID := APP_ID; ss_sUserDesc := USER_DESC |}.

(** [result?.[0]?.oItem] *)
Definition first_item (result : option (list StationSearchItem)) : option ListItem :=
  match result with
  | Some (x :: _) => oItem x
  | _ => None
  end.

Definition searchStation (mask : string) : M StationInfo :=
  result <- postRequest (SearchGlobalListItemInfoExt (stationSearchBody mask 5)) ;;
  match first_item result with
  | None => lift (Throw (Error ("Station not found: " +++ mask)))
  | Some item => ret {| station_id := iListID item; station_name := sName item |}
  end.

Definition sessionBody : SessionBody :=
  {| cs_iLang := 1; cs_sAppID := APP_ID; cs_sUserDesc := USER_DESC;
     cs_sUser := ""; cs_sPwd := ""; cs_iTokenType := 1;
     oRegisterNotificationsSettings :=
       {| iNotificationMask := 2047; iInitialAdvance := 30; iDelayLimit := 5;
          iChangeAdvance := 5; iGetOffAdvance := 5 |} |}.

Definition createSession : M string :=
  result <- postRequest (CreateSession sessionBody) ;;
  ret (sSessionID result).

(** [result || []] *)
Definition or_empty {A} (l : option (list A)) : list A :=
  match l with
  | Some l => l
  | None => []
  end.

Definition toLocation (item : StationSearchItem) : Exc Location :=
  match oItem item with
  | Some o =>
      Return {| key := Z_toString (iListID o); name := sName o; type := "station" |}
  | None =>
      Throw (TypeError "Cannot read properties of undefined (reading 'iListID')")
  end.

Definition searchLocations (query : string) (_type : option string) : M (list Location) :=
  result <- postRequest (SearchGlobalListItemInfoExt (stationSearchBody query 10)) ;;
  lift (emap toLocation (or_empty result)).

(** [Array(n).fill(x)] for an integer [n]. *)
Definition Array_fill {A} (n : Z) (x : A) : Exc (list A) :=
  if (0 <=? n) && (n <? 2 ^ 32) then Return (repeat x (Z.to_nat n))
  else Throw (RangeError "Invalid array length").

Definition defaultPassenger : PassengerEntry :=
  {| iPassengerId := 5; iCount := 1; iAge := -1 |}.

Definition connectionSearchBody (sessionID : string) (fromStation toStation : StationInfo)
    (depMs : option Z) (aoPassengers : list PassengerEntry) : ConnectionSearchBody :=
  {| sc_iLang := 1;
     sc_sSessionID := sessionID;
     oFrom := {| iListID := station_id fromStation; sName := station_name fromStation |};
     oTo := {| iListID := station_id toStation; sName := station_name toStation |};
     aoVia := [];
     aoChange := [];
     dtDateTime := dtDateTime_of depMs;
     bIsDep := true;
     oConnParms := {| iSearchConnectionFlags := 0; iCarrier := 2 |};
     iMaxObjectsCount := 0;
     sc_iMaxCount := 8;
     oPriceRequestClass := {| iClass := 2; bBusiness := false |};
     sc_aoPassengers := aoPassengers |}.

Definition priceBody (sessionID : string) (handle : Z) (connIDs : list Z)
    (aoPassengers : list PassengerEntry) : PriceBody :=
  {| gp_iLang := 1;
     gp_sSessionID := sessionID;
     gp_iHandle := handle;
     aiConnID := connIDs;
     oPriceRequest :=
       {| pr_aoPassengers := aoPassengers; iConnHandleThere := 0; iConnIDThere := 0;
          oClass := {| iClass := 2; bBusiness := false |}; iDocType := 1 |};
     bStopIfAgeError := true |}.

(** [p.iPrice || 0]: a missing price, like a price of zero, is zero. *)
Definition or_zero (n : option Z) : Z :=
  match n with
  | Some v => v
  | None => 0
  end.

(** [(p.iPrice || 0) / 100] *)
Definition major_units (p : PriceInfo) : Q := inject_Z (or_zero (iPrice p)) / 100.

(** [x || fallback] for an optional string [x]. *)
Definition or_else (x : option string) (fallback : string) : string :=
  match x with
  | Some v => if truthy v then v else fallback
  | None => fallback
  end.

(** [[a, b, c].filter(Boolean)] *)
Fixpoint filter_Boolean (l : list (option string)) : list string :=
  match l with
  | [] => []
  | Some v :: r => if truthy v then v :: filter_Boolean r else filter_Boolean r
  | None :: r => filter_Boolean r
  end.

Definition toLeg (leg : RawLeg) : Exc ConnectionLeg :=
  let! dep := parseDate (dtDateTime1 leg) in
  let! arr := parseDate (dtDateTime2 leg) in
  Return {| leg_from := sStationName1 leg;
            leg_to := sStationName2 leg;
            leg_departure := dep;
            leg_arrival := arr;
            trainType := sType leg;
            trainNumber :=
              String.concat " " (filter_Boolean [sNum1 leg; sNum2 leg; sNum3 leg]) |}.

(** [Math.round((arr - dep) / 60000)], [NaN] when either time is.  The
    value is computed exactly; the doubles of the code agree with it as
    long as the difference stays within [2^53] in magnitude, as it does
    for two instants within [2^52] of the epoch. *)
Definition durationMinutes (arr dep : option Z) : option Z :=
  match arr, dep with
  | Some a, Some d => Some (Math_round (inject_Z (a - d) / 60000))
  | _, _ => None
  end.

(** [price !== undefined && price > 0 ? {amount, currency} : undefined] *)
Definition toPrice (price : option Q) : option Money :=
  match price with
  | Some p =>
      if Qlt_bool 0 p then Some {| amount := p; currency := DEFAULT_CURRENCY |} else None
  | None => None
  end.

(** The callback of the final [map]: one raw connection, at index [idx].
    [departure0] is the parameter [departure] of [searchConnections]. *)
Definition toConnection (departure0 : string) (prices : list Q)
    (conn : RawConnection) (idx : nat) : Exc Connection :=
  let! legs := emap toLeg (aoTrains conn) in
  let firstLeg := nth_error legs 0 in
  let lastLeg := nth_error legs (List.length legs - 1)%nat in
  let depTime := new_Date_string (or_else (option_map leg_departure firstLeg) departure0) in
  let arrTime := new_Date_string (or_else (option_map leg_arrival lastLeg) departure0) in
  let price := nth_error prices idx in
  Return {| id := Z_toString (iID conn);
            departure := or_else (option_map leg_departure firstLeg) departure0;
            arrival := or_else (option_map leg_arrival lastLeg) departure0;
            duration := durationMinutes (getTime arrTime) (getTime depTime);
            transfers := Z.of_nat (List.length (aoTrains conn)) - 1;
            legs := legs;
            price := toPrice price |}.

(** [result?.oConnInfo?.aoConnections] *)
Definition raw_connections (result : option ConnectionInfo) : option (list RawConnection) :=
  match result with
  | Some info =>
      match oConnInfo info with
      | Some ci => aoConnections ci
      | None => None
      end
  | None => None
  end.

(** The [try] block and its [catch]: the price of each connection. *)
Definition lookupPrices (sessionID : string) (passengers : Z) (handle : Z)
    (raws : list RawConnection) : M (list Q) :=
  let connIDs := map iID raws in
  try_catch
    (aoPassengers <- lift (Array_fill passengers defaultPassenger) ;;
     priceResult <- postRequest
       (GetConnectionsPrice (priceBody sessionID handle connIDs aoPassengers)) ;;
     ret (map major_units (or_empty priceResult)))
    (fun _ => ret (map (fun _ => 0%Q) raws)).

Definition searchConnections (from to departure0 : string) (passengers : Z)
    : M ConnectionSearchResult :=
  ' (fromStation, toStation) <-
      Promise_all2 (left_rejects_first upstream) (searchStation from) (searchStation to) ;;
  sessionID <- createSession ;;
  let depMs := getTime (new_Date_string departure0) in
  aoPassengers <- lift (Array_fill passengers defaultPassenger) ;;
  result <- postRequest
    (SearchConnectionInfo1
       (connectionSearchBody sessionID fromStation toStation depMs aoPassengers)) ;;
  match result with
  | Some info =>
      match raw_connections result with
      | None => ret {| handle := None; connections := [] |}
      | Some raws =>
          prices <- lookupPrices sessionID passengers (iHandle info) raws ;;
          connections <- lift (emapi (toConnection departure0 prices) raws) ;;
          ret {| handle := Some (Z_toString (iHandle info)); connections := connections |}
      end
  | None => ret {| handle := None; connections := [] |}
  end.

End Client.

(** ** Vocabulary of the statements *)

(** What follows a run of digits: the end of the string or a character that
    is not a digit. *)
Definition no_digit_ahead (s : string) : Prop :=
  match s with
  | String c _ => is_digit c = false
  | EmptyString => True
  end.

Fixpoint all_digits (s : string) : bool :=
  match s with
  | String c s' => is_digit c && all_digits s'
  | EmptyString => true
  end.

(** The strings that [-?\d+] matches in full. *)
Definition is_signed_integer (g : string) : bool :=
  match g with
  | String "-" r => truthy r && all_digits r
  | _ => truthy g && all_digits g
  end.

(** [raw] contains an occurrence of [/Date(<signed integer>)/]. *)
Definition matches_pattern (raw : string) : Prop :=
  exists pre g post,
    raw = pre +++ "/Date(" +++ g +++ ")/" +++ post /\ is_signed_integer g = true.

(** [parseDate] returns on this input. *)
Definition convertible (raw : string) : bool :=
  match parseDate raw with
  | inr _ => true
  | inl _ => false
  end.

Definition leg_convertible (leg : RawLeg) : bool :=
  convertible (dtDateTime1 leg) && convertible (dtDateTime2 leg).

(** Every leg timestamp of every raw connection converts. *)
Definition timestamps_convertible (raws : list RawConnection) : bool :=
  forallb (fun conn => forallb leg_convertible (aoTrains conn)) raws.

(** The integers on which IEEE doubles compute the difference of two
    timestamps and its rounded quotient by 60000 exactly. *)
Definition exact_range (t : Z) : Prop := Z.abs t <= 2 ^ 52.

(** The integers that a double holds exactly, which [String] prints in
    full. *)
Definition safe_integer (v : Z) : Prop := Z.abs v <= 2 ^ 53.

(** A numeral without a spare leading zero, and not a negative zero. *)
Definition canonical (s : string) : bool :=
  match s with
  | String "0" r => negb (truthy r)
  | String "-" (String "0" _) => false
  | _ => true
  end.

(** [s] is the decimal numeral of [v]: an optional minus sign and digits,
    without a spare zero, that [parseInt] reads as [v]. *)
Definition decimal_of (v : Z) (s : string) : Prop :=
  is_signed_integer s = true /\ canonical s = true /\ parseInt s = Some v.

Section Vocabulary.

Variable host_parse : string -> option Z.
Variable upstream : Upstream.

(** What [searchStation mask] receives from [postRequest]. *)
Definition lookup_reply (mask : string) : Exc (option (list StationSearchItem)) :=
  settle (answer upstream (SearchGlobalListItemInfoExt (stationSearchBody mask 5))).

Definition lookup_request (mask : string) : Request :=
  SearchGlobalListItemInfoExt (stationSearchBody mask 5).

(** The upstream answers the look-up of [mask]. *)
Definition answered (mask : string) : Prop :=
  exists r, lookup_reply mask = Return r.

(** The upstream answers the look-up of [mask] with no candidate. *)
Definition zero_candidates (mask : string) : Prop :=
  exists r, lookup_reply mask = Return r /\ or_empty r = [].

(** The look-up of [mask] is answered, without a first item to take. *)
Definition unresolved (mask : string) : Prop :=
  exists r, lookup_reply mask = Return r /\ first_item r = None.

(** The part of [searchConnections] up to the primary call: both
    look-ups, the session, the search request.  It returns the session
    identifier and the response of [SearchConnectionInfo1]. *)
Definition primarySearch (from to departure0 : string) (passengers : Z)
    : M (string * option ConnectionInfo) :=
  ' (fromStation, toStation) <-
      Promise_all2 (left_rejects_first upstream)
        (searchStation upstream from) (searchStation upstream to) ;;
  sessionID <- createSession upstream ;;
  let depMs := getTime (new_Date_string host_parse departure0) in
  aoPassengers <- lift (Array_fill passengers defaultPassenger) ;;
  result <- postRequest upstream
    (SearchConnectionInfo1
       (connectionSearchBody sessionID fromStation toStation depMs aoPassengers)) ;;
  ret ((sessionID, result) : string * option ConnectionInfo).

(** The request of the price look-up that follows a primary response. *)
Definition price_request (sessionID : string) (passengers : Z) (info : ConnectionInfo)
    (raws : list RawConnection) : Request :=
  GetConnectionsPrice
    (priceBody sessionID (iHandle info) (map iID raws)
       (repeat defaultPassenger (Z.to_nat passengers))).

(** What the price look-up receives from [postRequest]. *)
Definition price_reply (sessionID : string) (passengers : Z) (info : ConnectionInfo)
    (raws : list RawConnection) : Exc (option (list PriceInfo)) :=
  settle (answer upstream
    (GetConnectionsPrice
       (priceBody sessionID (iHandle info) (map iID raws)
          (repeat defaultPassenger (Z.to_nat passengers))))).

End Vocabulary.

Section Continuation.

Variable host_parse : string -> option Z.
Variable upstream : Upstream.

(** The part of [searchConnections] that follows the primary call. *)
Definition completeSearch (departure0 : string) (passengers : Z) (sessionID : string)
    (result : option ConnectionInfo) : M ConnectionSearchResult :=
  match result with
  | Some info =>
      match raw_connections result with
      | None => ret {| handle := None; connections := [] |}
      | Some raws =>
          prices <- lookupPrices upstream sessionID passengers (iHandle info) raws ;;
          connections <- lift (emapi (toConnection host_parse departure0 prices) raws) ;;
          ret {| handle := Some (Z_toString (iHandle info)); connections := connections |}
      end
  | None => ret {| handle := None; connections := [] |}
  end.

(** The prices that [lookupPrices] hands to the merge. *)
Definition merged_prices (reply : Exc (option (list PriceInfo)))
    (raws : list RawConnection) : list Q :=
  match reply with
  | inr priceResult => map major_units (or_empty priceResult)
  | inl _ => map (fun _ => 0%Q) raws
  end.

End Continuation.

(** ** Stub upstreams, for the examples *)

Definition ok {T} (x : T) : FetchResult T :=
  Response true 200 "OK" (Return "") (Return x).

(** Every name resolves to one station, except ["Nonexistentville"]. *)
Definition one_station (mask : string) : FetchResult (option (list StationSearchItem)) :=
  if String.eqb mask "Nonexistentville" then ok (Some [])
  else ok (Some [ {| oItem := Some {| iListID := 5457076; sName := mask |} |} ]).

Definition stub (conn : FetchResult (option ConnectionInfo))
    (prices : FetchResult (option (list PriceInfo))) : Upstream :=
  {| answer := fun r =>
       match r return FetchResult (ReplyType r) with
       | SearchGlobalListItemInfoExt b => one_station (ss_sMask b)
       | CreateSession _ => ok {| sSessionID := "session-1" |}
       | SearchConnectionInfo1 _ => conn
       | GetConnectionsPrice _ => prices
       end;
     left_rejects_first := true |}.

Definition direct_leg (dep arr : string) : RawLeg :=
  {| dtDateTime1 := dep; dtDateTime2 := arr;
     sStationName1 := "Praha hl.n."; sStationName2 := "Brno hl.n.";
     sType := Some "rj"; sNum1 := Some "251"; sNum2 := Some ""; sNum3 := None |}.

Definition found (h : Z) (raws : option (list RawConnection)) : ConnectionInfo :=
  {| iHandle := h; oConnInfo := Some {| aoConnections := raws |} |}.

(** The scenario of the specification: two direct connections,
    10:36 to 13:13 and 11:00 to 13:50 on 2025-12-15. *)
Definition scenario_connections : list RawConnection :=
  [ {| iID := 1;
       aoTrains := [direct_leg "/Date(1765794960000)/" "/Date(1765804380000)/"] |};
    {| iID := 2;
       aoTrains := [direct_leg "/Date(1765796400000)/" "/Date(1765806600000)/"] |} ].

Definition scenario_info : ConnectionInfo := found 7 (Some scenario_connections).

Definition scenario_prices : option (list PriceInfo) :=
  Some [ {| iPrice := Some 26900 |}; {| iPrice := Some 0 |} ].

(** A connection whose leg carries a timestamp beyond the range of [Date]. *)
Definition far_future_connections : list RawConnection :=
  [ {| iID := 1;
       aoTrains := [direct_leg "/Date(8640000000000001)/" "/Date(1765804380000)/"] |} ].

(** A connection that arrives a minute before it leaves. *)
Definition backwards_connections : list RawConnection :=
  [ {| iID := 1; aoTrains := [direct_leg "/Date(60000)/" "/Date(0)/"] |} ].

(** A connection without legs. *)
Definition legless_connections : list RawConnection :=
  [ {| iID := 1; aoTrains := [] |} ].

Definition no_host_parse (s : string) : option Z := None.

(** The departure asked for in the examples. *)
Definition requested : string := "2025-12-15T10:00:00.000Z".

(** The scenario with its prices, [26900] and [0] minor units. *)
Definition scenario_upstream : Upstream :=
  stub (ok (Some scenario_info)) (ok scenario_prices).

(** The same with a price look-up that fails. *)
Definition unpriced_upstream : Upstream :=
  stub (ok (Some scenario_info)) (Rejected (TypeError "fetch failed")).

Definition one_price : option (list PriceInfo) := Some [ {| iPrice := Some 26900 |} ].

(** The same with one price for two connections. *)
Definition short_prices_upstream : Upstream :=
  stub (ok (Some scenario_info)) (ok one_price).

(** The requests up to the primary call, for one passenger from Praha to
    Brno at [requested]. *)
Definition primary_trace : list Request :=
  [ SearchGlobalListItemInfoExt (stationSearchBody "Praha" 5);
    SearchGlobalListItemInfoExt (stationSearchBody "Brno" 5);
    CreateSession sessionBody;
    SearchConnectionInfo1
      (connectionSearchBody "session-1"
         {| station_id := 5457076; station_name := "Praha" |}
         {| station_id := 5457076; station_name := "Brno" |}
         (Some 1765792800000) [defaultPassenger]) ].

Definition scenario_leg (dep arr : string) : ConnectionLeg :=
  {| leg_from := "Praha hl.n."; leg_to := "Brno hl.n.";
     leg_departure := dep; leg_arrival := arr;
     trainNumber := "251"; trainType := Some "rj" |}.

Definition scenario_connection (i : string) (dep arr : string) (minutes : Z)
    (p : option Money) : Connection :=
  {| id := i; departure := dep; arrival := arr; duration := Some minutes;
     transfers := 0; legs := [scenario_leg dep arr]; price := p |}.

Definition first_connection (p : option Money) : Connection :=
  scenario_connection "1" "2025-12-15T10:36:00.000Z" "2025-12-15T13:13:00.000Z" 157 p.

Definition second_connection : Connection :=
  scenario_connection "2" "2025-12-15T11:00:00.000Z" "2025-12-15T13:50:00.000Z" 170 None.

Definition czk_269 : Money :=
  {| amount := inject_Z 26900 / 100; currency := "CZK" |}.

Definition scenario_result : ConnectionSearchResult :=
  {| handle := Some "7";
     connections := [first_connection (Some czk_269); second_connection] |}.

Definition far_future_info : ConnectionInfo := found 7 (Some far_future_connections).

(** The price look-up fails and a leg timestamp is out of range. *)
Definition far_future_unpriced_upstream : Upstream :=
  stub (ok (Some far_future_info)) (Rejected (TypeError "fetch failed")).

(** The price list is empty and a leg timestamp is out of range. *)
Definition far_future_short_upstream : Upstream :=
  stub (ok (Some far_future_info)) (ok (Some [])).

(** The primary response carries an empty connection list. *)
Definition empty_list_info : ConnectionInfo := found 7 (Some []).

Definition empty_list_upstream : Upstream :=
  stub (ok (Some empty_list_info)) (ok (Some [])).

(** The primary response carries no connection list. *)
Definition absent_list_info : ConnectionInfo := found 7 None.

Definition absent_list_upstream : Upstream :=
  stub (ok (Some absent_list_info)) (ok None).

Definition backwards_upstream : Upstream :=
  stub (ok (Some (found 7 (Some backwards_connections)))) (ok None).

Definition legless_upstream : Upstream :=
  stub (ok (Some (found 7 (Some legless_connections)))) (ok None).

(** The look-up of ["Praha"] fails in transport; every other request is
    answered as by [absent_list_upstream]. *)
Definition praha_unreachable_upstream : Upstream :=
  {| answer := fun r =>
       match r return FetchResult (ReplyType r) with
       | SearchGlobalListItemInfoExt b =>
           if String.eqb (ss_sMask b) "Praha" then Rejected (TypeError "fetch failed")
           else one_station (ss_sMask b)
       | CreateSession _ => ok {| sSessionID := "session-1" |}
       | SearchConnectionInfo1 _ => ok (Some absent_list_info)
       | GetConnectionsPrice _ => ok None
       end;
     left_rejects_first := true |}.

(** The connections of a search that returned. *)
Definition returned_connections (m : M ConnectionSearchResult) : option (list Connection) :=
  match snd m with
  | inr res => Some (connections res)
  | inl _ => None
  end.

(** ** The rest of the client, its presentation functions and its callers

    Text outside ASCII is held as its UTF-8 bytes; the functions above look
    at ASCII characters only, and the URL encoder below at bytes, as its
    source does after the UTF-8 encoding of its input. *)

(** [error.message] *)
Definition message_of (e : JsError) : string :=
  match e with
  | Error m | RangeError m | TypeError m | SyntaxError m => m
  end.

(** The endpoint of a request: the first argument of [postRequest]. *)
Definition endpoint (r : Request) : string :=
  match r with
  | SearchGlobalListItemInfoExt _ => "SearchGlobalListItemInfoExt"
  | CreateSession _ => "CreateSession"
  | SearchConnectionInfo1 _ => "SearchConnectionInfo1"
  | GetConnectionsPrice _ => "GetConnectionsPrice"
  end.

(** The line feed of ['\n']. *)
Definition LF : string := String (ascii_of_nat 10) EmptyString.

(** The double quote. *)
Definition DQ : string := String (ascii_of_nat 34) EmptyString.

Section RestOfClient.

Variable upstream : Upstream.

(** [getLocation(_type, key)]: the station look-up inside [try], [null] in
    the [catch].  [key0] is the parameter [key] of the source. *)
Definition getLocation (_type key0 : string) : M (option Location) :=
  try_catch
    (station <- searchStation upstream key0 ;;
     ret (Some {| key := Z_toString (station_id station);
                  name := station_name station;
                  type := "station" |}))
    (fun _ => ret None).

End RestOfClient.

(** [formatLocation(loc)].  The record [Location] holds the fields the
    client sets; the optional [countryCode] of the interface comes beside
    it. *)
Definition formatLocation (loc : Location) (countryCode : option string) : string :=
  let result := "📍 " +++ name loc in
  let result := if truthy (type loc) then result +++ " (" +++ type loc +++ ")" else result in
  match countryCode with
  | Some cc => if truthy cc then result +++ " [" +++ cc +++ "]" else result
  | None => result
  end.

(** Truthiness of an optional string. *)
Definition truthy_opt (x : option string) : bool :=
  match x with
  | Some v => truthy v
  | None => false
  end.

(** [`${x}`] for an optional string. *)
Definition interpolate (x : option string) : string :=
  match x with
  | Some v => v
  | None => "undefined"
  end.

Section Presentation.

(** [Number.prototype.toString] on a quotient (the amount of a price),
    which depends on the double nearest to it. *)
Variable Number_toString_Q : Q -> string.

(** The lines that [forEach] pushes for the leg at index [i]. *)
Definition legLines (i : nat) (leg : ConnectionLeg) : list string :=
  [ "     " +++ Z_toString (Z.of_nat i + 1) +++ ". " +++ leg_from leg +++ " → " +++ leg_to leg;
    "        Dep: " +++ leg_departure leg +++ " | Arr: " +++ leg_arrival leg ] ++
  (if truthy_opt (trainType leg) && truthy (trainNumber leg)
   then [ "        Train: " +++ interpolate (trainType leg) +++ " " +++ trainNumber leg ]
   else []).

Fixpoint legsLines (i : nat) (l : list ConnectionLeg) : list string :=
  match l with
  | [] => []
  | leg :: rest => legLines i leg ++ legsLines (S i) rest
  end.

(** [Math.floor(conn.duration / 60)] *)
Definition durationHours (d : option Z) : option Z := option_map (fun v => v / 60) d.

(** [conn.duration % 60]: the remainder has the sign of the duration. *)
Definition durationMinutesPart (d : option Z) : option Z := option_map (fun v => Z.rem v 60) d.

(** The array [lines] of [formatConnection]. *)
Definition connectionLines (conn : Connection) : list string :=
  [ "🚆 Connection: " +++ departure conn +++ " → " +++ arrival conn;
    "   Duration: " +++ Number_toString (durationHours (duration conn)) +++ "h " +++
      Number_toString (durationMinutesPart (duration conn)) +++ "m";
    "   Transfers: " +++ Z_toString (transfers conn) ] ++
  (match price conn with
   | Some p => [ "   Price: " +++ Number_toString_Q (amount p) +++ " " +++ currency p ]
   | None => []
   end) ++
  (match legs conn with
   | [] => []
   | _ => "   Legs:" :: legsLines 0 (legs conn)
   end).

Definition formatConnection (conn : Connection) : string :=
  String.concat LF (connectionLines conn).

End Presentation.

(** ** The tool handlers of [index.ts] *)

(** The result of a tool: the text of its single content item, and
    [isError] ([false] where the source leaves it out). *)
Record ToolResult : Type := {
  content_text : string;
  isError : bool
}.

Section Tools.

Variable host_parse : string -> option Z.
Variable upstream : Upstream.
Variable Number_toString_Q : Q -> string.

(** The handler of [search_locations]. *)
Definition search_locations_tool (query : string) (type0 : option string) : M ToolResult :=
  try_catch
    (locations <- searchLocations upstream query type0 ;;
     if (List.length locations =? 0)%nat then
       ret {| content_text :=
                "No locations found for " +++ DQ +++ query +++ DQ +++
                ". Try a different search term.";
              isError := false |}
     else
       let formatted := String.concat LF (map (fun loc => formatLocation loc None) locations) in
       let summary :=
         "Found " +++ Z_toString (Z.of_nat (List.length locations)) +++
         " location(s) for " +++ DQ +++ query +++ DQ +++ ":" +++ LF +++ LF +++ formatted in
       ret {| content_text := summary; isError := false |})
    (fun error =>
       ret {| content_text := "Error searching locations: " +++ message_of error;
              isError := true |}).

(** The handler of [search_connections]. *)
Definition search_connections_tool (from to departure0 : string) (passengers : Z)
    : M ToolResult :=
  try_catch
    (result <- searchConnections host_parse upstream from to departure0 passengers ;;
     if (List.length (connections result) =? 0)%nat then
       ret {| content_text :=
                "No connections found from " +++ DQ +++ from +++ DQ +++ " to " +++
                DQ +++ to +++ DQ +++ " on " +++ departure0 +++ ".";
              isError := false |}
     else
       let formatted :=
         String.concat (LF +++ LF +++ "---" +++ LF +++ LF)
           (map (formatConnection Number_toString_Q) (connections result)) in
       let summary :=
         "Found " +++ Z_toString (Z.of_nat (List.length (connections result))) +++
         " connection(s) from " +++ DQ +++ from +++ DQ +++ " to " +++ DQ +++ to +++ DQ +++
         ":" +++ LF +++ LF +++ formatted in
       let summary :=
         if truthy_opt (handle result)
         then summary +++ LF +++ LF +++ "📑 Pagination handle: " +++ interpolate (handle result) +++
              " (use with get_more_connections for more results)"
         else summary in
       ret {| content_text := summary; isError := false |})
    (fun error =>
       ret {| content_text := "Error searching connections: " +++ message_of error;
              isError := true |}).

End Tools.

(** ** The booking link ([generateBookingUrl]) *)

Definition BOOKING_BASE_URL : string := "https://www.cd.cz/spojeni-a-jizdenka/".

Definition is_alnum (c : ascii) : bool :=
  let n := Z.of_N (N_of_ascii c) in
  ((48 <=? n) && (n <=? 57)) || ((65 <=? n) && (n <=? 90)) || ((97 <=? n) && (n <=? 122)).

(** The bytes that the serializer of [URLSearchParams] leaves as they
    are. *)
Definition form_safe (c : ascii) : bool :=
  is_alnum c || Ascii.eqb c "*" || Ascii.eqb c "-" || Ascii.eqb c "." || Ascii.eqb c "_".

(** An upper-case hexadecimal digit. *)
Definition hex_char (n : Z) : ascii :=
  if n <? 10 then digit_char n else ascii_of_N (Z.to_N (55 + n)).

Definition percent_byte (c : ascii) : string :=
  let n := Z.of_N (N_of_ascii c) in
  String "%" (String (hex_char (n / 16)) (String (hex_char (n mod 16)) EmptyString)).

(** The [application/x-www-form-urlencoded] serialization of a byte
    string. *)
Fixpoint form_urlencode (s : string) : string :=
  match s with
  | EmptyString => EmptyString
  | String c r =>
      (if Ascii.eqb c " " then "+"
       else if form_safe c then String c EmptyString
       else percent_byte c) +++ form_urlencode r
  end.

(** [new URLSearchParams({...}).toString()] *)
Definition URLSearchParams_toString (params : list (string * string)) : string :=
  String.concat "&"
    (map (fun p => form_urlencode (fst p) +++ "=" +++ form_urlencode (snd p)) params).

Definition generateBookingUrl (host_parse : string -> option Z)
    (fromStation toStation departure0 : string) : Exc string :=
  let depDate := new_Date_string host_parse departure0 in
  let! iso := toISOString depDate in
  let dateStr := substring 0 16 iso in
  let params := [ ("fromCity", fromStation); ("toCity", toStation); ("dateTime", dateStr) ] in
  Return (BOOKING_BASE_URL +++ "?" +++ URLSearchParams_toString params).

(** The value of a hexadecimal digit, and the reading that undoes
    [form_urlencode]. *)
Definition hex_value (c : ascii) : option Z :=
  let n := Z.of_N (N_of_ascii c) in
  if (48 <=? n) && (n <=? 57) then Some (n - 48)
  else if (65 <=? n) && (n <=? 70) then Some (n - 55)
  else None.

Fixpoint form_urldecode (s : string) : option string :=
  match s with
  | EmptyString => Some EmptyString
  | String "+" r => let? d := form_urldecode r in Some (String " " d)
  | String "%" (String h (String l r)) =>
      let? hv := hex_value h in
      let? lv := hex_value l in
      let? d := form_urldecode r in
      Some (String (ascii_of_N (Z.to_N (16 * hv + lv))) d)
  | String "%" _ => None
  | String c r => let? d := form_urldecode r in Some (String c d)
  end.

(** Number of occurrences of a character. *)
Fixpoint count_char (c : ascii) (s : string) : nat :=
  match s with
  | EmptyString => O
  | String x r => ((if Ascii.eqb c x then 1 else 0) + count_char c r)%nat
  end.

(** Every character of a string passes a test. *)
Fixpoint string_forall (p : ascii -> bool) (s : string) : bool :=
  match s with
  | EmptyString => true
  | String c r => p c && string_forall p r
  end.

(** No character of the string is a slash. *)
Definition slash_free (s : string) : bool :=
  string_forall (fun c => negb (Ascii.eqb c "/")) s.

(** The connection with its price taken away. *)
Definition without_price (c : Connection) : Connection :=
  {| id := id c; departure := departure c; arrival := arrival c; duration := duration c;
     transfers := transfers c; legs := legs c; price := None |}.

(** Two upstreams answer every request but the price look-up alike. *)
Definition same_but_prices (up1 up2 : Upstream) : Prop :=
  left_rejects_first up1 = left_rejects_first up2 /\
  forall r, endpoint r <> "GetConnectionsPrice" -> answer up1 r = answer up2 r.

(** Two outcomes of a search that differ in prices at most. *)
Definition same_but_price_fields (r1 r2 : Exc ConnectionSearchResult) : Prop :=
  match r1, r2 with
  | inr a, inr b =>
      handle a = handle b /\
      map without_price (connections a) = map without_price (connections b)
  | inl e1, inl e2 => e1 = e2
  | _, _ => False
  end.

Section MoreVocabulary.

Variable upstream : Upstream.

(** The outcome of [searchStation mask]. *)
Definition station_outcome (mask : string) : Exc StationInfo :=
  let! r := lookup_reply upstream mask in
  match first_item r with
  | None => Throw (Error ("Station not found: " +++ mask))
  | Some item => Return {| station_id := iListID item; station_name := sName item |}
  end.

(** What [createSession] receives from [postRequest]. *)
Definition session_reply : Exc SessionResult :=
  settle (answer upstream (CreateSession sessionBody)).

End MoreVocabulary.

(** Half a minute after the departure of the examples. *)
Definition requested_half_past : string := "2025-12-15T10:00:30.000Z".

(** The amounts of the examples are whole; this prints them. *)
Definition whole_amount (q : Q) : string := Z_toString (Qfloor q).

(** The bodies of the search request and of the price request of the
    scenario. *)
Definition scenario_search_body : ConnectionSearchBody :=
  connectionSearchBody "session-1"
    {| station_id := 5457076; station_name := "Praha" |}
    {| station_id := 5457076; station_name := "Brno" |}
    (Some 1765792800000) [defaultPassenger].

Definition scenario_price_body : PriceBody :=
  priceBody "session-1" 7 [1; 2] [defaultPassenger].

Definition scenario_trace : list Request :=
  primary_trace ++ [price_request "session-1" 1 scenario_info scenario_connections].

(** A connection that arrives sixty-one minutes before it leaves. *)
Definition backwards_connection : Connection :=
  scenario_connection "1" "2025-12-15T11:37:00.000Z" "2025-12-15T10:36:00.000Z" (-61) None.

Definition praha : Location := {| key := "5457076"; name := "Praha"; type := "station" |}.

(** The item has the [oItem] that [searchLocations] reads. *)
Definition complete_item (item : StationSearchItem) : bool :=
  match oItem item with
  | Some _ => true
  | None => false
  end.

(** An upstream that answers every look-up with status 503; the other
    requests are answered as by [absent_list_upstream]. *)
Definition unavailable_upstream : Upstream :=
  {| answer := fun r =>
       match r return FetchResult (ReplyType r) with
       | SearchGlobalListItemInfoExt b =>
           Response false 503 "Service Unavailable" (Return "busy") (Return None)
       | CreateSession _ => ok {| sSessionID := "session-1" |}
       | SearchConnectionInfo1 _ => ok (Some absent_list_info)
       | GetConnectionsPrice _ => ok None
       end;
     left_rejects_first := true |}.

(** A connection without legs, as the transform makes it. *)
Definition legless_connection : Connection :=
  {| id := "1"; departure := requested; arrival := requested; duration := Some 0;
     transfers := -1; legs := []; price := None |}.

(** The endpoints in the order of the protocol. *)
Definition protocol_order : list string :=
  [ "SearchGlobalListItemInfoExt"; "SearchGlobalListItemInfoExt"; "CreateSession";
    "SearchConnectionInfo1"; "GetConnectionsPrice" ].

(** A passenger count that [Array(passengers)] accepts. *)
Definition valid_length (n : Z) : Prop := 0 <= n < 2 ^ 32.

Section Runs.

Variable host_parse : string -> option Z.
Variable upstream : Upstream.

(** The four ways in which the primary part can go. *)
Inductive PrimaryCase (from to departure0 : string) (passengers : Z)
    : M (string * option ConnectionInfo) -> Prop :=
| lookup_fails e :
    (station_outcome upstream from = Throw e \/ station_outcome upstream to = Throw e) ->
    PrimaryCase from to departure0 passengers
      ([lookup_request from; lookup_request to], Throw e)
| session_fails fs ts e :
    station_outcome upstream from = Return fs ->
    station_outcome upstream to = Return ts ->
    session_reply upstream = Throw e ->
    PrimaryCase from to departure0 passengers
      ([lookup_request from; lookup_request to; CreateSession sessionBody], Throw e)
| passengers_rejected fs ts sess :
    station_outcome upstream from = Return fs ->
    station_outcome upstream to = Return ts ->
    session_reply upstream = Return sess ->
    ~ valid_length passengers ->
    PrimaryCase from to departure0 passengers
      ([lookup_request from; lookup_request to; CreateSession sessionBody],
       Throw (RangeError "Invalid array length"))
| search_issued fs ts sess :
    station_outcome upstream from = Return fs ->
    station_outcome upstream to = Return ts ->
    session_reply upstream = Return sess ->
    valid_length passengers ->
    let body :=
      connectionSearchBody (sSessionID sess) fs ts
        (getTime (new_Date_string host_parse departure0))
        (repeat defaultPassenger (Z.to_nat passengers)) in
    PrimaryCase from to departure0 passengers
      ([lookup_request from; lookup_request to; CreateSession sessionBody;
        SearchConnectionInfo1 body],
       let! result := settle (answer upstream (SearchConnectionInfo1 body)) in
       Return (sSessionID sess, result)).

(** The six ways in which [searchConnections] can go. *)
Inductive SearchRun (from to departure0 : string) (passengers : Z)
    : M ConnectionSearchResult -> Prop :=
| run_lookup_fails e :
    (station_outcome upstream from = Throw e \/ station_outcome upstream to = Throw e) ->
    SearchRun from to departure0 passengers
      ([lookup_request from; lookup_request to], Throw e)
| run_session_fails fs ts e :
    station_outcome upstream from = Return fs ->
    station_outcome upstream to = Return ts ->
    session_reply upstream = Throw e ->
    SearchRun from to departure0 passengers
      ([lookup_request from; lookup_request to; CreateSession sessionBody], Throw e)
| run_passengers_rejected fs ts sess :
    station_outcome upstream from = Return fs ->
    station_outcome upstream to = Return ts ->
    session_reply upstream = Return sess ->
    ~ valid_length passengers ->
    SearchRun from to departure0 passengers
      ([lookup_request from; lookup_request to; CreateSession sessionBody],
       Throw (RangeError "Invalid array length"))
| run_search_fails fs ts sess e :
    station_outcome upstream from = Return fs ->
    station_outcome upstream to = Return ts ->
    session_reply upstream = Return sess ->
    valid_length passengers ->
    let body :=
      connectionSearchBody (sSessionID sess) fs ts
        (getTime (new_Date_string host_parse departure0))
        (repeat defaultPassenger (Z.to_nat passengers)) in
    settle (answer upstream (SearchConnectionInfo1 body)) = Throw e ->
    SearchRun from to departure0 passengers
      ([lookup_request from; lookup_request to; CreateSession sessionBody;
        SearchConnectionInfo1 body], Throw e)
| run_no_list fs ts sess result :
    station_outcome upstream from = Return fs ->
    station_outcome upstream to = Return ts ->
    session_reply upstream = Return sess ->
    valid_length passengers ->
    let body :=
      connectionSearchBody (sSessionID sess) fs ts
        (getTime (new_Date_string host_parse departure0))
        (repeat defaultPassenger (Z.to_nat passengers)) in
    settle (answer upstream (SearchConnectionInfo1 body)) = Return result ->
    raw_connections result = None ->
    SearchRun from to departure0 passengers
      ([lookup_request from; lookup_request to; CreateSession sessionBody;
        SearchConnectionInfo1 body],
       Return {| handle := None; connections := [] |})
| run_list fs ts sess info raws :
    station_outcome upstream from = Return fs ->
    station_outcome upstream to = Return ts ->
    session_reply upstream = Return sess ->
    valid_length passengers ->
    let body :=
      connectionSearchBody (sSessionID sess) fs ts
        (getTime (new_Date_string host_parse departure0))
        (repeat defaultPassenger (Z.to_nat passengers)) in
    settle (answer upstream (SearchConnectionInfo1 body)) = Return (Some info) ->
    raw_connections (Some info) = Some raws ->
    SearchRun from to departure0 passengers
      ([lookup_request from; lookup_request to; CreateSession sessionBody;
        SearchConnectionInfo1 body;
        price_request (sSessionID sess) passengers info raws],
       let! cs :=
         emapi (toConnection host_parse departure0
                  (merged_prices
                     (price_reply upstream (sSessionID sess) passengers info raws) raws))
               raws in
       Return {| handle := Some (Z_toString (iHandle info)); connections := cs |}).

End Runs.
(** * Properties *)

(** ** Decimal digits *)

Lemma digit_cases (d : Z) :
  0 <= d <= 9 ->
  d = 0 \/ d = 1 \/ d = 2 \/ d = 3 \/ d = 4 \/ d = 5 \/ d = 6 \/ d = 7 \/ d = 8 \/ d = 9.
Proof. lia. Qed.

Lemma is_digit_digit_char (d : Z) : 0 <= d <= 9 -> is_digit (digit_char d) = true.
Proof.
  intros H. destruct (digit_cases d H) as [E|[E|[E|[E|[E|[E|[E|[E|[E|E]]]]]]]]];
    subst d; reflexivity.
Qed.

Lemma digit_value_digit_char (d : Z) : 0 <= d <= 9 -> digit_value (digit_char d) = d.
Proof.
  intros H. destruct (digit_cases d H) as [E|[E|[E|[E|[E|[E|[E|[E|[E|E]]]]]]]]];
    subst d; reflexivity.
Qed.

Lemma mod10_digit (v : Z) : 0 <= v mod 10 <= 9.
Proof. pose proof (Z.mod_pos_bound v 10). lia. Qed.

Lemma pow10_pos (k : nat) : 0 < 10 ^ Z.of_nat k.
Proof. apply Z.pow_pos_nonneg; lia. Qed.

Lemma pow10_S (k : nat) : 10 ^ Z.of_nat (S k) = 10 ^ Z.of_nat k * 10.
Proof. rewrite Nat2Z.inj_succ, Z.pow_succ_r by lia. lia. Qed.

(** The digit added in front of [pad k v] completes [v mod 10^k] to
    [v mod 10^(k+1)]. *)
Lemma mod_pow10_S (k : nat) (v : Z) :
  v mod 10 ^ Z.of_nat (S k) =
  ((v / 10 ^ Z.of_nat k) mod 10) * 10 ^ Z.of_nat k + v mod 10 ^ Z.of_nat k.
Proof.
  rewrite pow10_S, Z.rem_mul_r by (pose proof (pow10_pos k); lia). lia.
Qed.

Lemma read_digits_pad (n : nat) (v acc : Z) :
  read_digits acc (pad n v) = acc * 10 ^ Z.of_nat n + v mod 10 ^ Z.of_nat n.
Proof.
  revert acc. induction n as [|k IH]; intros acc.
  - simpl. rewrite Z.mod_1_r. lia.
  - cbn [pad read_digits]. rewrite IH.
    rewrite digit_value_digit_char by apply mod10_digit.
    rewrite (mod_pow10_S k v), pow10_S. lia.
Qed.

Lemma take_digits_pad (n : nat) (v acc : Z) (rest : string) :
  take_digits n acc (pad n v +++ rest) =
  Some (acc * 10 ^ Z.of_nat n + v mod 10 ^ Z.of_nat n, rest).
Proof.
  revert acc. induction n as [|k IH]; intros acc.
  - simpl. rewrite Z.mod_1_r. do 2 f_equal. lia.
  - cbn [pad take_digits String.append].
    rewrite is_digit_digit_char by apply mod10_digit. rewrite IH.
    rewrite digit_value_digit_char by apply mod10_digit.
    rewrite (mod_pow10_S k v), pow10_S. do 2 f_equal. lia.
Qed.

Lemma span_digits_no_digit (s : string) : no_digit_ahead s -> span_digits s = ("", s).
Proof. destruct s as [|c s]; simpl; [reflexivity | intros ->; reflexivity]. Qed.

Lemma span_digits_pad (n : nat) (v : Z) (rest : string) :
  no_digit_ahead rest -> span_digits (pad n v +++ rest) = (pad n v, rest).
Proof.
  intros H. induction n as [|k IH].
  - simpl. now apply span_digits_no_digit.
  - cbn [pad span_digits String.append].
    rewrite is_digit_digit_char by apply mod10_digit. now rewrite IH.
Qed.

Lemma ndigits_bound (fuel : nat) (v : Z) :
  0 <= v < 2 ^ Z.of_nat (S fuel) -> v < 10 ^ Z.of_nat (ndigits fuel v).
Proof.
  revert v. induction fuel as [|f IH]; intros v Hv.
  - simpl in *. lia.
  - cbn [ndigits]. destruct (Z.ltb_spec v 10) as [Hlt|Hge].
    + simpl. lia.
    + rewrite pow10_S.
      assert (Hq : 0 <= v / 10 < 2 ^ Z.of_nat (S f)).
      { split; [apply Z.div_pos; lia|].
        apply Z.div_lt_upper_bound; [lia|].
        replace (Z.of_nat (S (S f))) with (Z.succ (Z.of_nat (S f))) in Hv by lia.
        rewrite Z.pow_succ_r in Hv by lia. lia. }
      specialize (IH _ Hq).
      pose proof (Z.div_mod v 10 ltac:(lia)). pose proof (Z.mod_pos_bound v 10 ltac:(lia)).
      lia.
Qed.

Lemma num_digits_bound (v : Z) : 0 <= v -> v < 10 ^ Z.of_nat (num_digits v).
Proof.
  intros Hv. unfold num_digits. apply ndigits_bound. split; [exact Hv|].
  destruct (Z.eq_dec v 0) as [->|Hn].
  - apply Z.pow_pos_nonneg; lia.
  - pose proof (Z.log2_spec v ltac:(lia)) as [_ H].
    pose proof (Z.log2_nonneg v).
    rewrite Nat2Z.inj_succ, Z2Nat.id by lia. exact H.
Qed.

Lemma num_digits_pos (v : Z) : exists k, num_digits v = S k.
Proof.
  unfold num_digits. destruct (Z.to_nat (Z.log2 v)) as [|f]; simpl.
  - now exists O.
  - destruct (v <? 10); eauto.
Qed.

(** Reading back the decimal form of a non-negative integer. *)
Lemma read_digits_num (v : Z) : 0 <= v -> read_digits 0 (pad (num_digits v) v) = v.
Proof.
  intros Hv. rewrite read_digits_pad.
  rewrite Z.mod_small by (split; [exact Hv | now apply num_digits_bound]). lia.
Qed.

Lemma pad_nonempty (v : Z) : exists c s, pad (num_digits v) v = String c s.
Proof. destruct (num_digits_pos v) as [k ->]. simpl. eauto. Qed.

Lemma pad_head_digit (n : nat) (v : Z) c s : pad n v = String c s -> is_digit c = true.
Proof.
  destruct n; simpl; [discriminate|]. intros [= <- _].
  apply is_digit_digit_char, mod10_digit.
Qed.

Lemma parseInt_Z_toString (v : Z) (rest : string) :
  no_digit_ahead rest -> parseInt (Z_toString v +++ rest) = Some v.
Proof.
  intros Hrest. unfold Z_toString. destruct (Z.ltb_spec v 0) as [Hneg|Hpos].
  - cbn [parseInt String.append]. rewrite span_digits_pad by exact Hrest.
    destruct (pad_nonempty (- v)) as (c & s & E). rewrite E at 1.
    rewrite read_digits_num by lia. f_equal. lia.
  - destruct (pad_nonempty v) as (c & s & E).
    pose proof (pad_head_digit _ _ _ _ E) as Hc.
    unfold parseInt.
    assert (Hsplit :
      match pad (num_digits v) v +++ rest with
      | String "-" r => (true, r)
      | String "+" r => (false, r)
      | _ => (false, pad (num_digits v) v +++ rest)
      end = (false, pad (num_digits v) v +++ rest)).
    { rewrite E. cbn [String.append].
      destruct c as [[] [] [] [] [] [] [] []]; try reflexivity; discriminate Hc. }
    rewrite Hsplit, span_digits_pad by exact Hrest.
    rewrite E at 1. now rewrite read_digits_num.
Qed.

(** ** The regular expression of [parseDate] *)

Lemma strip_prefix_app (p s : string) : strip_prefix p (p +++ s) = Some s.
Proof.
  induction p as [|a p IH]; simpl; [reflexivity|]. now rewrite Ascii.eqb_refl.
Qed.

Lemma strip_prefix_Some (p s r : string) : strip_prefix p s = Some r -> s = p +++ r.
Proof.
  revert s. induction p as [|a p IH]; intros s; simpl.
  - now intros [= ->].
  - destruct s as [|b s]; [discriminate|].
    destruct (Ascii.eqb_spec a b) as [->|]; [|discriminate].
    intros H. now rewrite (IH _ H).
Qed.

Lemma span_digits_spec (s d r : string) :
  span_digits s = (d, r) -> s = d +++ r /\ all_digits d = true /\ no_digit_ahead r.
Proof.
  revert d r. induction s as [|c s IH]; intros d r; simpl.
  - intros [= <- <-]. now repeat split.
  - destruct (is_digit c) eqn:Hc.
    + destruct (span_digits s) as [d' r'] eqn:E. intros [= <- <-].
      destruct (IH _ _ eq_refl) as (-> & Hd & Hr). simpl. rewrite Hc. now repeat split.
    + intros [= <- <-]. simpl. now repeat split.
Qed.

Lemma span_digits_all (d r : string) :
  all_digits d = true -> no_digit_ahead r -> span_digits (d +++ r) = (d, r).
Proof.
  intros Hd Hr. induction d as [|c d IH]; simpl.
  - now apply span_digits_no_digit.
  - simpl in Hd. apply andb_prop in Hd as [Hc Hd]. now rewrite Hc, IH.
Qed.

Lemma all_digits_pad (n : nat) (v : Z) : all_digits (pad n v) = true.
Proof.
  induction n as [|k IH]; simpl; [reflexivity|].
  now rewrite is_digit_digit_char by apply mod10_digit.
Qed.

Lemma is_signed_integer_Z_toString (v : Z) : is_signed_integer (Z_toString v) = true.
Proof.
  unfold Z_toString. destruct (v <? 0).
  - cbn [is_signed_integer]. rewrite all_digits_pad.
    destruct (pad_nonempty (- v)) as (c & s & ->). reflexivity.
  - destruct (pad_nonempty v) as (c & s & E).
    pose proof (pad_head_digit _ _ _ _ E) as Hc.
    pose proof (all_digits_pad (num_digits v) v) as Ha. rewrite E in *.
    unfold is_signed_integer.
    destruct c as [[] [] [] [] [] [] [] []]; try discriminate Hc;
      cbn [truthy andb]; exact Ha.
Qed.

(** At one position the pattern matches exactly the strings that start with
    the wrapper around a signed integer, and captures that integer. *)
Lemma match_here_complete (g post : string) :
  is_signed_integer g = true -> match_here ("/Date(" +++ g +++ ")/" +++ post) = Some g.
Proof.
  intros Hg. unfold match_here.
  change (strip_prefix "/Date(" ("/Date(" +++ g +++ ")/" +++ post))
    with (Some (g +++ ")/" +++ post)).
  assert (Hnd : no_digit_ahead (")/" +++ post)) by reflexivity.
  destruct g as [|c g]; [discriminate|].
  destruct (Ascii.eqb_spec c "-") as [->|Hc].
  - cbn [String.append]. cbn [is_signed_integer] in Hg.
    apply andb_prop in Hg as [Hne Hd].
    rewrite span_digits_all by assumption.
    destruct g as [|c' g]; [discriminate|]. reflexivity.
  - assert (Hd : all_digits (String c g) = true).
    { unfold is_signed_integer in Hg.
      destruct c as [[] [] [] [] [] [] [] []];
        try (apply andb_prop in Hg as [_ Hg]; exact Hg); now contradiction Hc. }
    assert (Hsplit :
      match String c g +++ ")/" +++ post with
      | String "-" r => ("-", r)
      | _ => ("", String c g +++ ")/" +++ post)
      end = ("", String c g +++ ")/" +++ post)).
    { cbn [String.append].
      destruct c as [[] [] [] [] [] [] [] []]; try reflexivity; now contradiction Hc. }
    rewrite Hsplit, span_digits_all by assumption. reflexivity.
Qed.

Lemma match_here_sound (s g : string) :
  match_here s = Some g ->
  exists post, s = "/Date(" +++ g +++ ")/" +++ post /\ is_signed_integer g = true.
Proof.
  unfold match_here. destruct (strip_prefix "/Date(" s) as [r1|] eqn:E1; [|discriminate].
  apply strip_prefix_Some in E1. subst s.
  assert (Hcases : (exists r, r1 = String "-" r /\
                      (match r1 with String "-" r => ("-", r) | _ => ("", r1) end) = ("-", r))
                   \/ ((match r1 with String "-" r => ("-", r) | _ => ("", r1) end) = ("", r1)
                       /\ forall r, r1 <> String "-" r)).
  { destruct r1 as [|c r]; [right; split; [reflexivity | discriminate]|].
    destruct (Ascii.eqb_spec c "-") as [->|Hc]; [left; eauto|].
    right. split; [|intros r' [= -> _]; now contradiction Hc].
    destruct c as [[] [] [] [] [] [] [] []]; try reflexivity; now contradiction Hc. }
  destruct Hcases as [(r & -> & _) | (-> & Hno)].
  - cbv beta iota. destruct (span_digits r) as [ds r3] eqn:E2.
    apply span_digits_spec in E2 as (-> & Hd & _).
    destruct ds as [|c ds]; [discriminate|].
    destruct (strip_prefix ")/" r3) as [post|] eqn:E3; [|discriminate].
    apply strip_prefix_Some in E3. subst r3. intros [= <-].
    exists post. split.
    + reflexivity.
    + cbn [String.append is_signed_integer]. now rewrite Hd.
  - destruct (span_digits r1) as [ds r3] eqn:E2.
    apply span_digits_spec in E2 as (-> & Hd & _).
    destruct ds as [|c ds]; [discriminate|].
    destruct (strip_prefix ")/" r3) as [post|] eqn:E3; [|discriminate].
    apply strip_prefix_Some in E3. subst r3. intros [= <-].
    exists post. split; [reflexivity|].
    cbn [String.append]. unfold is_signed_integer.
    destruct (Ascii.eqb_spec c "-") as [->|Hc]; [now contradiction (Hno (ds +++ ")/" +++ post))|].
    destruct c as [[] [] [] [] [] [] [] []]; try (cbn [truthy andb]; exact Hd);
      now contradiction Hc.
Qed.

Lemma regex_match_unfold (s : string) :
  regex_match s =
  match match_here s with
  | Some g => Some g
  | None => match s with String _ s' => regex_match s' | EmptyString => None end
  end.
Proof. destruct s; reflexivity. Qed.

(** [regex_match] finds a capture exactly when the pattern occurs. *)
Lemma regex_match_sound (s g : string) :
  regex_match s = Some g ->
  exists pre post, s = pre +++ "/Date(" +++ g +++ ")/" +++ post /\ is_signed_integer g = true.
Proof.
  induction s as [|c s IH]; rewrite regex_match_unfold.
  - destruct (match_here "") eqn:E; [|discriminate]. intros [= <-].
    apply match_here_sound in E as (post & E & Hg). now exists "", post.
  - destruct (match_here (String c s)) eqn:E.
    + intros [= <-]. apply match_here_sound in E as (post & E & Hg). now exists "", post.
    + intros H. destruct (IH H) as (pre & post & -> & Hg).
      now exists (String c pre), post.
Qed.

Lemma regex_match_complete (pre g post : string) :
  is_signed_integer g = true ->
  exists g', regex_match (pre +++ "/Date(" +++ g +++ ")/" +++ post) = Some g'.
Proof.
  intros Hg. induction pre as [|c pre IH]; rewrite regex_match_unfold.
  - change ("" +++ "/Date(" +++ g +++ ")/" +++ post) with ("/Date(" +++ g +++ ")/" +++ post).
    rewrite (match_here_complete g post Hg). eauto.
  - destruct (match_here _); [eauto|]. exact IH.
Qed.

Lemma regex_match_None_iff (s : string) : regex_match s = None <-> ~ matches_pattern s.
Proof.
  split.
  - intros H (pre & g & post & -> & Hg).
    destruct (regex_match_complete pre g post Hg) as [g' E]. congruence.
  - intros H. destruct (regex_match s) as [g|] eqn:E; [|reflexivity].
    exfalso. apply H. apply regex_match_sound in E as (pre & post & E & Hg).
    now exists pre, g, post.
Qed.

(** When the string starts with the wrapper the leftmost match is that
    one. *)
Lemma regex_match_wrapper (g post : string) :
  is_signed_integer g = true -> regex_match ("/Date(" +++ g +++ ")/" +++ post) = Some g.
Proof.
  intros Hg. rewrite regex_match_unfold. now rewrite (match_here_complete g post Hg).
Qed.

(** ** The calendar *)

Lemma InLeapYear_cases (y : Z) :
  (InLeapYear y = 0 /\ DaysInYear y = 365) \/ (InLeapYear y = 1 /\ DaysInYear y = 366).
Proof.
  unfold InLeapYear, DaysInYear.
  destruct ((y mod 4 =? 0) && (negb (y mod 100 =? 0) || (y mod 400 =? 0))); simpl; auto.
Qed.

(** Consecutive years start [DaysInYear] days apart. *)
Lemma DayFromYear_succ (y : Z) : DayFromYear (y + 1) = DayFromYear y + DaysInYear y.
Proof.
  unfold DayFromYear, DaysInYear.
  destruct (Z.eqb_spec (y mod 4) 0) as [H4|H4];
    destruct (Z.eqb_spec (y mod 100) 0) as [H100|H100];
    destruct (Z.eqb_spec (y mod 400) 0) as [H400|H400];
    cbn [andb orb negb]; Z.div_mod_to_equations; lia.
Qed.

(** [YearFromDay d] is the year whose days include [d]. *)
Lemma YearFromDay_spec (d : Z) :
  DayFromYear (YearFromDay d) <= d < DayFromYear (YearFromDay d + 1).
Proof.
  unfold YearFromDay.
  set (y := 1970 + 400 * d / 146097).
  assert (Hlo : DayFromYear (y - 1) <= d).
  { subst y. unfold DayFromYear. Z.div_mod_to_equations. lia. }
  assert (Hhi : d < DayFromYear (y + 1 + 1)).
  { subst y. unfold DayFromYear. Z.div_mod_to_equations. lia. }
  destruct (Z.leb_spec (DayFromYear (y + 1)) d) as [H1|H1]; [lia|].
  destruct (Z.leb_spec (DayFromYear y) d) as [H0|H0]; [lia|].
  replace (y - 1 + 1) with y by lia. lia.
Qed.

Lemma DayWithinYear_bound (d : Z) :
  0 <= d - DayFromYear (YearFromDay d) < 365 + InLeapYear (YearFromDay d).
Proof.
  pose proof (YearFromDay_spec d) as H. rewrite DayFromYear_succ in H.
  destruct (InLeapYear_cases (YearFromDay d)) as [[-> E]|[-> E]]; lia.
Qed.

Lemma MonthFromDay_spec (diy leap : Z) :
  (leap = 0 \/ leap = 1) -> 0 <= diy < 365 + leap ->
  let m := MonthFromDay diy leap in
  0 <= m <= 11 /\
  month_start m leap <= diy < month_start m leap + DaysInMonth m leap.
Proof.
  intros Hl Hd. unfold MonthFromDay.
  repeat match goal with
         | |- context [?a <? ?b] => destruct (Z.ltb_spec a b)
         end;
    cbv zeta; unfold month_start, DaysInMonth; cbn [Z.eqb Pos.eqb orb]; lia.
Qed.

Lemma year_of_valid_day (d : Z) :
  -100000000 <= d <= 100000000 -> -271821 <= YearFromDay d <= 275760.
Proof.
  intros Hd. pose proof (YearFromDay_spec d) as H.
  unfold DayFromYear in H. Z.div_mod_to_equations. lia.
Qed.

Lemma Day_of_valid_time (t : Z) :
  Z.abs t <= maxTime -> -100000000 <= Day t <= 100000000.
Proof.
  unfold maxTime, Day, msPerDay. intros H. Z.div_mod_to_equations. lia.
Qed.

(** ** Reading an ISO string back *)

Lemma parse_year_digit (c : ascii) (r : string) :
  is_digit c = true -> parse_year (String c r) = take_digits 4 0 (String c r).
Proof.
  intros Hc. unfold parse_year.
  destruct c as [[] [] [] [] [] [] [] []]; try reflexivity; discriminate Hc.
Qed.

Lemma parse_year_string (y : Z) (rest : string) :
  -999999 <= y <= 999999 -> parse_year (year_string y +++ rest) = Some (y, rest).
Proof.
  intros Hy. unfold year_string.
  destruct (Z.leb_spec 0 y) as [H0|H0]; [destruct (Z.leb_spec y 9999) as [H1|H1]|];
    cbn [andb].
  - change (pad 4 y +++ rest)
      with (String (digit_char ((y / 10 ^ Z.of_nat 3) mod 10)) (pad 3 y +++ rest)).
    rewrite parse_year_digit by (apply is_digit_digit_char, mod10_digit).
    change (String (digit_char ((y / 10 ^ Z.of_nat 3) mod 10)) (pad 3 y +++ rest))
      with (pad 4 y +++ rest).
    rewrite take_digits_pad. rewrite Z.mod_small by (simpl; lia). reflexivity.
  - destruct (Z.ltb_spec y 0); [lia|].
    cbn [String.append parse_year]. rewrite take_digits_pad.
    rewrite Z.mod_small by (simpl; lia). reflexivity.
  - destruct (Z.ltb_spec y 0); [|lia].
    cbn [String.append parse_year]. rewrite take_digits_pad.
    rewrite Z.mod_small by (simpl; lia). cbn [Z.mul Z.add].
    destruct (Z.eqb_spec (- y) 0); [lia|]. do 2 f_equal. lia.
Qed.

Lemma take_two (v : Z) (rest : string) :
  0 <= v <= 99 -> take_digits 2 0 (pad 2 v +++ rest) = Some (v, rest).
Proof.
  intros Hv. rewrite take_digits_pad, Z.mod_small by (simpl; lia). reflexivity.
Qed.

Lemma take_three (v : Z) (rest : string) :
  0 <= v <= 999 -> take_digits 3 0 (pad 3 v +++ rest) = Some (v, rest).
Proof.
  intros Hv. rewrite take_digits_pad, Z.mod_small by (simpl; lia). reflexivity.
Qed.

Lemma expect_head (c : ascii) (r : string) : expect c (String c r) = Some r.
Proof. simpl. now rewrite Ascii.eqb_refl. Qed.

(** The fields written in the complete form are the fields read. *)
Lemma parse_iso_utc_fields (y mo dt h mi s ms : Z) :
  -999999 <= y <= 999999 -> 1 <= mo <= 12 ->
  1 <= dt <= DaysInMonth (mo - 1) (InLeapYear y) ->
  0 <= h <= 23 -> 0 <= mi <= 59 -> 0 <= s <= 59 -> 0 <= ms <= 999 ->
  parse_iso_utc
    (year_string y +++ "-" +++ pad 2 mo +++ "-" +++ pad 2 dt +++ "T" +++
     pad 2 h +++ ":" +++ pad 2 mi +++ ":" +++ pad 2 s +++ "." +++ pad 3 ms +++ "Z")
  = TimeClip (Some (MakeDate (MakeDay y (mo - 1) dt) (MakeTime h mi s ms))).
Proof.
  intros Hy Hmo Hdt Hh Hmi Hs Hms. unfold parse_iso_utc.
  assert (Hdt' : dt <= 31).
  { destruct Hdt as [_ Hdt]. revert Hdt. unfold DaysInMonth.
    destruct (InLeapYear_cases y) as [[-> _]|[-> _]];
      destruct (mo - 1 =? 1); destruct ((mo - 1 =? 3) || (mo - 1 =? 5) || (mo - 1 =? 8) || (mo - 1 =? 10));
      lia. }
  rewrite parse_year_string by exact Hy.
  change ("-" +++ ?r) with (String "-" r). rewrite expect_head.
  rewrite take_two by lia.
  change ("-" +++ ?r) with (String "-" r). rewrite expect_head.
  rewrite take_two by lia.
  change ("T" +++ ?r) with (String "T" r). rewrite expect_head.
  rewrite take_two by lia.
  change (":" +++ ?r) with (String ":" r). rewrite expect_head.
  rewrite take_two by lia.
  change (":" +++ ?r) with (String ":" r). rewrite expect_head.
  rewrite take_two by lia.
  change ("." +++ ?r) with (String "." r). rewrite expect_head.
  rewrite take_three by lia.
  change (expect "Z" "Z") with (Some "").
  replace ((1 <=? mo) && (mo <=? 12) && (1 <=? dt) &&
           (dt <=? DaysInMonth (mo - 1) (InLeapYear y)) &&
           (h <=? 23) && (mi <=? 59) && (s <=? 59)) with true; [reflexivity|].
  symmetry. repeat (apply andb_true_intro; split); apply Z.leb_le; lia.
Qed.

Lemma TimeClip_valid (t : Z) : Z.abs t <= maxTime -> TimeClip (Some t) = Some t.
Proof. intros H. unfold TimeClip. destruct (Z.leb_spec (Z.abs t) maxTime); [reflexivity | lia]. Qed.

(** [Date.parse(x.toISOString())] is the time value of [x]. *)
Lemma parse_iso_utc_iso_string (t : Z) :
  Z.abs t <= maxTime -> parse_iso_utc (iso_string t) = Some t.
Proof.
  intros Ht. unfold iso_string.
  set (day := Day t). set (time := TimeWithinDay t).
  set (year := YearFromDay day). set (leap := InLeapYear year).
  set (diy := day - DayFromYear year). set (month := MonthFromDay diy leap).
  cbv zeta.
  pose proof (Day_of_valid_time t Ht) as Hday. fold day in Hday.
  pose proof (year_of_valid_day day Hday) as Hyear. fold year in Hyear.
  pose proof (DayWithinYear_bound day) as Hdiy. fold year diy leap in Hdiy.
  assert (Hleap : leap = 0 \/ leap = 1).
  { subst leap. destruct (InLeapYear_cases year) as [[-> _]|[-> _]]; auto. }
  pose proof (MonthFromDay_spec diy leap Hleap Hdiy) as Hm. cbv zeta in Hm.
  fold month in Hm. destruct Hm as [Hm Hstart].
  assert (Htime : 0 <= time < 86400000).
  { subst time. unfold TimeWithinDay, msPerDay. apply Z.mod_pos_bound. lia. }
  rewrite parse_iso_utc_fields.
  - replace (month + 1 - 1) with month by lia.
    assert (E : MakeDate (MakeDay year month (diy - month_start month leap + 1))
                  (MakeTime (time / 3600000) ((time / 60000) mod 60)
                     ((time / 1000) mod 60) (time mod 1000)) = t).
    { unfold MakeDate, MakeDay, MakeTime. fold leap.
      replace (DayFromYear year + month_start month leap +
               (diy - month_start month leap + 1) - 1) with day by (subst diy; lia).
      assert (Et : time / 3600000 * 3600000 + (time / 60000) mod 60 * 60000 +
                   (time / 1000) mod 60 * 1000 + time mod 1000 = time).
      { clear -Htime. Z.div_mod_to_equations. lia. }
      rewrite Et. subst day time. unfold Day, TimeWithinDay, msPerDay.
      pose proof (Z.div_mod t 86400000 ltac:(lia)). lia. }
    rewrite E. now apply TimeClip_valid.
  - lia.
  - lia.
  - replace (month + 1 - 1) with month by lia. fold leap. lia.
  - clear -Htime. Z.div_mod_to_equations. lia.
  - clear -Htime. pose proof (Z.mod_pos_bound (time / 60000) 60 ltac:(lia)). lia.
  - clear -Htime. pose proof (Z.mod_pos_bound (time / 1000) 60 ltac:(lia)). lia.
  - clear -Htime. pose proof (Z.mod_pos_bound time 1000 ltac:(lia)). lia.
Qed.

(** ** [Math.round] *)

Lemma Math_round_spec (q : Q) :
  (inject_Z (Math_round q) - (1 # 2) <= q)%Q /\ (q < inject_Z (Math_round q) + (1 # 2))%Q.
Proof.
  unfold Math_round. pose proof (Qfloor_le (q + (1 # 2))) as Hle.
  pose proof (Qlt_floor (q + (1 # 2))) as Hlt.
  set (n := Qfloor (q + (1 # 2))) in *. split.
  - apply (Qplus_le_l _ _ (1 # 2)). ring_simplify. ring_simplify in Hle. exact Hle.
  - apply (Qplus_lt_l _ _ (1 # 2)).
    assert (E : (inject_Z n + (1 # 2) + (1 # 2) == inject_Z (n + 1))%Q).
    { rewrite inject_Z_plus. ring. }
    rewrite E. exact Hlt.
Qed.

(** On a whole number of milliseconds. *)
Lemma Math_round_minutes (x : Z) :
  Math_round (inject_Z x / 60000) = (x + 30000) / 60000.
Proof.
  unfold Math_round, Qfloor, Qplus, Qdiv, Qmult, Qinv, inject_Z. simpl.
  Z.div_mod_to_equations. lia.
Qed.

(** ** The monad *)

Lemma bind_ret_l {A B} (a : A) (f : A -> M B) : bind (ret a) f = f a.
Proof. unfold bind, ret. simpl. now destruct (f a). Qed.

Lemma bind_assoc {A B C} (m : M A) (f : A -> M B) (g : B -> M C) :
  bind (bind m f) g = bind m (fun a => bind (f a) g).
Proof.
  destruct m as [t1 [e|a]]; simpl; [reflexivity|].
  destruct (f a) as [t2 [e|b]]; simpl; [reflexivity|].
  destruct (g b) as [t3 r]. now rewrite app_assoc.
Qed.

Lemma bind_ext {A B} (m : M A) (f g : A -> M B) :
  (forall a, f a = g a) -> bind m f = bind m g.
Proof. intros H. destruct m as [t [e|a]]; simpl; [reflexivity | now rewrite H]. Qed.

Lemma bind_Return {A B} (t : list Request) (a : A) (f : A -> M B) :
  bind (t, Return a) f = (t ++ fst (f a), snd (f a)).
Proof. unfold Return. simpl. now destruct (f a). Qed.

Lemma bind_inv_Return {A B} (m : M A) (f : A -> M B) t b :
  bind m f = (t, Return b) ->
  exists t1 a t2, m = (t1, Return a) /\ f a = (t2, Return b) /\ t = t1 ++ t2.
Proof.
  destruct m as [t1 [e|a]]; simpl; [discriminate|].
  destruct (f a) as [t2 r] eqn:E. intros [= <- ->]. now exists t1, a, t2.
Qed.

(** ** Traversals that may throw *)

Lemma emap_Return_length {A B} (f : A -> Exc B) (l : list A) (r : list B) :
  emap f l = Return r -> List.length r = List.length l.
Proof.
  revert r. induction l as [|x xs IH]; intros r; simpl.
  - now intros [= <-].
  - destruct (f x) as [e|y]; simpl; [discriminate|].
    destruct (emap f xs) as [e|ys]; simpl; [discriminate|].
    intros [= <-]. simpl. now rewrite (IH ys).
Qed.

Lemma emap_Return_nth {A B} (f : A -> Exc B) (l : list A) (r : list B) :
  emap f l = Return r ->
  forall i y, nth_error r i = Some y -> exists x, nth_error l i = Some x /\ f x = Return y.
Proof.
  revert r. induction l as [|x xs IH]; intros r; simpl.
  - intros [= <-] [|i] y; discriminate.
  - destruct (f x) as [e|y0] eqn:Ex; simpl; [discriminate|].
    destruct (emap f xs) as [e|ys]; simpl; [discriminate|].
    intros [= <-] [|i] y; simpl.
    + intros [= <-]. now exists x.
    + now apply IH.
Qed.

Lemma emap_total {A B} (f : A -> Exc B) (l : list A) :
  Forall (fun x => exists y, f x = Return y) l -> exists r, emap f l = Return r.
Proof.
  induction 1 as [|x xs [y Hy] _ [r IH]]; simpl.
  - now exists [].
  - rewrite Hy, IH. simpl. eauto.
Qed.

Lemma emapi_from_Return {A B} (f : A -> nat -> Exc B) (l : list A) (k : nat) (r : list B) :
  emapi_from k f l = Return r ->
  List.length r = List.length l /\
  forall i, (i < List.length l)%nat ->
    exists x y, nth_error l i = Some x /\ nth_error r i = Some y /\
                f x (k + i)%nat = Return y.
Proof.
  revert k r. induction l as [|x xs IH]; intros k r; simpl.
  - intros [= <-]. split; [reflexivity | intros i Hi; lia].
  - destruct (f x k) as [e|y0] eqn:Ex; simpl; [discriminate|].
    destruct (emapi_from (S k) f xs) as [e|ys] eqn:Exs; simpl; [discriminate|].
    intros [= <-]. destruct (IH _ _ Exs) as [Hlen Hnth]. split; [simpl; now rewrite Hlen|].
    intros [|i] Hi.
    + exists x, y0. now rewrite Nat.add_0_r.
    + destruct (Hnth i ltac:(lia)) as (x' & y' & H1 & H2 & H3).
      exists x', y'. simpl. now rewrite Nat.add_succ_r.
Qed.

Lemma emapi_from_total {A B} (f : A -> nat -> Exc B) (l : list A) (k : nat) :
  (forall x i, nth_error l i = Some x -> exists y, f x (k + i)%nat = Return y) ->
  exists r, emapi_from k f l = Return r.
Proof.
  revert k. induction l as [|x xs IH]; intros k H; simpl.
  - now exists [].
  - destruct (H x 0%nat eq_refl) as [y Hy]. rewrite Nat.add_0_r in Hy. rewrite Hy.
    destruct (IH (S k)) as [r Hr].
    { intros x' i Hx'. destruct (H x' (S i) Hx') as [y' Hy'].
      exists y'. now rewrite Nat.add_succ_r in Hy'. }
    rewrite Hr. simpl. eauto.
Qed.

(** The result of [arr.map((x, idx) => f(x, idx))], element by element. *)
Lemma emapi_Return {A B} (f : A -> nat -> Exc B) (l : list A) (r : list B) :
  emapi f l = Return r ->
  List.length r = List.length l /\
  (forall i x, nth_error l i = Some x ->
     exists y, nth_error r i = Some y /\ f x i = Return y) /\
  (forall i y, nth_error r i = Some y ->
     exists x, nth_error l i = Some x /\ f x i = Return y).
Proof.
  intros H. destruct (emapi_from_Return _ _ _ _ H) as [Hlen Hnth].
  split; [exact Hlen|]. split.
  - intros i x Hx. assert (Hi : (i < List.length l)%nat) by (apply nth_error_Some; congruence).
    destruct (Hnth i Hi) as (x' & y & H1 & H2 & H3). simpl in H3.
    exists y. split; [exact H2|]. congruence.
  - intros i y Hy. assert (Hi : (i < List.length l)%nat).
    { rewrite <- Hlen. apply nth_error_Some. congruence. }
    destruct (Hnth i Hi) as (x & y' & H1 & H2 & H3). simpl in H3.
    exists x. split; [exact H1|]. congruence.
Qed.

(** ** The orchestrator, step by step *)

Section Orchestrator.

Variable host_parse : string -> option Z.
Variable upstream : Upstream.

(** [searchConnections] is the primary part followed by the rest. *)
Lemma searchConnections_factor (from to departure0 : string) (passengers : Z) :
  searchConnections host_parse upstream from to departure0 passengers =
  bind (primarySearch host_parse upstream from to departure0 passengers)
       (fun p => completeSearch host_parse upstream departure0 passengers (fst p) (snd p)).
Proof.
  unfold searchConnections, primarySearch.
  rewrite bind_assoc. apply bind_ext. intros [fromStation toStation].
  rewrite bind_assoc. apply bind_ext. intros sessionID.
  cbv zeta. rewrite bind_assoc. apply bind_ext. intros aoPassengers.
  rewrite bind_assoc. apply bind_ext. intros result.
  rewrite bind_ret_l. reflexivity.
Qed.

Lemma searchConnections_after_primary from to departure0 passengers tr sid result :
  primarySearch host_parse upstream from to departure0 passengers = (tr, Return (sid, result)) ->
  searchConnections host_parse upstream from to departure0 passengers =
  (tr ++ fst (completeSearch host_parse upstream departure0 passengers sid result),
   snd (completeSearch host_parse upstream departure0 passengers sid result)).
Proof. intros H. rewrite searchConnections_factor, H. now rewrite bind_Return. Qed.

Lemma searchConnections_inv from to departure0 passengers t res :
  searchConnections host_parse upstream from to departure0 passengers = (t, Return res) ->
  exists tr sid result t2,
    primarySearch host_parse upstream from to departure0 passengers = (tr, Return (sid, result)) /\
    completeSearch host_parse upstream departure0 passengers sid result = (t2, Return res) /\
    t = tr ++ t2.
Proof.
  rewrite searchConnections_factor. intros H.
  apply bind_inv_Return in H as (tr & [sid result] & t2 & H1 & H2 & ->).
  now exists tr, sid, result, t2.
Qed.

Lemma Array_fill_Return {A} (n : Z) (x : A) (l : list A) :
  Array_fill n x = Return l -> l = repeat x (Z.to_nat n).
Proof. unfold Array_fill. destruct (_ && _); [now intros [= <-] | discriminate]. Qed.

(** A primary call was made only after the passenger list was built. *)
Lemma primarySearch_passengers from to departure0 passengers tr x :
  primarySearch host_parse upstream from to departure0 passengers = (tr, Return x) ->
  Array_fill passengers defaultPassenger =
  Return (repeat defaultPassenger (Z.to_nat passengers)).
Proof.
  unfold primarySearch. intros H.
  apply bind_inv_Return in H as (t1 & [fs ts] & t2 & _ & H & _).
  apply bind_inv_Return in H as (t3 & sid & t4 & _ & H & _).
  cbv zeta in H. apply bind_inv_Return in H as (t5 & ps & t6 & Hps & _ & _).
  unfold lift in Hps. injection Hps as _ Hps.
  now rewrite (Array_fill_Return _ _ _ Hps) in Hps.
Qed.

(** The price look-up issues one request and never throws: a failure of
    any kind becomes a price of zero for every connection. *)
Lemma lookupPrices_run sessionID passengers info raws :
  Array_fill passengers defaultPassenger =
    Return (repeat defaultPassenger (Z.to_nat passengers)) ->
  lookupPrices upstream sessionID passengers (iHandle info) raws =
  ([price_request sessionID passengers info raws],
   Return (merged_prices (price_reply upstream sessionID passengers info raws) raws)).
Proof.
  intros Hfill. unfold lookupPrices, price_request, price_reply, lift. rewrite Hfill.
  rewrite bind_Return. cbn [fst snd app]. unfold postRequest, bind.
  destruct (settle _) as [e|priceResult]; reflexivity.
Qed.

Lemma completeSearch_absent departure0 passengers sessionID result :
  raw_connections result = None ->
  completeSearch host_parse upstream departure0 passengers sessionID result =
  ([], Return {| handle := None; connections := [] |}).
Proof.
  intros H. unfold completeSearch. destruct result as [info|]; [|reflexivity].
  now rewrite H.
Qed.

Lemma completeSearch_present departure0 passengers sessionID info raws :
  raw_connections (Some info) = Some raws ->
  Array_fill passengers defaultPassenger =
    Return (repeat defaultPassenger (Z.to_nat passengers)) ->
  completeSearch host_parse upstream departure0 passengers sessionID (Some info) =
  ([price_request sessionID passengers info raws],
   let! cs := emapi (toConnection host_parse departure0
                       (merged_prices (price_reply upstream sessionID passengers info raws) raws))
                    raws in
   Return {| handle := Some (Z_toString (iHandle info)); connections := cs |}).
Proof.
  intros Hraws Hfill. unfold completeSearch. rewrite Hraws.
  rewrite (lookupPrices_run _ _ _ _ Hfill). rewrite bind_Return.
  unfold lift, bind. cbn [fst snd].
  destruct (emapi _ raws) as [e|cs]; reflexivity.
Qed.

Lemma raw_connections_Some result raws :
  raw_connections result = Some raws -> exists info, result = Some info.
Proof. destruct result as [info|]; [eauto | discriminate]. Qed.

(** ** One connection *)

Lemma toLeg_convertible (leg : RawLeg) :
  leg_convertible leg = true <-> exists l, toLeg leg = Return l.
Proof.
  unfold leg_convertible, convertible, toLeg. split.
  - intros H. apply andb_prop in H as [H1 H2].
    destruct (parseDate (dtDateTime1 leg)) as [e|d]; [discriminate|].
    destruct (parseDate (dtDateTime2 leg)) as [e|a]; [discriminate|].
    simpl. eauto.
  - intros [l H].
    destruct (parseDate (dtDateTime1 leg)) as [e|d]; [discriminate|].
    destruct (parseDate (dtDateTime2 leg)) as [e|a]; [discriminate|]. reflexivity.
Qed.

Lemma toLeg_Return (leg : RawLeg) (l : ConnectionLeg) :
  toLeg leg = Return l ->
  parseDate (dtDateTime1 leg) = Return (leg_departure l) /\
  parseDate (dtDateTime2 leg) = Return (leg_arrival l).
Proof.
  unfold toLeg.
  destruct (parseDate (dtDateTime1 leg)) as [e|d]; [discriminate|].
  destruct (parseDate (dtDateTime2 leg)) as [e|a]; [discriminate|].
  simpl. intros [= <-]. now split.
Qed.

Lemma toConnection_Return departure0 prices conn idx c :
  toConnection host_parse departure0 prices conn idx = Return c ->
  emap toLeg (aoTrains conn) = Return (legs c) /\
  id c = Z_toString (iID conn) /\
  departure c = or_else (option_map leg_departure (nth_error (legs c) 0)) departure0 /\
  arrival c =
    or_else (option_map leg_arrival (nth_error (legs c) (List.length (legs c) - 1)%nat))
            departure0 /\
  duration c = durationMinutes (getTime (new_Date_string host_parse (arrival c)))
                               (getTime (new_Date_string host_parse (departure c))) /\
  transfers c = Z.of_nat (List.length (aoTrains conn)) - 1 /\
  price c = toPrice (nth_error prices idx).
Proof.
  unfold toConnection. destruct (emap toLeg (aoTrains conn)) as [e|ls]; [discriminate|].
  simpl. intros [= <-]. simpl. repeat split; reflexivity.
Qed.

Lemma toConnection_total departure0 prices conn idx :
  forallb leg_convertible (aoTrains conn) = true ->
  exists c, toConnection host_parse departure0 prices conn idx = Return c.
Proof.
  intros H. unfold toConnection.
  destruct (emap_total toLeg (aoTrains conn)) as [ls ->]; [|simpl; eauto].
  apply Forall_forall. intros leg Hin. apply toLeg_convertible.
  rewrite forallb_forall in H. now apply H.
Qed.

Lemma transform_total departure0 prices raws :
  timestamps_convertible raws = true ->
  exists cs, emapi (toConnection host_parse departure0 prices) raws = Return cs.
Proof.
  intros H. apply emapi_from_total. intros conn i Hi.
  apply toConnection_total. unfold timestamps_convertible in H.
  rewrite forallb_forall in H. apply H. eapply nth_error_In; eauto.
Qed.

(** ** Prices *)

Lemma Qlt_bool_iff (a b : Q) : Qlt_bool a b = true <-> (a < b)%Q.
Proof.
  unfold Qlt_bool. rewrite negb_true_iff. split.
  - intros H. apply Qnot_le_lt. intros Hle. apply Qle_bool_iff in Hle. congruence.
  - intros H. destruct (Qle_bool b a) eqn:E; [|reflexivity].
    apply Qle_bool_iff in E. exfalso. now apply (Qlt_not_le _ _ H).
Qed.

Lemma major_units_pos (p : PriceInfo) (v : Z) :
  iPrice p = Some v -> Qlt_bool 0 (major_units p) = (0 <? v).
Proof.
  intros E. unfold major_units, Qlt_bool, Qle_bool, Qdiv, Qmult, Qinv, inject_Z.
  rewrite E. simpl. destruct (Z.ltb_spec 0 v); destruct (Z.leb_spec (v * 1 * 1) 0); simpl; lia.
Qed.

Lemma nth_error_map_const {A B} (l : list A) (b : B) (i : nat) :
  nth_error (map (fun _ => b) l) i = if (i <? List.length l)%nat then Some b else None.
Proof.
  revert i. induction l as [|x xs IH]; intros [|i]; simpl; try reflexivity. apply IH.
Qed.

Lemma toPrice_failed_lookup (raws : list RawConnection) (i : nat) :
  toPrice (nth_error (map (fun _ => 0%Q) raws) i) = None.
Proof. rewrite nth_error_map_const. now destruct (i <? List.length raws)%nat. Qed.

(** The price attached at index [i] after a successful look-up. *)
Lemma toPrice_merged (priceResult : option (list PriceInfo)) raws (i : nat) :
  toPrice (nth_error (merged_prices (Return priceResult) raws) i) =
  match nth_error (or_empty priceResult) i with
  | Some p =>
      match iPrice p with
      | Some v =>
          if 0 <? v
          then Some {| amount := inject_Z v / 100; currency := DEFAULT_CURRENCY |}
          else None
      | None => None
      end
  | None => None
  end.
Proof.
  unfold merged_prices, Return. rewrite nth_error_map.
  destruct (nth_error (or_empty priceResult) i) as [p|]; [|reflexivity].
  simpl. destruct (iPrice p) as [v|] eqn:E.
  - rewrite (major_units_pos p v E). unfold major_units. rewrite E. reflexivity.
  - unfold major_units. rewrite E. reflexivity.
Qed.

End Orchestrator.

(** ** The date codec *)

Example iso_string_examples :
  iso_string 0 = "1970-01-01T00:00:00.000Z" /\
  iso_string (-1) = "1969-12-31T23:59:59.999Z" /\
  iso_string 951782400000 = "2000-02-29T00:00:00.000Z" /\
  iso_string 1765794960000 = "2025-12-15T10:36:00.000Z" /\
  iso_string (-62167219200000) = "0000-01-01T00:00:00.000Z" /\
  iso_string (-62198755200001) = "-000002-12-31T23:59:59.999Z" /\
  iso_string 8640000000000000 = "+275760-09-13T00:00:00.000Z" /\
  iso_string (-8640000000000000) = "-271821-04-20T00:00:00.000Z".
Proof. vm_compute. repeat split; reflexivity. Qed.

Example parseDate_examples :
  parseDate "/Date(1765794960000)/" = Return "2025-12-15T10:36:00.000Z" /\
  parseDate "/Date(-1)/" = Return "1969-12-31T23:59:59.999Z" /\
  parseDate "x/Date(0)/y/Date(1)/" = Return "1970-01-01T00:00:00.000Z" /\
  parseDate "/Date(-)/" = Return "/Date(-)/" /\
  parseDate "/Date(12a)/" = Return "/Date(12a)/" /\
  parseDate "2025-12-15" = Return "2025-12-15" /\
  parseDate "" = Return "".
Proof. vm_compute. repeat split; reflexivity. Qed.

Example Z_toString_examples :
  Z_toString 0 = "0" /\ Z_toString 10 = "10" /\
  Z_toString 1765794960000 = "1765794960000" /\ Z_toString (-42) = "-42".
Proof. vm_compute. repeat split; reflexivity. Qed.

Lemma append_nil_r (s : string) : s +++ "" = s.
Proof. induction s as [|c s IH]; simpl; [reflexivity | now rewrite IH]. Qed.

Lemma span_digits_whole (d : string) : all_digits d = true -> span_digits d = (d, "").
Proof.
  intros H. pose proof (span_digits_all d "" H I) as E. now rewrite append_nil_r in E.
Qed.

Lemma parseInt_Z_toString_whole (v : Z) : parseInt (Z_toString v) = Some v.
Proof.
  pose proof (parseInt_Z_toString v "" I) as E. now rewrite append_nil_r in E.
Qed.

Lemma truthy_signed_integer (g : string) : is_signed_integer g = true -> truthy g = true.
Proof. destruct g as [|c g]; [discriminate | reflexivity]. Qed.

Lemma parseInt_signed_integer (g : string) :
  is_signed_integer g = true -> exists v, parseInt g = Some v.
Proof.
  intros Hg. destruct g as [|c g]; [discriminate|].
  destruct (Ascii.eqb_spec c "-") as [->|Hc].
  - cbn [is_signed_integer] in Hg. apply andb_prop in Hg as [Hne Hd].
    cbn [parseInt]. rewrite span_digits_whole by exact Hd.
    destruct g; [discriminate | eauto].
  - assert (Hd : all_digits (String c g) = true).
    { unfold is_signed_integer in Hg.
      destruct c as [[] [] [] [] [] [] [] []];
        try (apply andb_prop in Hg as [_ Hg]; exact Hg); now contradiction Hc. }
    assert (Hc' : is_digit c = true) by (simpl in Hd; now apply andb_prop in Hd as [? _]).
    unfold parseInt.
    assert (Hsplit :
      match String c g with
      | String "-" r => (true, r)
      | String "+" r => (false, r)
      | _ => (false, String c g)
      end = (false, String c g)).
    { destruct c as [[] [] [] [] [] [] [] []]; try reflexivity; discriminate Hc'. }
    rewrite Hsplit, span_digits_whole by exact Hd. eauto.
Qed.

Lemma convertible_iff (raw : string) :
  convertible raw = true <->
  (forall g v, regex_match raw = Some g -> parseInt g = Some v -> Z.abs v <= maxTime).
Proof.
  unfold convertible, parseDate. split.
  - intros H g v Eg Ev. rewrite Eg in H.
    destruct (regex_match_sound _ _ Eg) as (_ & _ & _ & Hg).
    rewrite (truthy_signed_integer g Hg), Ev in H. simpl in H.
    destruct (Z.leb_spec (Z.abs v) maxTime); [assumption | discriminate].
  - intros H. destruct (regex_match raw) as [g|] eqn:Eg; [|reflexivity].
    destruct (regex_match_sound _ _ Eg) as (_ & _ & _ & Hg).
    rewrite (truthy_signed_integer g Hg). simpl.
    destruct (parseInt_signed_integer g Hg) as [v Ev]. rewrite Ev. simpl.
    specialize (H g v eq_refl Ev).
    destruct (Z.leb_spec (Z.abs v) maxTime); [reflexivity | lia].
Qed.

(** What [parseDate] makes of the encoder's output. *)
Lemma parseDate_of_encoded (ms : Z) :
  Z.abs ms <= maxTime -> parseDate (dtDateTime_of (Some ms)) = Return (iso_string ms).
Proof.
  intros Hms. unfold parseDate, dtDateTime_of, Number_toString.
  change ("/Date(" +++ Z_toString ms +++ ")/")
    with ("/Date(" +++ Z_toString ms +++ ")/" +++ "").
  rewrite regex_match_wrapper by apply is_signed_integer_Z_toString.
  rewrite (truthy_signed_integer _ (is_signed_integer_Z_toString ms)). cbn [negb].
  rewrite parseInt_Z_toString_whole.
  unfold new_Date_number. now rewrite TimeClip_valid.
Qed.

(** [new Date(s)] on the ISO form of a time value. *)
Lemma new_Date_string_iso (host_parse : string -> option Z) (ms : Z) :
  Z.abs ms <= maxTime -> getTime (new_Date_string host_parse (iso_string ms)) = Some ms.
Proof.
  intros Hms. unfold getTime, new_Date_string. now rewrite parse_iso_utc_iso_string.
Qed.

(** C1.  Round trip of the date codec: for every time value [ms] of the
    [Date] range (negative ones included), [parseDate] applied to the
    string [/Date(<ms>)/] that the encoder of the search request writes
    returns the ISO-8601 form of [ms], and that form denotes exactly the
    instant [ms] again. *)
Theorem parseDate_round_trip (host_parse : string -> option Z) (ms : Z) :
  Z.abs ms <= maxTime ->
  parseDate (dtDateTime_of (Some ms)) = Return (iso_string ms) /\
  getTime (new_Date_string host_parse (iso_string ms)) = Some ms.
Proof.
  intros Hms. split; [now apply parseDate_of_encoded | now apply new_Date_string_iso].
Qed.

Lemma parseDate_round_trip_witness :
  parseDate (dtDateTime_of (Some (-62198755200001))) =
    Return (iso_string (-62198755200001)) /\
  getTime (new_Date_string no_host_parse (iso_string (-62198755200001))) =
    Some (-62198755200001).
Proof.
  apply (parseDate_round_trip no_host_parse (-62198755200001)).
  unfold maxTime. simpl. lia.
Defined.

(** C7, as the code has it.  [parseDate] returns whenever the integer of
    the leftmost wrapper, if there is one, lies within the range of [Date]
    time values; and on an input without wrapper it returns that input
    unchanged. *)
Theorem parseDate_returns_within_range (raw : string) :
  (forall g v, regex_match raw = Some g -> parseInt g = Some v -> Z.abs v <= maxTime) ->
  exists s, parseDate raw = Return s /\ (~ matches_pattern raw -> s = raw).
Proof.
  intros H. apply convertible_iff in H. unfold convertible in H.
  destruct (parseDate raw) as [e|s] eqn:E; [discriminate|].
  exists s. split; [reflexivity|]. intros Hno.
  apply regex_match_None_iff in Hno. unfold parseDate in E. rewrite Hno in E.
  now injection E.
Qed.

Lemma parseDate_returns_within_range_witness :
  exists s, parseDate "/Date(1765794960000)/" = Return s /\
            (~ matches_pattern "/Date(1765794960000)/" -> s = "/Date(1765794960000)/").
Proof.
  apply (parseDate_returns_within_range "/Date(1765794960000)/").
  intros g v Hg Hv. vm_compute in Hg. injection Hg as <-.
  vm_compute in Hv. injection Hv as <-. vm_compute. discriminate.
Defined.

(** C7 fails as stated: a wrapper whose integer is one millisecond past
    the last valid time value makes [toISOString] throw. *)
Lemma parseDate_throws_beyond_range :
  parseDate "/Date(8640000000000001)/" = Throw (RangeError "Invalid time value").
Proof. vm_compute. reflexivity. Qed.

(** ** The decimal numeral of an integer *)

Lemma ndigits_lower (fuel : nat) (v : Z) :
  1 <= v -> 10 ^ Z.of_nat (ndigits fuel v - 1) <= v.
Proof.
  revert v. induction fuel as [|f IH]; intros v Hv.
  - cbn. lia.
  - cbn [ndigits]. destruct (Z.ltb_spec v 10) as [Hlt|Hge].
    + cbn. lia.
    + assert (Hq : 1 <= v / 10) by (apply Z.div_le_lower_bound; lia).
      specialize (IH _ Hq).
      assert (Hn : exists k, ndigits f (v / 10) = S k).
      { destruct f; cbn [ndigits]; [now exists O|]. destruct (v / 10 <? 10); eauto. }
      destruct Hn as [k Hk]. rewrite Hk in *.
      replace (S (S k) - 1)%nat with (S k) by lia.
      replace (S k - 1)%nat with k in IH by lia.
      rewrite pow10_S.
      pose proof (Z.div_mod v 10 ltac:(lia)). pose proof (Z.mod_pos_bound v 10 ltac:(lia)).
      lia.
Qed.

(** The first digit of a positive integer is not zero. *)
Lemma leading_digit (v : Z) (k : nat) :
  0 < v -> num_digits v = S k -> 1 <= (v / 10 ^ Z.of_nat k) mod 10 <= 9.
Proof.
  intros Hv Hk.
  pose proof (ndigits_lower (Z.to_nat (Z.log2 v)) v ltac:(lia)) as Hlow.
  fold (num_digits v) in Hlow. rewrite Hk in Hlow.
  replace (S k - 1)%nat with k in Hlow by lia.
  pose proof (num_digits_bound v ltac:(lia)) as Hup. rewrite Hk, pow10_S in Hup.
  pose proof (pow10_pos k) as Hpos.
  assert (H1 : 1 <= v / 10 ^ Z.of_nat k) by (apply Z.div_le_lower_bound; lia).
  assert (H2 : v / 10 ^ Z.of_nat k < 10) by (apply Z.div_lt_upper_bound; lia).
  rewrite Z.mod_small by lia. lia.
Qed.

Lemma canonical_Z_toString (v : Z) : canonical (Z_toString v) = true.
Proof.
  unfold Z_toString. destruct (Z.ltb_spec v 0) as [Hneg|Hpos].
  - destruct (num_digits_pos (- v)) as [k Hk]. rewrite Hk. cbn [pad].
    pose proof (leading_digit (- v) k ltac:(lia) Hk) as Hd.
    destruct (digit_cases _ (conj (proj1 (mod10_digit _)) (proj2 Hd)))
      as [E|[E|[E|[E|[E|[E|[E|[E|[E|E]]]]]]]]]; rewrite E in *;
      first [lia | reflexivity].
  - destruct (Z.eq_dec v 0) as [->|Hnz]; [reflexivity|].
    destruct (num_digits_pos v) as [k Hk]. rewrite Hk. cbn [pad].
    pose proof (leading_digit v k ltac:(lia) Hk) as Hd.
    destruct (digit_cases _ (conj (proj1 (mod10_digit _)) (proj2 Hd)))
      as [E|[E|[E|[E|[E|[E|[E|[E|[E|E]]]]]]]]]; rewrite E in *;
      first [lia | reflexivity].
Qed.

(** The string that the code makes of an integer is its decimal numeral. *)
Lemma decimal_of_Z_toString (v : Z) : decimal_of v (Z_toString v).
Proof.
  split; [apply is_signed_integer_Z_toString|].
  split; [apply canonical_Z_toString | apply parseInt_Z_toString_whole].
Qed.

(** ** The station resolver and [searchLocations] *)

Section Resolver.

Variable host_parse : string -> option Z.
Variable upstream : Upstream.

Lemma searchStation_run (mask : string) :
  searchStation upstream mask =
  ([lookup_request mask],
   let! r := lookup_reply upstream mask in
   match first_item r with
   | None => Throw (Error ("Station not found: " +++ mask))
   | Some item => Return {| station_id := iListID item; station_name := sName item |}
   end).
Proof.
  unfold searchStation, postRequest, lookup_request, lookup_reply, bind, lift, ret.
  destruct (settle _) as [e|r]; simpl; [reflexivity|].
  destruct (first_item r); reflexivity.
Qed.

Lemma zero_candidates_unresolved (mask : string) :
  zero_candidates upstream mask -> unresolved upstream mask.
Proof.
  intros (r & Hr & Hz). exists r. split; [exact Hr|].
  destruct r as [[|x l]|]; simpl in *; (reflexivity || discriminate).
Qed.

Lemma unresolved_iff (mask : string) r :
  lookup_reply upstream mask = Return r ->
  (unresolved upstream mask <-> first_item r = None).
Proof.
  intros Hr. split.
  - intros (r' & Hr' & Hn). rewrite Hr in Hr'. injection Hr' as <-. exact Hn.
  - intros Hn. now exists r.
Qed.

Lemma not_answered (mask : string) e :
  lookup_reply upstream mask = Throw e -> ~ answered upstream mask.
Proof. intros He [r Hr]. rewrite He in Hr. discriminate Hr. Qed.

(** Whatever happens to the other look-up, a look-up answered with zero
    candidates makes [searchConnections] throw after the two look-ups, with
    no further request.  When both look-ups are answered the error names a
    query that was not resolved. *)
Lemma unresolved_station_outcome (from to departure0 : string) (passengers : Z) :
  zero_candidates upstream from \/ zero_candidates upstream to ->
  exists e,
    searchConnections host_parse upstream from to departure0 passengers =
      ([lookup_request from; lookup_request to], Throw e) /\
    (answered upstream from -> answered upstream to ->
     exists q,
       (q = from \/ q = to) /\ unresolved upstream q /\
       e = Error ("Station not found: " +++ q) /\
       (~ unresolved upstream to -> q = from) /\
       (~ unresolved upstream from -> q = to)).
Proof.
  intros Hz.
  assert (Hz' : unresolved upstream from \/ unresolved upstream to).
  { destruct Hz as [Hz|Hz]; [left|right]; now apply zero_candidates_unresolved. }
  clear Hz. unfold searchConnections, Promise_all2. rewrite !searchStation_run.
  destruct (lookup_reply upstream from) as [ef|rf] eqn:Ef;
    destruct (lookup_reply upstream to) as [et|rt] eqn:Et; cbn [ebind].
  - exfalso. destruct Hz' as [(r & Hr & _)|(r & Hr & _)];
      [rewrite Ef in Hr | rewrite Et in Hr]; discriminate Hr.
  - pose proof (unresolved_iff to rt Et) as Ut.
    destruct (first_item rt) as [it|] eqn:Fit.
    + exfalso. destruct Hz' as [(r & Hr & _)|Hu]; [rewrite Ef in Hr; discriminate Hr|].
      apply Ut in Hu. discriminate.
    + destruct (left_rejects_first upstream); eexists; (split; [reflexivity|]);
        intros Haf; exfalso; exact (not_answered from ef Ef Haf).
  - pose proof (unresolved_iff from rf Ef) as Uf.
    destruct (first_item rf) as [itf|] eqn:Fif.
    + exfalso. destruct Hz' as [Hu|(r & Hr & _)]; [|rewrite Et in Hr; discriminate Hr].
      apply Uf in Hu. discriminate.
    + destruct (left_rejects_first upstream); eexists; (split; [reflexivity|]);
        intros _ Hat; exfalso; exact (not_answered to et Et Hat).
  - pose proof (unresolved_iff from rf Ef) as Uf.
    pose proof (unresolved_iff to rt Et) as Ut.
    destruct (first_item rf) as [itf|] eqn:Fif;
      destruct (first_item rt) as [itt|] eqn:Fit.
    + exfalso. destruct Hz' as [Hu|Hu]; [apply Uf in Hu | apply Ut in Hu]; discriminate.
    + eexists. split; [reflexivity|]. intros _ _. exists to.
      split; [now right|]. split; [now apply Ut|]. split; [reflexivity|].
      split; [intros Hn; exfalso; apply Hn; now apply Ut | reflexivity].
    + eexists. split; [reflexivity|]. intros _ _. exists from.
      split; [now left|]. split; [now apply Uf|]. split; [reflexivity|].
      split; [reflexivity | intros Hn; exfalso; apply Hn; now apply Uf].
    + destruct (left_rejects_first upstream); eexists; (split; [reflexivity|]);
        intros _ _; [exists from | exists to].
      * split; [now left|]. split; [now apply Uf|]. split; [reflexivity|].
        split; [reflexivity | intros Hn; exfalso; apply Hn; now apply Uf].
      * split; [now right|]. split; [now apply Ut|]. split; [reflexivity|].
        split; [intros Hn; exfalso; apply Hn; now apply Ut | reflexivity].
Qed.

(** C8, as the code has it.  When the upstream answers the two station
    look-ups and one of them with zero candidates, [searchConnections] throws the error whose
    message is ["Station not found: "] followed by a query that was not
    resolved (the one with zero candidates when the other query resolves),
    after the two look-up requests and nothing else: no session, search or
    price request is issued. *)
Theorem station_not_found_aborts_search (from to departure0 : string) (passengers : Z) :
  answered upstream from -> answered upstream to ->
  zero_candidates upstream from \/ zero_candidates upstream to ->
  exists q,
    (q = from \/ q = to) /\ unresolved upstream q /\
    searchConnections host_parse upstream from to departure0 passengers =
      ([lookup_request from; lookup_request to],
       Throw (Error ("Station not found: " +++ q))) /\
    (~ unresolved upstream to -> q = from) /\
    (~ unresolved upstream from -> q = to).
Proof.
  intros Hf Ht Hz.
  destruct (unresolved_station_outcome from to departure0 passengers Hz) as (e & Hrun & Hq).
  destruct (Hq Hf Ht) as (q & Hin & Hu & -> & H1 & H2).
  exists q. repeat split; assumption.
Qed.


End Resolver.

Lemma station_not_found_aborts_search_witness :
  exists q,
    (q = "Nonexistentville" \/ q = "Brno") /\
    unresolved absent_list_upstream q /\
    searchConnections no_host_parse absent_list_upstream
      "Nonexistentville" "Brno" requested 1 =
      ([lookup_request "Nonexistentville"; lookup_request "Brno"],
       Throw (Error ("Station not found: " +++ q))) /\
    (~ unresolved absent_list_upstream "Brno" -> q = "Nonexistentville") /\
    (~ unresolved absent_list_upstream "Nonexistentville" -> q = "Brno").
Proof.
  apply (station_not_found_aborts_search no_host_parse absent_list_upstream
           "Nonexistentville" "Brno" requested 1).
  - eexists. reflexivity.
  - eexists. reflexivity.
  - left. eexists. split; reflexivity.
Defined.


(** C8 fails as stated: the upstream returns zero candidates for the
    destination, the look-up of the origin fails in transport, and the
    error that reaches the caller is that failure, not the one that names
    the unresolved query. *)
Lemma transport_failure_hides_station_not_found :
  zero_candidates praha_unreachable_upstream "Nonexistentville" /\
  searchConnections no_host_parse praha_unreachable_upstream
    "Praha" "Nonexistentville" requested 1 =
    ([lookup_request "Praha"; lookup_request "Nonexistentville"],
     Throw (TypeError "fetch failed")).
Proof. split; [eexists; split; reflexivity | vm_compute; reflexivity]. Qed.

(** ** The connection search *)

Section Search.

Variable host_parse : string -> option Z.
Variable upstream : Upstream.

(** What [searchConnections] does after a primary response that carries a
    connection list. *)
Lemma searchConnections_present from to departure0 passengers tr sid info raws :
  primarySearch host_parse upstream from to departure0 passengers =
    (tr, Return (sid, Some info)) ->
  raw_connections (Some info) = Some raws ->
  searchConnections host_parse upstream from to departure0 passengers =
  (tr ++ [price_request sid passengers info raws],
   let! cs := emapi (toConnection host_parse departure0
                       (merged_prices (price_reply upstream sid passengers info raws) raws))
                    raws in
   Return {| handle := Some (Z_toString (iHandle info)); connections := cs |}).
Proof.
  intros Hprim Hraws.
  rewrite (searchConnections_after_primary _ _ _ _ _ _ _ _ _ Hprim).
  rewrite (completeSearch_present host_parse upstream departure0 passengers sid info raws Hraws
             (primarySearch_passengers _ _ _ _ _ _ _ _ Hprim)).
  reflexivity.
Qed.

(** Every connection returned comes from the raw connection at its index. *)
Lemma returned_connection from to departure0 passengers t res i c :
  searchConnections host_parse upstream from to departure0 passengers = (t, Return res) ->
  nth_error (connections res) i = Some c ->
  exists tr sid info raws raw,
    primarySearch host_parse upstream from to departure0 passengers =
      (tr, Return (sid, Some info)) /\
    raw_connections (Some info) = Some raws /\
    nth_error raws i = Some raw /\
    toConnection host_parse departure0
      (merged_prices (price_reply upstream sid passengers info raws) raws) raw i = Return c.
Proof.
  intros Hrun Hc.
  destruct (searchConnections_inv _ _ _ _ _ _ _ _ Hrun) as (tr & sid & result & t2 & Hp & Hcs & ->).
  destruct (raw_connections result) as [raws|] eqn:Hraws.
  - destruct (raw_connections_Some _ _ Hraws) as [info ->].
    rewrite (searchConnections_present _ _ _ _ _ _ _ _ Hp Hraws) in Hrun.
    injection Hrun as _ Hrun.
    destruct (emapi _ raws) as [e|cs] eqn:Ecs; [discriminate|].
    simpl in Hrun. injection Hrun as <-. cbn [connections] in Hc.
    destruct (emapi_Return _ _ _ Ecs) as (_ & _ & Hback).
    destruct (Hback i c Hc) as (raw & Hraw & Hto).
    now exists tr, sid, info, raws, raw.
  - rewrite (completeSearch_absent _ _ _ _ _ _ Hraws) in Hcs.
    injection Hcs as _ <-. destruct i; discriminate.
Qed.

(** C2, as the code has it.  When the primary call has succeeded, the
    price look-up fails and every leg timestamp converts,
    [searchConnections] returns one connection for each raw connection of
    the primary response, in order, each without price; the failure of the
    price look-up does not reach the caller. *)
Theorem price_failure_leaves_connections_unpriced
    from to departure0 passengers tr sid info raws e :
  primarySearch host_parse upstream from to departure0 passengers =
    (tr, Return (sid, Some info)) ->
  raw_connections (Some info) = Some raws ->
  price_reply upstream sid passengers info raws = Throw e ->
  timestamps_convertible raws = true ->
  exists cs,
    searchConnections host_parse upstream from to departure0 passengers =
      (tr ++ [price_request sid passengers info raws],
       Return {| handle := Some (Z_toString (iHandle info)); connections := cs |}) /\
    List.length cs = List.length raws /\
    forall i raw, nth_error raws i = Some raw ->
      exists c, nth_error cs i = Some c /\ id c = Z_toString (iID raw) /\ price c = None.
Proof.
  intros Hprim Hraws Hfail Hconv.
  rewrite (searchConnections_present _ _ _ _ _ _ _ _ Hprim Hraws), Hfail.
  destruct (transform_total host_parse departure0
              (merged_prices (Throw e) raws) raws Hconv) as [cs Hcs].
  rewrite Hcs. exists cs. split; [reflexivity|].
  destruct (emapi_Return _ _ _ Hcs) as (Hlen & Hfwd & _). split; [exact Hlen|].
  intros i raw Hraw. destruct (Hfwd i raw Hraw) as (c & Hc & Hto).
  exists c. split; [exact Hc|].
  destruct (toConnection_Return _ _ _ _ _ _ Hto) as (_ & Hid & _ & _ & _ & _ & Hprice).
  split; [exact Hid|]. rewrite Hprice. apply toPrice_failed_lookup.
Qed.

(** C3.  After a successful price response, the connection returned at
    index [i] is the raw connection at index [i] with the price at index
    [i]: a price [v > 0] in minor units gives the amount [v / 100] in CZK;
    a price of zero, a missing price and an index past the end of the
    price list give no price.  A price, when present, is never zero. *)
Theorem prices_merged_by_position
    from to departure0 passengers tr sid info raws pr t res i c :
  primarySearch host_parse upstream from to departure0 passengers =
    (tr, Return (sid, Some info)) ->
  raw_connections (Some info) = Some raws ->
  price_reply upstream sid passengers info raws = Return pr ->
  searchConnections host_parse upstream from to departure0 passengers = (t, Return res) ->
  nth_error (connections res) i = Some c ->
  (exists raw, nth_error raws i = Some raw /\ id c = Z_toString (iID raw)) /\
  (forall p v, nth_error (or_empty pr) i = Some p -> iPrice p = Some v -> 0 < v ->
     price c = Some {| amount := inject_Z v / 100; currency := "CZK" |}) /\
  (forall p, nth_error (or_empty pr) i = Some p ->
     iPrice p = Some 0 \/ iPrice p = None -> price c = None) /\
  (nth_error (or_empty pr) i = None -> price c = None) /\
  (forall m, price c = Some m -> (0 < amount m)%Q /\ currency m = "CZK").
Proof.
  intros Hprim Hraws Hpr Hrun Hc.
  destruct (returned_connection _ _ _ _ _ _ _ _ Hrun Hc)
    as (tr' & sid' & info' & raws' & raw & Hprim' & Hraws' & Hraw & Hto).
  rewrite Hprim in Hprim'. injection Hprim' as <- <- <-.
  rewrite Hraws in Hraws'. injection Hraws' as <-.
  rewrite Hpr in Hto.
  destruct (toConnection_Return _ _ _ _ _ _ Hto) as (_ & Hid & _ & _ & _ & _ & Hprice).
  rewrite toPrice_merged in Hprice.
  split; [now exists raw|]. repeat split.
  - intros p v Hp Hv Hpos. rewrite Hprice, Hp, Hv.
    destruct (Z.ltb_spec 0 v); [reflexivity | lia].
  - intros p Hp [Hv|Hv]; rewrite Hprice, Hp, Hv; reflexivity.
  - intros Hp. now rewrite Hprice, Hp.
  - rewrite Hprice in H.
    destruct (nth_error (or_empty pr) i) as [p|]; [|discriminate].
    destruct (iPrice p) as [v|]; [|discriminate].
    destruct (Z.ltb_spec 0 v); [|discriminate]. injection H as <-. cbn [amount].
    unfold Qlt, Qdiv, Qmult, Qinv, inject_Z. simpl. lia.
  - rewrite Hprice in H.
    destruct (nth_error (or_empty pr) i) as [p|]; [|discriminate].
    destruct (iPrice p) as [v|]; [|discriminate].
    destruct (0 <? v); [|discriminate]. now injection H as <-.
Qed.

Lemma In_connection_nth {A} (l : list A) (x : A) : In x l -> exists i, nth_error l i = Some x.
Proof. apply In_nth_error. Qed.

Lemma emap_Return_forward {A B} (f : A -> Exc B) (l : list A) (r : list B) i x :
  emap f l = Return r -> nth_error l i = Some x ->
  exists y, nth_error r i = Some y /\ f x = Return y.
Proof.
  intros Hr Hx. pose proof (emap_Return_length _ _ _ Hr) as Hlen.
  destruct (nth_error r i) as [y|] eqn:Ey.
  - destruct (emap_Return_nth _ _ _ Hr i y Ey) as (x' & Hx' & Hy).
    exists y. split; [reflexivity|]. congruence.
  - apply nth_error_None in Ey. assert ((i < List.length l)%nat); [|lia].
    apply nth_error_Some. congruence.
Qed.

Lemma truthy_iso_string (t : Z) : truthy (iso_string t) = true.
Proof.
  unfold iso_string, year_string. cbv zeta.
  destruct ((0 <=? _) && (_ <=? 9999)); [reflexivity|]. now destruct (_ <? 0).
Qed.

(** From the raw timestamps to the duration: when the first leg leaves at
    [/Date(d)/] and the last leg arrives at [/Date(a)/], the connection
    carries the ISO forms of [d] and [a] and the rounded difference. *)
Lemma duration_of_wrapped_timestamps departure0 prices conn idx c first last d a :
  toConnection host_parse departure0 prices conn idx = Return c ->
  nth_error (aoTrains conn) 0 = Some first ->
  nth_error (aoTrains conn) (List.length (aoTrains conn) - 1)%nat = Some last ->
  dtDateTime1 first = dtDateTime_of (Some d) ->
  dtDateTime2 last = dtDateTime_of (Some a) ->
  Z.abs d <= maxTime -> Z.abs a <= maxTime ->
  departure c = iso_string d /\ arrival c = iso_string a /\
  duration c = Some (Math_round (inject_Z (a - d) / 60000)).
Proof.
  intros Hto Hfirst Hlast Hd Ha Rd Ra.
  destruct (toConnection_Return _ _ _ _ _ _ Hto) as (Hlegs & _ & Hdep & Harr & Hdur & _ & _).
  pose proof (emap_Return_length _ _ _ Hlegs) as Hlen.
  destruct (emap_Return_forward _ _ _ _ _ Hlegs Hfirst) as (l1 & Hl1 & Ht1).
  rewrite <- Hlen in Hlast.
  destruct (emap_Return_forward _ _ _ _ _ Hlegs Hlast) as (l2 & Hl2 & Ht2).
  apply toLeg_Return in Ht1 as [Ht1 _]. apply toLeg_Return in Ht2 as [_ Ht2].
  rewrite Hd, (parseDate_of_encoded d Rd) in Ht1.
  rewrite Ha, (parseDate_of_encoded a Ra) in Ht2.
  injection Ht1 as Ht1. injection Ht2 as Ht2.
  rewrite Hl1 in Hdep. rewrite Hl2 in Harr. cbn [option_map] in Hdep, Harr.
  rewrite <- Ht1 in Hdep. rewrite <- Ht2 in Harr. unfold or_else in Hdep, Harr.
  rewrite truthy_iso_string in Hdep, Harr.
  split; [exact Hdep|]. split; [exact Harr|].
  rewrite Hdur, Hdep, Harr.
  rewrite (new_Date_string_iso host_parse d Rd).
  rewrite (new_Date_string_iso host_parse a Ra). reflexivity.
Qed.

(** C4, as the code has it.  For every connection returned, departure is
    the departure of the first leg and arrival the arrival of the last leg
    (the requested departure standing in for a missing or empty one); when
    the two denote the instants [d] and [a], the duration is
    [round((a - d) / 60000)], and it is not negative when [d <= a].  The
    instants are taken where doubles compute the expression exactly. *)
Theorem duration_is_rounded_difference
    from to departure0 passengers t res c d a :
  searchConnections host_parse upstream from to departure0 passengers = (t, Return res) ->
  In c (connections res) ->
  getTime (new_Date_string host_parse (departure c)) = Some d ->
  getTime (new_Date_string host_parse (arrival c)) = Some a ->
  exact_range d -> exact_range a ->
  departure c = or_else (option_map leg_departure (nth_error (legs c) 0)) departure0 /\
  arrival c =
    or_else (option_map leg_arrival (nth_error (legs c) (List.length (legs c) - 1)%nat))
            departure0 /\
  duration c = Some (Math_round (inject_Z (a - d) / 60000)) /\
  (d <= a -> 0 <= Math_round (inject_Z (a - d) / 60000)).
Proof.
  intros Hrun Hin Hd Ha _ _.
  destruct (In_connection_nth _ _ Hin) as [i Hc].
  destruct (returned_connection _ _ _ _ _ _ _ _ Hrun Hc)
    as (tr & sid & info & raws & raw & _ & _ & _ & Hto).
  destruct (toConnection_Return _ _ _ _ _ _ Hto) as (_ & _ & Hdep & Harr & Hdur & _ & _).
  split; [exact Hdep|]. split; [exact Harr|]. split.
  - rewrite Hdur, Ha, Hd. reflexivity.
  - intros Hle. rewrite Math_round_minutes. apply Z.div_pos; lia.
Qed.

(** C5, as the code has it.  For every connection returned, the transfer
    count is the number of legs minus one; it is not negative when there
    is a leg, and zero when there is exactly one. *)
Theorem transfers_is_legs_minus_one from to departure0 passengers t res c :
  searchConnections host_parse upstream from to departure0 passengers = (t, Return res) ->
  In c (connections res) ->
  transfers c = Z.of_nat (List.length (legs c)) - 1 /\
  (legs c <> [] -> 0 <= transfers c) /\
  (List.length (legs c) = 1%nat -> transfers c = 0).
Proof.
  intros Hrun Hin.
  destruct (In_connection_nth _ _ Hin) as [i Hc].
  destruct (returned_connection _ _ _ _ _ _ _ _ Hrun Hc)
    as (tr & sid & info & raws & raw & _ & _ & _ & Hto).
  destruct (toConnection_Return _ _ _ _ _ _ Hto) as (Hlegs & _ & _ & _ & _ & Htr & _).
  apply emap_Return_length in Hlegs. rewrite Htr, <- Hlegs.
  split; [reflexivity|]. split.
  - intros Hne. destruct (legs c); [contradiction | cbn [List.length]; lia].
  - intros ->. reflexivity.
Qed.

(** C6, as the code has it.  When the primary call succeeds without any
    raw connection, [searchConnections] returns an empty connection list
    and throws nothing.  When the response carries no connection list the
    result is returned at once, without price request; when it carries an
    empty list, the price request is still issued, for no connection. *)
Theorem no_connection_is_an_empty_result from to departure0 passengers tr sid result :
  primarySearch host_parse upstream from to departure0 passengers =
    (tr, Return (sid, result)) ->
  or_empty (raw_connections result) = [] ->
  exists t h,
    searchConnections host_parse upstream from to departure0 passengers =
      (t, Return {| handle := h; connections := [] |}) /\
    (raw_connections result = None -> t = tr /\ h = None) /\
    (forall info, result = Some info -> raw_connections result = Some [] ->
       t = tr ++ [price_request sid passengers info []]).
Proof.
  intros Hprim Hzero. destruct (raw_connections result) as [raws|] eqn:Hraws.
  - simpl in Hzero. subst raws. destruct (raw_connections_Some _ _ Hraws) as [info ->].
    rewrite (searchConnections_present _ _ _ _ _ _ _ _ Hprim Hraws).
    do 2 eexists. split; [reflexivity|]. split; [discriminate|].
    intros info' [= <-] _. reflexivity.
  - rewrite (searchConnections_after_primary _ _ _ _ _ _ _ _ _ Hprim).
    rewrite (completeSearch_absent _ _ _ _ _ _ Hraws). cbn [fst snd].
    rewrite app_nil_r. do 2 eexists. split; [reflexivity|]. split; [now split|].
    discriminate.
Qed.

(** C10, as the code has it.  After a successful price response that is
    shorter than the connection list, and when every leg timestamp
    converts, [searchConnections] returns one connection for each raw
    connection; the connections at the indices past the end of the price
    list have no price. *)
Theorem short_price_list_leaves_rest_unpriced
    from to departure0 passengers tr sid info raws pr :
  primarySearch host_parse upstream from to departure0 passengers =
    (tr, Return (sid, Some info)) ->
  raw_connections (Some info) = Some raws ->
  price_reply upstream sid passengers info raws = Return pr ->
  (List.length (or_empty pr) < List.length raws)%nat ->
  timestamps_convertible raws = true ->
  exists cs,
    searchConnections host_parse upstream from to departure0 passengers =
      (tr ++ [price_request sid passengers info raws],
       Return {| handle := Some (Z_toString (iHandle info)); connections := cs |}) /\
    List.length cs = List.length raws /\
    forall i c, nth_error cs i = Some c -> (List.length (or_empty pr) <= i)%nat ->
      price c = None.
Proof.
  intros Hprim Hraws Hpr _ Hconv.
  rewrite (searchConnections_present _ _ _ _ _ _ _ _ Hprim Hraws), Hpr.
  destruct (transform_total host_parse departure0
              (merged_prices (Return pr) raws) raws Hconv) as [cs Hcs].
  rewrite Hcs. exists cs. split; [reflexivity|].
  destruct (emapi_Return _ _ _ Hcs) as (Hlen & _ & Hback). split; [exact Hlen|].
  intros i c Hc Hi. destruct (Hback i c Hc) as (raw & _ & Hto).
  destruct (toConnection_Return _ _ _ _ _ _ Hto) as (_ & _ & _ & _ & _ & _ & Hprice).
  rewrite Hprice, toPrice_merged.
  now rewrite (proj2 (nth_error_None (or_empty pr) i) Hi).
Qed.

End Search.

(** ** The scenario of the specification, and examples of the properties *)

Example scenario_search :
  searchConnections no_host_parse scenario_upstream "Praha" "Brno" requested 1 =
  (primary_trace ++ [price_request "session-1" 1 scenario_info scenario_connections],
   Return scenario_result).
Proof. vm_compute. reflexivity. Qed.

Example scenario_price_in_major_units : (amount czk_269 == 269)%Q.
Proof. reflexivity. Qed.

(** The positional correlation of the specification: prices of [1000],
    [0] and [3000] minor units for three connections give [10] CZK, no
    price, [30] CZK. *)
Example positional_correlation :
  map (fun i => toPrice (nth_error (map major_units
         [ {| iPrice := Some 1000 |}; {| iPrice := Some 0 |}; {| iPrice := Some 3000 |} ]) i))
      [0%nat; 1%nat; 2%nat] =
  [ Some {| amount := inject_Z 1000 / 100; currency := "CZK" |}; None;
    Some {| amount := inject_Z 3000 / 100; currency := "CZK" |} ] /\
  (inject_Z 1000 / 100 == 10)%Q /\ (inject_Z 3000 / 100 == 30)%Q.
Proof. repeat split; reflexivity. Qed.

Lemma scenario_primary (prices : FetchResult (option (list PriceInfo))) :
  primarySearch no_host_parse (stub (ok (Some scenario_info)) prices) "Praha" "Brno" requested 1 =
  (primary_trace, Return ("session-1", Some scenario_info)).
Proof. vm_compute. reflexivity. Qed.

Lemma price_failure_leaves_connections_unpriced_witness :
  exists cs,
    searchConnections no_host_parse unpriced_upstream "Praha" "Brno" requested 1 =
      (primary_trace ++ [price_request "session-1" 1 scenario_info scenario_connections],
       Return {| handle := Some (Z_toString (iHandle scenario_info)); connections := cs |}) /\
    List.length cs = List.length scenario_connections /\
    forall i raw, nth_error scenario_connections i = Some raw ->
      exists c, nth_error cs i = Some c /\ id c = Z_toString (iID raw) /\ price c = None.
Proof.
  apply (price_failure_leaves_connections_unpriced no_host_parse unpriced_upstream
           "Praha" "Brno" requested 1 primary_trace "session-1" scenario_info
           scenario_connections (TypeError "fetch failed")).
  - vm_compute. reflexivity.
  - reflexivity.
  - reflexivity.
  - vm_compute. reflexivity.
Defined.

(** C2 fails as stated: the primary call succeeds with one connection and
    the price look-up fails, but a leg timestamp beyond the range of
    [Date] makes the search throw. *)
Lemma price_failure_with_unconvertible_timestamp :
  primarySearch no_host_parse far_future_unpriced_upstream "Praha" "Brno" requested 1 =
    (primary_trace, Return ("session-1", Some far_future_info)) /\
  raw_connections (Some far_future_info) = Some far_future_connections /\
  price_reply far_future_unpriced_upstream "session-1" 1 far_future_info
    far_future_connections = Throw (TypeError "fetch failed") /\
  searchConnections no_host_parse far_future_unpriced_upstream "Praha" "Brno" requested 1 =
    (primary_trace ++ [price_request "session-1" 1 far_future_info far_future_connections],
     Throw (RangeError "Invalid time value")).
Proof. vm_compute. repeat split; reflexivity. Qed.

Lemma prices_merged_by_position_witness :
  price (first_connection (Some czk_269)) =
    Some {| amount := inject_Z 26900 / 100; currency := "CZK" |} /\
  price second_connection = None.
Proof.
  split.
  - refine (proj1 (proj2 (prices_merged_by_position no_host_parse scenario_upstream
             "Praha" "Brno" requested 1 primary_trace "session-1" scenario_info
             scenario_connections scenario_prices _ scenario_result 0%nat
             (first_connection (Some czk_269))
             (scenario_primary _) eq_refl eq_refl scenario_search eq_refl))
             {| iPrice := Some 26900 |} 26900 eq_refl eq_refl _).
    lia.
  - refine (proj1 (proj2 (proj2 (prices_merged_by_position no_host_parse scenario_upstream
             "Praha" "Brno" requested 1 primary_trace "session-1" scenario_info
             scenario_connections scenario_prices _ scenario_result 1%nat
             second_connection
             (scenario_primary _) eq_refl eq_refl scenario_search eq_refl)))
             {| iPrice := Some 0 |} eq_refl (or_introl eq_refl)).
Defined.

Lemma duration_is_rounded_difference_witness :
  duration (first_connection (Some czk_269)) =
    Some (Math_round (inject_Z (1765804380000 - 1765794960000) / 60000)) /\
  0 <= Math_round (inject_Z (1765804380000 - 1765794960000) / 60000).
Proof.
  destruct (duration_is_rounded_difference no_host_parse scenario_upstream
              "Praha" "Brno" requested 1 _ scenario_result (first_connection (Some czk_269))
              1765794960000 1765804380000 scenario_search (or_introl eq_refl))
    as (_ & _ & Hdur & Hpos).
  - vm_compute. reflexivity.
  - vm_compute. reflexivity.
  - unfold exact_range. simpl. lia.
  - unfold exact_range. simpl. lia.
  - split; [exact Hdur | apply Hpos; lia].
Defined.

(** C4 fails as stated: a connection whose last leg arrives before its
    first leg leaves is returned with a negative duration. *)
Lemma duration_negative_when_arrival_precedes_departure :
  option_map (map duration)
    (returned_connections
       (searchConnections no_host_parse backwards_upstream "Praha" "Brno" requested 1)) =
  Some [Some (-1)].
Proof. vm_compute. reflexivity. Qed.

Lemma transfers_is_legs_minus_one_witness :
  transfers second_connection = Z.of_nat (List.length (legs second_connection)) - 1 /\
  (legs second_connection <> [] -> 0 <= transfers second_connection) /\
  (List.length (legs second_connection) = 1%nat -> transfers second_connection = 0).
Proof.
  apply (transfers_is_legs_minus_one no_host_parse scenario_upstream
           "Praha" "Brno" requested 1 _ scenario_result second_connection scenario_search).
  right. left. reflexivity.
Defined.

(** C5 fails as stated: a raw connection without legs is made into a
    connection, whose transfer count is [-1]. *)
Lemma legless_connection_is_constructed :
  option_map (map (fun c => (legs c, transfers c)))
    (returned_connections
       (searchConnections no_host_parse legless_upstream "Praha" "Brno" requested 1)) =
  Some [([], -1)].
Proof. vm_compute. reflexivity. Qed.

Lemma no_connection_is_an_empty_result_witness :
  exists t h,
    searchConnections no_host_parse absent_list_upstream "Praha" "Brno" requested 1 =
      (t, Return {| handle := h; connections := [] |}) /\
    (raw_connections (Some absent_list_info) = None -> t = primary_trace /\ h = None) /\
    (forall info, Some absent_list_info = Some info ->
       raw_connections (Some absent_list_info) = Some [] ->
       t = primary_trace ++ [price_request "session-1" 1 info []]).
Proof.
  apply (no_connection_is_an_empty_result no_host_parse absent_list_upstream
           "Praha" "Brno" requested 1 primary_trace "session-1" (Some absent_list_info)).
  - vm_compute. reflexivity.
  - reflexivity.
Defined.

(** C6 fails as stated: when the primary response carries an empty
    connection list, the price request is issued all the same. *)
Lemma empty_list_still_asks_for_prices :
  primarySearch no_host_parse empty_list_upstream "Praha" "Brno" requested 1 =
    (primary_trace, Return ("session-1", Some empty_list_info)) /\
  raw_connections (Some empty_list_info) = Some [] /\
  searchConnections no_host_parse empty_list_upstream "Praha" "Brno" requested 1 =
    (primary_trace ++ [price_request "session-1" 1 empty_list_info []],
     Return {| handle := Some "7"; connections := [] |}).
Proof. vm_compute. repeat split; reflexivity. Qed.

Lemma short_price_list_leaves_rest_unpriced_witness :
  exists cs,
    searchConnections no_host_parse short_prices_upstream "Praha" "Brno" requested 1 =
      (primary_trace ++ [price_request "session-1" 1 scenario_info scenario_connections],
       Return {| handle := Some (Z_toString (iHandle scenario_info)); connections := cs |}) /\
    List.length cs = List.length scenario_connections /\
    forall i c, nth_error cs i = Some c ->
      (List.length (or_empty one_price) <= i)%nat ->
      price c = None.
Proof.
  apply (short_price_list_leaves_rest_unpriced no_host_parse short_prices_upstream
           "Praha" "Brno" requested 1 primary_trace "session-1" scenario_info
           scenario_connections one_price).
  - vm_compute. reflexivity.
  - reflexivity.
  - reflexivity.
  - simpl. lia.
  - vm_compute. reflexivity.
Defined.

(** C10 fails as stated: the price response is shorter than the
    connection list, and a leg timestamp beyond the range of [Date] makes
    the search throw instead of returning a connection. *)
Lemma short_price_list_with_unconvertible_timestamp :
  primarySearch no_host_parse far_future_short_upstream "Praha" "Brno" requested 1 =
    (primary_trace, Return ("session-1", Some far_future_info)) /\
  raw_connections (Some far_future_info) = Some far_future_connections /\
  price_reply far_future_short_upstream "session-1" 1 far_future_info
    far_future_connections = Return (Some []) /\
  searchConnections no_host_parse far_future_short_upstream "Praha" "Brno" requested 1 =
    (primary_trace ++ [price_request "session-1" 1 far_future_info far_future_connections],
     Throw (RangeError "Invalid time value")).
Proof. vm_compute. repeat split; reflexivity. Qed.

(** * Beyond the connection search: the rest of the client and its callers *)

(** ** The primary part, case by case *)

Section Primary.

Variable host_parse : string -> option Z.
Variable upstream : Upstream.

Lemma searchStation_outcome (mask : string) :
  searchStation upstream mask = ([lookup_request mask], station_outcome upstream mask).
Proof. apply searchStation_run. Qed.

Lemma createSession_run :
  createSession upstream =
  ([CreateSession sessionBody],
   let! result := session_reply upstream in Return (sSessionID result)).
Proof.
  unfold createSession, postRequest, session_reply, bind, ret.
  destruct (settle _) as [e|r]; reflexivity.
Qed.

Lemma Array_fill_cases {A} (n : Z) (x : A) :
  (valid_length n /\ Array_fill n x = Return (repeat x (Z.to_nat n))) \/
  (~ valid_length n /\ Array_fill n x = Throw (RangeError "Invalid array length")).
Proof.
  unfold Array_fill, valid_length.
  destruct (Z.leb_spec 0 n); destruct (Z.ltb_spec n (2 ^ 32)); cbn [andb];
    (left; split; [lia | reflexivity]) || (right; split; [lia | reflexivity]).
Qed.

Lemma primarySearch_cases (from to departure0 : string) (passengers : Z) :
  PrimaryCase host_parse upstream from to departure0 passengers
    (primarySearch host_parse upstream from to departure0 passengers).
Proof.
  unfold primarySearch, Promise_all2. rewrite !searchStation_outcome.
  destruct (station_outcome upstream from) as [ef|fs] eqn:Ef;
    destruct (station_outcome upstream to) as [et|ts] eqn:Et.
  - destruct (left_rejects_first upstream); cbn [bind app];
      apply lookup_fails; rewrite ?Ef, ?Et; auto.
  - cbn [bind app]. apply lookup_fails. rewrite Ef. auto.
  - cbn [bind app]. apply lookup_fails. rewrite Et. auto.
  - rewrite bind_Return. rewrite createSession_run.
    destruct (session_reply upstream) as [es|sess] eqn:Es.
    + cbn. now apply (session_fails _ _ _ _ _ _ fs ts).
    + cbn [ebind]. rewrite bind_Return. cbv zeta.
      destruct (Array_fill_cases passengers defaultPassenger) as [[Hv Hf]|[Hv Hf]];
        unfold lift; rewrite Hf.
      * rewrite bind_Return. unfold postRequest. cbn [fst snd app bind].
        pose proof (search_issued host_parse upstream from to departure0 passengers fs ts sess Ef Et Es Hv) as H.
        cbv zeta in H. unfold bind, ret.
        destruct (settle (answer upstream (SearchConnectionInfo1 _))) as [e|result];
          exact H.
      * cbn. now apply (passengers_rejected _ _ _ _ _ _ fs ts sess).
Qed.

Lemma searchConnections_primary_failure from to departure0 passengers tr e :
  primarySearch host_parse upstream from to departure0 passengers = (tr, Throw e) ->
  searchConnections host_parse upstream from to departure0 passengers = (tr, Throw e).
Proof. intros H. rewrite searchConnections_factor, H. reflexivity. Qed.

(** Every run of [searchConnections] is one of the six. *)
Lemma searchConnections_runs (from to departure0 : string) (passengers : Z) :
  SearchRun host_parse upstream from to departure0 passengers
    (searchConnections host_parse upstream from to departure0 passengers).
Proof.
  pose proof (primarySearch_cases from to departure0 passengers) as H.
  inversion H as [e He Heq | fs ts e Hf Ht Hs Heq | fs ts sess Hf Ht Hs Hv Heq
                  | fs ts sess Hf Ht Hs Hv body Heq]; symmetry in Heq.
  - rewrite (searchConnections_primary_failure _ _ _ _ _ _ Heq). now apply run_lookup_fails.
  - rewrite (searchConnections_primary_failure _ _ _ _ _ _ Heq).
    now apply (run_session_fails _ _ _ _ _ _ fs ts).
  - rewrite (searchConnections_primary_failure _ _ _ _ _ _ Heq).
    now apply (run_passengers_rejected _ _ _ _ _ _ fs ts sess).
  - match type of Heq with
    | context [ebind ?x _] => destruct x as [e|result] eqn:Er
    end.
    + cbn [ebind] in Heq.
      rewrite (searchConnections_primary_failure _ _ _ _ _ _ Heq).
      now apply (run_search_fails _ _ _ _ _ _ fs ts sess e).
    + cbn [ebind] in Heq.
      rewrite (searchConnections_after_primary _ _ _ _ _ _ _ _ _ Heq).
      destruct (raw_connections result) as [raws|] eqn:Hraws.
      * destruct (raw_connections_Some _ _ Hraws) as [info ->].
        rewrite (completeSearch_present host_parse upstream departure0 passengers
                   (sSessionID sess) info raws Hraws
                   (primarySearch_passengers _ _ _ _ _ _ _ _ Heq)).
        cbn [fst snd app].
        now apply (run_list _ _ _ _ _ _ fs ts sess info raws).
      * rewrite (completeSearch_absent _ _ _ _ _ _ Hraws). cbn [fst snd app].
        now apply (run_no_list _ _ _ _ _ _ fs ts sess result).
Qed.

End Primary.

(** ** The order and the contents of the requests *)

Section Protocol.

Variable host_parse : string -> option Z.
Variable upstream : Upstream.

(** X1: the requests of a search follow the protocol: the two look-ups, of
    the origin then of the destination, always; then the session, the
    search and the price look-up, each only after the one before.  A
    result is returned only after the search request. *)
Theorem requests_follow_protocol (from to departure0 : string) (passengers : Z) :
  exists k rest,
    (2 <= k <= 5)%nat /\
    fst (searchConnections host_parse upstream from to departure0 passengers) =
      lookup_request from :: lookup_request to :: rest /\
    map endpoint (fst (searchConnections host_parse upstream from to departure0 passengers)) =
      firstn k protocol_order /\
    (forall res,
       snd (searchConnections host_parse upstream from to departure0 passengers) = Return res ->
       (4 <= k)%nat).
Proof.
  pose proof (searchConnections_runs host_parse upstream from to departure0 passengers) as H.
  inversion H as [e He Heq | fs ts e Hf Ht Hs Heq | fs ts sess Hf Ht Hs Hv Heq
                  | fs ts sess e Hf Ht Hs Hv body Hr Heq
                  | fs ts sess result Hf Ht Hs Hv body Hr Hn Heq
                  | fs ts sess info raws Hf Ht Hs Hv body Hr Hn Heq]; cbn [fst snd].
  - exists 2%nat, []. repeat split; try lia; try discriminate.
  - exists 3%nat, [CreateSession sessionBody]. repeat split; try lia; try discriminate.
  - exists 3%nat, [CreateSession sessionBody]. repeat split; try lia; try discriminate.
  - exists 4%nat, [CreateSession sessionBody; SearchConnectionInfo1 body].
    repeat split; try lia; try discriminate.
  - exists 4%nat, [CreateSession sessionBody; SearchConnectionInfo1 body].
    repeat split; lia.
  - exists 5%nat, [CreateSession sessionBody; SearchConnectionInfo1 body;
                   price_request (sSessionID sess) passengers info raws].
    repeat split; lia.
Qed.

(** X2: a passenger count that is not an array length stops the search after
    the session is created, before any search request. *)
Theorem invalid_passenger_count_stops_search
    (from to departure0 : string) (passengers : Z) fs ts sess :
  station_outcome upstream from = Return fs ->
  station_outcome upstream to = Return ts ->
  session_reply upstream = Return sess ->
  passengers < 0 \/ 2 ^ 32 <= passengers ->
  searchConnections host_parse upstream from to departure0 passengers =
    ([lookup_request from; lookup_request to; CreateSession sessionBody],
     Throw (RangeError "Invalid array length")).
Proof.
  intros Hf0 Ht0 Hs0 Hbad.
  assert (Hnv : ~ valid_length passengers) by (unfold valid_length; lia).
  pose proof (searchConnections_runs host_parse upstream from to departure0 passengers) as H.
  inversion H as [e He Heq | fs' ts' e Hf Ht Hs Heq | fs' ts' sess' Hf Ht Hs Hv Heq
                  | fs' ts' sess' e Hf Ht Hs Hv body Hr Heq
                  | fs' ts' sess' result Hf Ht Hs Hv body Hr Hn Heq
                  | fs' ts' sess' info raws Hf Ht Hs Hv body Hr Hn Heq];
    try contradiction.
  - exfalso. destruct He as [He|He]; [rewrite Hf0 in He | rewrite Ht0 in He]; discriminate.
  - exfalso. rewrite Hs0 in Hs. discriminate.
  - reflexivity.
Qed.

Lemma station_outcome_Return (mask : string) (s : StationInfo) :
  station_outcome upstream mask = Return s ->
  exists r item,
    lookup_reply upstream mask = Return r /\ first_item r = Some item /\
    s = {| station_id := iListID item; station_name := sName item |}.
Proof.
  unfold station_outcome. destruct (lookup_reply upstream mask) as [e|r]; [discriminate|].
  cbn [ebind]. destruct (first_item r) as [item|] eqn:E; [|discriminate].
  intros [= <-]. now exists r, item.
Qed.

(** X3: the search request, when there is one, carries the first candidate
    of each look-up, the session just created, the departure in the
    wrapper form ([/Date(NaN)/] when the departure is not a date) and one
    default passenger per passenger. *)
Theorem search_request_contents
    (from to departure0 : string) (passengers : Z) (b : ConnectionSearchBody) :
  In (SearchConnectionInfo1 b)
     (fst (searchConnections host_parse upstream from to departure0 passengers)) ->
  exists rf rt itf itt sess,
    lookup_reply upstream from = Return rf /\ first_item rf = Some itf /\
    lookup_reply upstream to = Return rt /\ first_item rt = Some itt /\
    session_reply upstream = Return sess /\
    oFrom b = itf /\ oTo b = itt /\ sc_sSessionID b = sSessionID sess /\
    dtDateTime b = dtDateTime_of (getTime (new_Date_string host_parse departure0)) /\
    (new_Date_string host_parse departure0 = None -> dtDateTime b = "/Date(NaN)/") /\
    sc_aoPassengers b = repeat defaultPassenger (Z.to_nat passengers) /\
    valid_length passengers.
Proof.
  intros Hin.
  assert (Hbody : exists fs ts sess,
            station_outcome upstream from = Return fs /\
            station_outcome upstream to = Return ts /\
            session_reply upstream = Return sess /\ valid_length passengers /\
            b = connectionSearchBody (sSessionID sess) fs ts
                  (getTime (new_Date_string host_parse departure0))
                  (repeat defaultPassenger (Z.to_nat passengers))).
  { pose proof (searchConnections_runs host_parse upstream from to departure0 passengers) as H.
    inversion H as [e He Heq | fs ts e Hf Ht Hs Heq | fs ts sess Hf Ht Hs Hv Heq
                    | fs ts sess e Hf Ht Hs Hv body Hr Heq
                    | fs ts sess result Hf Ht Hs Hv body Hr Hn Heq
                    | fs ts sess info raws Hf Ht Hs Hv body Hr Hn Heq];
      rewrite <- Heq in Hin; cbn [fst] in Hin; unfold lookup_request, price_request in Hin;
      cbn [In] in Hin;
      repeat (destruct Hin as [Hin|Hin];
              [first [ discriminate Hin
                     | injection Hin as Hb; exists fs, ts, sess;
                       repeat split; try assumption; try apply Hv; symmetry; exact Hb ] |]);
      contradiction. }
  destruct Hbody as (fs & ts & sess & Hf & Ht & Hs & Hv & ->).
  destruct (station_outcome_Return _ _ Hf) as (rf & itf & Hrf & Hif & ->).
  destruct (station_outcome_Return _ _ Ht) as (rt & itt & Hrt & Hit & ->).
  exists rf, rt, itf, itt, sess. cbn.
  repeat split; try assumption; try reflexivity.
  - now destruct itf.
  - now destruct itt.
  - intros ->. reflexivity.
  - apply Hv.
  - apply Hv.
Qed.

(** X4: the price request, when there is one, follows a search request that
    was answered with a connection list: it carries the session and the
    passengers of that request, the handle of the answer, and the
    identifiers of its connections in their order. *)
Theorem price_request_contents
    (from to departure0 : string) (passengers : Z) (pb : PriceBody) :
  In (GetConnectionsPrice pb)
     (fst (searchConnections host_parse upstream from to departure0 passengers)) ->
  exists b info raws,
    In (SearchConnectionInfo1 b)
       (fst (searchConnections host_parse upstream from to departure0 passengers)) /\
    settle (answer upstream (SearchConnectionInfo1 b)) = Return (Some info) /\
    raw_connections (Some info) = Some raws /\
    gp_sSessionID pb = sc_sSessionID b /\
    gp_iHandle pb = iHandle info /\
    aiConnID pb = map iID raws /\
    pr_aoPassengers (oPriceRequest pb) = sc_aoPassengers b.
Proof.
  intros Hin.
  pose proof (searchConnections_runs host_parse upstream from to departure0 passengers) as H.
  inversion H as [e He Heq | fs ts e Hf Ht Hs Heq | fs ts sess Hf Ht Hs Hv Heq
                  | fs ts sess e Hf Ht Hs Hv body Hr Heq
                  | fs ts sess result Hf Ht Hs Hv body Hr Hn Heq
                  | fs ts sess info raws Hf Ht Hs Hv body Hr Hn Heq];
    rewrite <- Heq in Hin; cbn [fst] in Hin |- *;
    unfold lookup_request, price_request in Hin; cbn [In] in Hin;
    repeat (destruct Hin as [Hin|Hin]; [try discriminate Hin |]); try contradiction.
  injection Hin as Hb. subst pb.
  exists body, info, raws. cbn.
  repeat split; try assumption; try reflexivity.
  do 3 right. left. reflexivity.
Qed.

End Protocol.

(** ** More on [parseDate] *)

Lemma string_append_assoc (a b c : string) : (a +++ b) +++ c = a +++ (b +++ c).
Proof. induction a as [|x a IH]; cbn; [reflexivity | now rewrite IH]. Qed.

Lemma string_forall_append (p : ascii -> bool) (a b : string) :
  string_forall p (a +++ b) = string_forall p a && string_forall p b.
Proof.
  induction a as [|x a IH]; cbn; [reflexivity|]. rewrite IH. now rewrite andb_assoc.
Qed.

Lemma slash_free_append (a b : string) :
  slash_free (a +++ b) = slash_free a && slash_free b.
Proof. apply string_forall_append. Qed.

Lemma is_digit_not_slash (c : ascii) : is_digit c = true -> Ascii.eqb c "/" = false.
Proof.
  intros H. apply Ascii.eqb_neq. intros ->. discriminate H.
Qed.

Lemma all_digits_slash_free (s : string) : all_digits s = true -> slash_free s = true.
Proof.
  induction s as [|c s IH]; cbn; [reflexivity|].
  intros H. apply andb_true_iff in H as [Hc Hs].
  unfold slash_free in *. cbn. rewrite (is_digit_not_slash c Hc). cbn. now apply IH.
Qed.

Lemma slash_free_pad (n : nat) (v : Z) : slash_free (pad n v) = true.
Proof. apply all_digits_slash_free, all_digits_pad. Qed.

Lemma slash_free_Z_toString (v : Z) : slash_free (Z_toString v) = true.
Proof.
  unfold Z_toString. destruct (v <? 0).
  - change (slash_free (String "-" (pad (num_digits (- v)) (- v))))
      with (slash_free (pad (num_digits (- v)) (- v))).
    apply slash_free_pad.
  - apply slash_free_pad.
Qed.

Lemma slash_free_year_string (y : Z) : slash_free (year_string y) = true.
Proof.
  unfold year_string.
  destruct ((0 <=? y) && (y <=? 9999)); [apply slash_free_pad|].
  destruct (y <? 0).
  - change (slash_free (String "-" (pad 6 (- y)))) with (slash_free (pad 6 (- y))).
    apply slash_free_pad.
  - change (slash_free (String "+" (pad 6 y))) with (slash_free (pad 6 y)).
    apply slash_free_pad.
Qed.

Lemma slash_free_iso_string (t : Z) : slash_free (iso_string t) = true.
Proof.
  unfold iso_string. cbv zeta.
  repeat rewrite slash_free_append.
  rewrite slash_free_year_string, !slash_free_pad. reflexivity.
Qed.

Lemma match_here_not_slash (c : ascii) (s : string) :
  Ascii.eqb c "/" = false -> match_here (String c s) = None.
Proof.
  intros H. unfold match_here. cbn [strip_prefix].
  rewrite Ascii.eqb_sym, H. reflexivity.
Qed.

Lemma regex_match_slash_free (s : string) : slash_free s = true -> regex_match s = None.
Proof.
  induction s as [|c s IH]; intros H.
  - reflexivity.
  - unfold slash_free in H. cbn in H. apply andb_true_iff in H as [Hc Hs].
    apply negb_true_iff in Hc.
    rewrite regex_match_unfold, (match_here_not_slash c s Hc). now apply IH.
Qed.

(** A slash-free text followed by one slash holds no wrapper either. *)
Lemma regex_match_closing_slash (s : string) :
  slash_free s = true -> regex_match (s +++ "/") = None.
Proof.
  induction s as [|c s IH]; intros H.
  - reflexivity.
  - unfold slash_free in H. cbn in H. apply andb_true_iff in H as [Hc Hs].
    apply negb_true_iff in Hc. cbn [String.append].
    rewrite regex_match_unfold, (match_here_not_slash c _ Hc). now apply IH.
Qed.

Lemma parseDate_slash_free (raw : string) : slash_free raw = true -> parseDate raw = Return raw.
Proof. intros H. unfold parseDate. now rewrite (regex_match_slash_free raw H). Qed.

(** X5: [parseDate] is idempotent: what it returns, it returns unchanged
    when given it again.  (An ISO string holds no slash, so it holds no
    wrapper.) *)
Theorem parseDate_idempotent (raw s : string) :
  parseDate raw = Return s -> parseDate s = Return s.
Proof.
  unfold parseDate at 1.
  destruct (regex_match raw) as [m1|] eqn:E.
  - destruct (negb (truthy m1)) eqn:Et.
    + intros [= <-]. unfold parseDate. now rewrite E, Et.
    + unfold toISOString. destruct (new_Date_number (parseInt m1)) as [t|]; [|discriminate].
      intros [= <-]. apply parseDate_slash_free, slash_free_iso_string.
  - intros [= <-]. unfold parseDate. now rewrite E.
Qed.

Lemma parseDate_idempotent_witness :
  parseDate "/Date(1765794960000)/" = Return "2025-12-15T10:36:00.000Z" /\
  parseDate "2025-12-15T10:36:00.000Z" = Return "2025-12-15T10:36:00.000Z".
Proof.
  split; [reflexivity|].
  apply (parseDate_idempotent "/Date(1765794960000)/"). reflexivity.
Defined.

(** At one position, a signed integer that is not followed by the closing
    [)/] is no match. *)
Lemma match_here_unclosed (g rest : string) :
  is_signed_integer g = true -> no_digit_ahead rest -> strip_prefix ")/" rest = None ->
  match_here ("/Date(" +++ g +++ rest) = None.
Proof.
  intros Hg Hnd Hrest. unfold match_here.
  change (strip_prefix "/Date(" ("/Date(" +++ g +++ rest)) with (Some (g +++ rest)).
  destruct g as [|c g]; [discriminate|].
  destruct (Ascii.eqb_spec c "-") as [->|Hc].
  - cbn [String.append]. cbn [is_signed_integer] in Hg.
    apply andb_prop in Hg as [Hne Hd].
    rewrite span_digits_all by assumption.
    destruct g as [|c' g]; [discriminate|]. now rewrite Hrest.
  - assert (Hd : all_digits (String c g) = true).
    { unfold is_signed_integer in Hg.
      destruct c as [[] [] [] [] [] [] [] []];
        try (apply andb_prop in Hg as [_ Hg]; exact Hg); now contradiction Hc. }
    assert (Hsplit :
      match String c g +++ rest with
      | String "-" r => ("-", r)
      | _ => ("", String c g +++ rest)
      end = ("", String c g +++ rest)).
    { cbn [String.append].
      destruct c as [[] [] [] [] [] [] [] []]; try reflexivity; now contradiction Hc. }
    rewrite Hsplit, span_digits_all by assumption. now rewrite Hrest.
Qed.

(** X6: a timestamp with a zone offset inside the wrapper, as in
    [/Date(1765794960000+0100)/], is not decoded: [parseDate] returns it
    as it is. *)
Theorem parseDate_keeps_offset_wrappers (ms : Z) (sg : ascii) (off : string) :
  sg = "+"%char \/ sg = "-"%char ->
  slash_free off = true ->
  parseDate ("/Date(" +++ Z_toString ms +++ String sg off +++ ")/") =
  Return ("/Date(" +++ Z_toString ms +++ String sg off +++ ")/").
Proof.
  intros Hsg Hoff.
  assert (Hnone : regex_match ("/Date(" +++ Z_toString ms +++ String sg off +++ ")/") = None).
  { rewrite regex_match_unfold.
    rewrite (match_here_unclosed (Z_toString ms) (String sg off +++ ")/")).
    - change ("/Date(" +++ Z_toString ms +++ String sg off +++ ")/")
        with (String "/" ("Date(" +++ Z_toString ms +++ String sg off +++ ")/")).
      cbv iota.
      replace ("Date(" +++ Z_toString ms +++ String sg off +++ ")/")
        with (("Date(" +++ Z_toString ms +++ String sg off +++ ")") +++ "/").
      + apply regex_match_closing_slash.
        rewrite !slash_free_append, slash_free_Z_toString.
        change (slash_free (String sg off))
          with (negb (Ascii.eqb sg "/") && slash_free off).
        rewrite Hoff. destruct Hsg as [-> | ->]; reflexivity.
      + rewrite !string_append_assoc. reflexivity.
    - apply is_signed_integer_Z_toString.
    - destruct Hsg as [-> | ->]; reflexivity.
    - destruct Hsg as [-> | ->]; reflexivity. }
  unfold parseDate. now rewrite Hnone.
Qed.

Lemma parseDate_keeps_offset_wrappers_witness :
  parseDate "/Date(1765794960000+0100)/" = Return "/Date(1765794960000+0100)/".
Proof.
  apply (parseDate_keeps_offset_wrappers 1765794960000 "+" "0100").
  - left. reflexivity.
  - reflexivity.
Defined.

(** ** What a returned search is made of *)

Section Results.

Variable host_parse : string -> option Z.
Variable upstream : Upstream.

(** A search that returns has issued its search request, and either the
    reply held no list, or each connection is the transform of the raw
    connection at its position. *)
Lemma searchConnections_returned (from to departure0 : string) (passengers : Z) t res :
  searchConnections host_parse upstream from to departure0 passengers = (t, Return res) ->
  exists b result,
    In (SearchConnectionInfo1 b) t /\
    settle (answer upstream (SearchConnectionInfo1 b)) = Return result /\
    ((raw_connections result = None /\
      res = {| handle := None; connections := [] |} /\ List.length t = 4%nat) \/
     (exists info raws,
        result = Some info /\ raw_connections (Some info) = Some raws /\
        handle res = Some (Z_toString (iHandle info)) /\
        emapi (toConnection host_parse departure0
                 (merged_prices
                    (price_reply upstream (sc_sSessionID b) passengers info raws) raws))
              raws = Return (connections res) /\
        List.length t = 5%nat)).
Proof.
  intros Hrun.
  pose proof (searchConnections_runs host_parse upstream from to departure0 passengers) as H.
  inversion H as [e He Heq | fs ts e Hf Ht Hs Heq | fs ts sess Hf Ht Hs Hv Heq
                  | fs ts sess e Hf Ht Hs Hv body Hr Heq
                  | fs ts sess result Hf Ht Hs Hv body Hr Hn Heq
                  | fs ts sess info raws Hf Ht Hs Hv body Hr Hn Heq];
    rewrite Hrun in Heq; try discriminate Heq.
  - injection Heq as <- <-. exists body, result. split; [|split].
    + do 3 right. left. reflexivity.
    + exact Hr.
    + left. repeat split. exact Hn.
  - injection Heq as Ht' Hres. exists body, (Some info). split; [|split].
    + rewrite <- Ht'. do 3 right. left. reflexivity.
    + exact Hr.
    + right. exists info, raws.
      match type of Hres with
      | ebind ?x _ = _ => destruct x as [e|cs] eqn:Ecs
      end; [discriminate Hres|].
      cbn [ebind] in Hres. injection Hres as <-. cbn [handle connections].
      repeat split; try assumption. now rewrite <- Ht'.
Qed.

Lemma toLeg_fields (rl : RawLeg) (leg : ConnectionLeg) :
  toLeg rl = Return leg ->
  leg_from leg = sStationName1 rl /\ leg_to leg = sStationName2 rl /\
  trainType leg = sType rl /\
  trainNumber leg = String.concat " " (filter_Boolean [sNum1 rl; sNum2 rl; sNum3 rl]) /\
  parseDate (dtDateTime1 rl) = Return (leg_departure leg) /\
  parseDate (dtDateTime2 rl) = Return (leg_arrival leg).
Proof.
  unfold toLeg.
  destruct (parseDate (dtDateTime1 rl)) as [e|dep]; [discriminate|].
  destruct (parseDate (dtDateTime2 rl)) as [e|arr]; [discriminate|].
  cbn [ebind]. intros [= <-]. cbn. repeat split; reflexivity.
Qed.

(** X7: the legs of a returned connection mirror the trains of the raw
    connection at the same position: as many, in the same order, with the
    station names and the train type passed through, the train number
    joined from the non-empty number parts, and both times the decoded
    timestamps. *)
Theorem legs_mirror_upstream_trains
    (from to departure0 : string) (passengers : Z) t res (i : nat) (c : Connection) :
  searchConnections host_parse upstream from to departure0 passengers = (t, Return res) ->
  nth_error (connections res) i = Some c ->
  exists b info raws raw,
    In (SearchConnectionInfo1 b) t /\
    settle (answer upstream (SearchConnectionInfo1 b)) = Return (Some info) /\
    raw_connections (Some info) = Some raws /\
    nth_error raws i = Some raw /\
    List.length (legs c) = List.length (aoTrains raw) /\
    forall j leg, nth_error (legs c) j = Some leg ->
      exists rl,
        nth_error (aoTrains raw) j = Some rl /\
        leg_from leg = sStationName1 rl /\ leg_to leg = sStationName2 rl /\
        trainType leg = sType rl /\
        trainNumber leg =
          String.concat " " (filter_Boolean [sNum1 rl; sNum2 rl; sNum3 rl]) /\
        parseDate (dtDateTime1 rl) = Return (leg_departure leg) /\
        parseDate (dtDateTime2 rl) = Return (leg_arrival leg).
Proof.
  intros Hrun Hc.
  destruct (searchConnections_returned _ _ _ _ _ _ Hrun)
    as (b & result & Hin & Hr & [(_ & -> & _) | (info & raws & -> & Hraws & _ & Hmap & _)]).
  - destruct i; discriminate Hc.
  - destruct (emapi_Return _ _ _ Hmap) as (_ & _ & Hback).
    destruct (Hback _ _ Hc) as (raw & Hraw & Hconn).
    destruct (toConnection_Return host_parse _ _ _ _ _ Hconn) as (Hlegs & _).
    exists b, info, raws, raw. repeat split; try assumption.
    + apply (emap_Return_length _ _ _ Hlegs).
    + intros j leg Hleg.
      destruct (emap_Return_nth _ _ _ Hlegs _ _ Hleg) as (rl & Hrl & Hto).
      exists rl. split; [exact Hrl|]. now apply toLeg_fields.
Qed.

Lemma Z_toString_injective (a b : Z) : Z_toString a = Z_toString b -> a = b.
Proof.
  intros H. pose proof (parseInt_Z_toString_whole a) as Ha.
  rewrite H, parseInt_Z_toString_whole in Ha. now injection Ha as ->.
Qed.

(** X8: the identifier of a returned connection is the decimal numeral of
    the upstream identifier of the raw connection at its position, which
    [parseInt] reads back, when that identifier is an integer that a
    double holds exactly; two returned connections with the same
    identifier then come from raw connections with the same upstream
    identifier. *)
Theorem connection_ids_read_back
    (from to departure0 : string) (passengers : Z) t res (i : nat) (c : Connection) :
  searchConnections host_parse upstream from to departure0 passengers = (t, Return res) ->
  nth_error (connections res) i = Some c ->
  exists b info raws raw,
    In (SearchConnectionInfo1 b) t /\
    settle (answer upstream (SearchConnectionInfo1 b)) = Return (Some info) /\
    raw_connections (Some info) = Some raws /\
    List.length (connections res) = List.length raws /\
    nth_error raws i = Some raw /\
    (safe_integer (iID raw) -> decimal_of (iID raw) (id c)) /\
    forall j c' raw',
      nth_error (connections res) j = Some c' -> nth_error raws j = Some raw' ->
      safe_integer (iID raw) -> safe_integer (iID raw') ->
      id c = id c' -> iID raw = iID raw'.
Proof.
  intros Hrun Hc.
  destruct (searchConnections_returned _ _ _ _ _ _ Hrun)
    as (b & result & Hin & Hr & [(_ & -> & _) | (info & raws & -> & Hraws & _ & Hmap & _)]).
  - destruct i; discriminate Hc.
  - destruct (emapi_Return _ _ _ Hmap) as (Hlen & Hfwd & Hback).
    destruct (Hback _ _ Hc) as (raw & Hraw & Hconn).
    destruct (toConnection_Return host_parse _ _ _ _ _ Hconn) as (_ & Hid & _).
    exists b, info, raws, raw. repeat (split; [assumption|]). split.
    + intros _. rewrite Hid. apply decimal_of_Z_toString.
    + intros j c' raw' Hc' Hraw' _ _ Heq.
      destruct (Hfwd _ _ Hraw') as (c'' & Hc'' & Hconn').
      rewrite Hc' in Hc''. injection Hc'' as <-.
      destruct (toConnection_Return host_parse _ _ _ _ _ Hconn') as (_ & Hid' & _).
      rewrite Hid, Hid' in Heq. now apply Z_toString_injective.
Qed.

End Results.

(** ** What the price look-up can change *)

Section Frame.

Variable host_parse : string -> option Z.

Lemma toConnection_frame (departure0 : string) (p1 p2 : list Q)
    (raw : RawConnection) (i : nat) :
  match toConnection host_parse departure0 p1 raw i,
        toConnection host_parse departure0 p2 raw i with
  | inr a, inr b => without_price a = without_price b
  | inl e1, inl e2 => e1 = e2
  | _, _ => False
  end.
Proof.
  unfold toConnection. destruct (emap toLeg (aoTrains raw)); cbn; reflexivity.
Qed.

Lemma emapi_from_frame (departure0 : string) (p1 p2 : list Q)
    (raws : list RawConnection) (k : nat) :
  match emapi_from k (toConnection host_parse departure0 p1) raws,
        emapi_from k (toConnection host_parse departure0 p2) raws with
  | inr a, inr b => map without_price a = map without_price b
  | inl e1, inl e2 => e1 = e2
  | _, _ => False
  end.
Proof.
  revert k. induction raws as [|raw raws IH]; intros k; cbn [emapi_from].
  - reflexivity.
  - pose proof (toConnection_frame departure0 p1 p2 raw k) as Hc.
    destruct (toConnection host_parse departure0 p1 raw k) as [e1|a];
      destruct (toConnection host_parse departure0 p2 raw k) as [e2|b];
      cbn [ebind]; try contradiction; [exact Hc|].
    specialize (IH (S k)).
    destruct (emapi_from (S k) (toConnection host_parse departure0 p1) raws) as [e1|l1];
      destruct (emapi_from (S k) (toConnection host_parse departure0 p2) raws) as [e2|l2];
      cbn [ebind]; unfold Return; try contradiction; [exact IH|].
    cbn [map]. now rewrite Hc, IH.
Qed.

Lemma station_outcome_frame (up1 up2 : Upstream) (mask : string) :
  same_but_prices up1 up2 -> station_outcome up1 mask = station_outcome up2 mask.
Proof.
  intros [_ H]. unfold station_outcome, lookup_reply. rewrite H; [reflexivity | discriminate].
Qed.

Lemma primarySearch_frame (up1 up2 : Upstream) (from to departure0 : string) (passengers : Z) :
  same_but_prices up1 up2 ->
  primarySearch host_parse up1 from to departure0 passengers =
  primarySearch host_parse up2 from to departure0 passengers.
Proof.
  intros Hsame. pose proof Hsame as [Hrace Hans].
  unfold primarySearch. rewrite Hrace, !searchStation_outcome.
  rewrite !(station_outcome_frame up1 up2) by assumption.
  apply bind_ext. intros [fromStation toStation].
  rewrite !createSession_run. unfold session_reply.
  rewrite (Hans (CreateSession sessionBody)) by discriminate.
  apply bind_ext. intros sessionID. cbv zeta.
  apply bind_ext. intros aoPassengers.
  unfold postRequest. rewrite Hans by discriminate. reflexivity.
Qed.

(** X9: the answer to the price look-up changes nothing but prices.  Two
    upstreams that differ on that endpoint only see the same requests,
    and the two searches fail alike or return the same handle and the
    same connections up to their [price] fields. *)
Theorem price_reply_changes_prices_only
    (up1 up2 : Upstream) (from to departure0 : string) (passengers : Z) :
  same_but_prices up1 up2 ->
  fst (searchConnections host_parse up1 from to departure0 passengers) =
  fst (searchConnections host_parse up2 from to departure0 passengers) /\
  same_but_price_fields
    (snd (searchConnections host_parse up1 from to departure0 passengers))
    (snd (searchConnections host_parse up2 from to departure0 passengers)).
Proof.
  intros Hsame.
  rewrite !searchConnections_factor.
  pose proof (primarySearch_frame up1 up2 from to departure0 passengers Hsame) as Hprim.
  destruct (primarySearch host_parse up1 from to departure0 passengers)
    as [tr [e|[sid result]]] eqn:E1; rewrite <- Hprim.
  - cbn. split; reflexivity.
  - rewrite !bind_Return. cbn [fst snd].
    destruct (raw_connections result) as [raws|] eqn:Hraws.
    + destruct (raw_connections_Some _ _ Hraws) as [info ->].
      pose proof (primarySearch_passengers _ _ _ _ _ _ _ _ E1) as Hfill.
      rewrite !(completeSearch_present host_parse _ departure0 passengers sid info raws
                  Hraws Hfill).
      cbn [fst snd]. split; [reflexivity|].
      unfold emapi.
      pose proof (emapi_from_frame departure0
                    (merged_prices (price_reply up1 sid passengers info raws) raws)
                    (merged_prices (price_reply up2 sid passengers info raws) raws)
                    raws 0) as Hf.
      destruct (emapi_from 0 (toConnection host_parse departure0
                  (merged_prices (price_reply up1 sid passengers info raws) raws)) raws)
        as [e1|l1];
        destruct (emapi_from 0 (toConnection host_parse departure0
                    (merged_prices (price_reply up2 sid passengers info raws) raws)) raws)
          as [e2|l2]; cbv beta iota in Hf; try contradiction;
        cbn [ebind]; unfold Return, same_but_price_fields; cbn [handle connections].
      * exact Hf.
      * split; [reflexivity | exact Hf].
    + rewrite !(completeSearch_absent host_parse _ _ _ _ _ Hraws).
      cbn. repeat split.
Qed.

End Frame.

Lemma price_reply_changes_prices_only_witness :
  same_but_prices scenario_upstream unpriced_upstream /\
  fst (searchConnections no_host_parse scenario_upstream "Praha" "Brno" requested 1) =
  fst (searchConnections no_host_parse unpriced_upstream "Praha" "Brno" requested 1) /\
  same_but_price_fields
    (snd (searchConnections no_host_parse scenario_upstream "Praha" "Brno" requested 1))
    (snd (searchConnections no_host_parse unpriced_upstream "Praha" "Brno" requested 1)).
Proof.
  assert (H : same_but_prices scenario_upstream unpriced_upstream).
  { split; [reflexivity|]. intros [b|b|b|b] Hne; try reflexivity. now contradiction Hne. }
  split; [exact H|].
  apply (price_reply_changes_prices_only no_host_parse scenario_upstream unpriced_upstream).
  exact H.
Defined.

(** ** [getLocation], [formatLocation] and the tool handlers *)

Section Callers.

Variable host_parse : string -> option Z.
Variable upstream : Upstream.
Variable Number_toString_Q : Q -> string.

Lemma getLocation_run (_type key0 : string) :
  getLocation upstream _type key0 =
  ([lookup_request key0],
   match station_outcome upstream key0 with
   | inr station =>
       Return (Some {| key := Z_toString (station_id station);
                       name := station_name station; type := "station" |})
   | inl _ => Return None
   end).
Proof.
  unfold getLocation. rewrite searchStation_outcome.
  destruct (station_outcome upstream key0) as [e|station]; reflexivity.
Qed.

(** X10: [getLocation] never throws and never looks at its type argument.
    It issues the one look-up of the key; it returns [null] exactly when
    the station look-up throws, and otherwise the first candidate, as a
    station: its name, and as key the decimal numeral of its identifier,
    for an identifier that a double holds exactly. *)
Theorem getLocation_never_throws (type1 type2 key0 : string) :
  getLocation upstream type1 key0 = getLocation upstream type2 key0 /\
  exists r,
    getLocation upstream type1 key0 = ([lookup_request key0], Return r) /\
    (r = None <-> exists e, station_outcome upstream key0 = Throw e) /\
    forall loc, r = Some loc ->
      type loc = "station" /\
      exists reply item,
        lookup_reply upstream key0 = Return reply /\ first_item reply = Some item /\
        name loc = sName item /\
        (safe_integer (iListID item) -> decimal_of (iListID item) (key loc)).
Proof.
  split; [reflexivity|].
  rewrite getLocation_run.
  destruct (station_outcome upstream key0) as [e|station] eqn:E.
  - exists None. split; [reflexivity|]. split.
    + split; [intros _; now exists e | reflexivity].
    + discriminate.
  - eexists. split; [reflexivity|]. split.
    + split; [discriminate | intros [e He]; discriminate He].
    + intros loc [= <-]. split; [reflexivity|].
      destruct (station_outcome_Return _ _ _ E) as (reply & item & Hr & Hi & ->).
      exists reply, item. cbn [key name station_id station_name].
      repeat (split; [assumption|]). split; [reflexivity|].
      intros _. apply decimal_of_Z_toString.
Qed.

Lemma toLocation_type (item : StationSearchItem) (loc : Location) :
  toLocation item = Return loc -> type loc = "station".
Proof.
  unfold toLocation. destruct (oItem item); [|discriminate]. now intros [= <-].
Qed.

Lemma searchLocations_types (query : string) (ty : option string) locs loc :
  snd (searchLocations upstream query ty) = Return locs -> In loc locs ->
  type loc = "station".
Proof.
  unfold searchLocations, postRequest, bind, lift.
  destruct (settle _) as [e|r]; [discriminate|]. cbn [snd].
  intros Hmap Hin. destruct (In_connection_nth _ _ Hin) as [i Hi].
  destruct (emap_Return_nth _ _ _ Hmap _ _ Hi) as (item & _ & Hloc).
  now apply (toLocation_type item).
Qed.

Lemma formatLocation_station (loc : Location) :
  type loc = "station" -> formatLocation loc None = "📍 " +++ name loc +++ " (station)".
Proof.
  intros H. unfold formatLocation. rewrite H. cbn [truthy].
  now rewrite string_append_assoc.
Qed.

(** X11: every location that the client hands out, from [searchLocations]
    or from [getLocation], is displayed as the pin, its name and
    [(station)], with no country code. *)
Theorem client_locations_format_as_stations (loc : Location) :
  (exists query ty locs,
     snd (searchLocations upstream query ty) = Return locs /\ In loc locs) \/
  (exists ty key0, snd (getLocation upstream ty key0) = Return (Some loc)) ->
  formatLocation loc None = "📍 " +++ name loc +++ " (station)".
Proof.
  intros [(query & ty & locs & Hl & Hin) | (ty & key0 & Hg)];
    apply formatLocation_station.
  - exact (searchLocations_types _ _ _ _ Hl Hin).
  - rewrite getLocation_run in Hg. cbn [snd] in Hg.
    destruct (station_outcome upstream key0); [discriminate|].
    now injection Hg as <-.
Qed.

Lemma searchLocations_trace (query : string) (ty : option string) :
  fst (searchLocations upstream query ty) =
  [SearchGlobalListItemInfoExt (stationSearchBody query 10)].
Proof.
  unfold searchLocations, postRequest, bind, lift.
  destruct (settle _); cbn; reflexivity.
Qed.

Lemma map_formatLocation (locs : list Location) :
  (forall loc, In loc locs -> type loc = "station") ->
  map (fun loc => formatLocation loc None) locs =
  map (fun loc => "📍 " +++ name loc +++ " (station)") locs.
Proof.
  intros H. apply map_ext_in. intros loc Hin. apply formatLocation_station. now apply H.
Qed.

(** X12: the [search_locations] tool never throws.  It issues the one
    look-up; a failure of the client becomes an error result that
    carries its message; no location becomes the [No locations found]
    text; otherwise the text counts the locations and lists one line
    for each, the pin, the name and [(station)]. *)
Theorem search_locations_tool_never_throws (query : string) (ty : option string) :
  exists r,
    search_locations_tool upstream query ty =
      ([SearchGlobalListItemInfoExt (stationSearchBody query 10)], Return r) /\
    (forall e, snd (searchLocations upstream query ty) = Throw e ->
       r = {| content_text := "Error searching locations: " +++ message_of e;
              isError := true |}) /\
    (snd (searchLocations upstream query ty) = Return [] ->
       r = {| content_text := "No locations found for " +++ DQ +++ query +++ DQ +++
                              ". Try a different search term.";
              isError := false |}) /\
    (forall locs, snd (searchLocations upstream query ty) = Return locs -> locs <> [] ->
       r = {| content_text :=
                "Found " +++ Z_toString (Z.of_nat (List.length locs)) +++
                " location(s) for " +++ DQ +++ query +++ DQ +++ ":" +++ LF +++ LF +++
                String.concat LF (map (fun loc => "📍 " +++ name loc +++ " (station)") locs);
              isError := false |}).
Proof.
  unfold search_locations_tool.
  pose proof (searchLocations_trace query ty) as Htr.
  pose proof (searchLocations_types query ty) as Hty.
  destruct (searchLocations upstream query ty) as [t [e|locs]]; cbn [fst snd] in *; subst t.
  - eexists. split; [reflexivity|]. repeat split; try discriminate.
    now intros e' [= <-].
  - destruct locs as [|loc locs].
    + eexists. split; [reflexivity|]. repeat split; try discriminate.
      intros locs' [= <-] Hne. now contradiction Hne.
    + eexists. split; [reflexivity|]. repeat split; try discriminate.
      intros locs' [= <-] _.
      rewrite (map_formatLocation (loc :: locs)); [reflexivity|].
      intros l Hl. exact (Hty _ _ eq_refl Hl).
Qed.

(** X13: the [search_connections] tool never throws.  It issues the
    requests of [searchConnections] and no other; a failure of the client
    becomes an error result that carries its message, and a return of the
    client never does. *)
Theorem search_connections_tool_never_throws
    (from to departure0 : string) (passengers : Z) :
  exists r,
    search_connections_tool host_parse upstream Number_toString_Q
      from to departure0 passengers =
      (fst (searchConnections host_parse upstream from to departure0 passengers),
       Return r) /\
    (forall e,
       snd (searchConnections host_parse upstream from to departure0 passengers) = Throw e ->
       r = {| content_text := "Error searching connections: " +++ message_of e;
              isError := true |}) /\
    (forall res,
       snd (searchConnections host_parse upstream from to departure0 passengers) = Return res ->
       isError r = false).
Proof.
  unfold search_connections_tool.
  destruct (searchConnections host_parse upstream from to departure0 passengers)
    as [t [e|res]]; cbn [fst snd].
  - eexists. split; [cbn; now rewrite app_nil_r|]. split; [|discriminate].
    now intros e' [= <-].
  - unfold bind, try_catch.
    destruct (List.length (connections res) =? 0)%nat;
      cbn; rewrite app_nil_r; eexists; (split; [reflexivity|]);
      (split; [discriminate | intros; reflexivity]).
Qed.

(** X14: a station that the upstream does not know is reported by name:
    when both look-ups are answered and one has no candidate, the tool
    result is the error [Station not found] with the name asked for, and
    nothing but the two look-ups was requested. *)
Theorem unknown_station_is_reported_by_name
    (from to departure0 : string) (passengers : Z) :
  answered upstream from -> answered upstream to ->
  zero_candidates upstream from \/ zero_candidates upstream to ->
  exists q,
    (q = from \/ q = to) /\ unresolved upstream q /\
    search_connections_tool host_parse upstream Number_toString_Q
      from to departure0 passengers =
      ([lookup_request from; lookup_request to],
       Return {| content_text := "Error searching connections: Station not found: " +++ q;
                 isError := true |}).
Proof.
  intros Hf Ht Hz.
  destruct (unresolved_station_outcome host_parse upstream from to departure0 passengers Hz)
    as (e & Hrun & Hq).
  destruct (Hq Hf Ht) as (q & Hwhich & Hun & -> & _).
  exists q. repeat split; try assumption.
  unfold search_connections_tool. rewrite Hrun. reflexivity.
Qed.

(** X15: a reply without a connection list, or with an empty one, is
    reported as [No connections found], with the names and the departure
    as they were asked, and not as an error. *)
Theorem missing_or_empty_list_reads_no_connections
    (from to departure0 : string) (passengers : Z) tr sid result :
  primarySearch host_parse upstream from to departure0 passengers =
    (tr, Return (sid, result)) ->
  or_empty (raw_connections result) = [] ->
  snd (search_connections_tool host_parse upstream Number_toString_Q
         from to departure0 passengers) =
  Return {| content_text :=
              "No connections found from " +++ DQ +++ from +++ DQ +++ " to " +++
              DQ +++ to +++ DQ +++ " on " +++ departure0 +++ ".";
            isError := false |}.
Proof.
  intros Hprim Hempty.
  unfold search_connections_tool.
  rewrite (searchConnections_after_primary _ _ _ _ _ _ _ _ _ Hprim).
  destruct (raw_connections result) as [raws|] eqn:Hraws.
  - cbn [or_empty] in Hempty. subst raws.
    destruct (raw_connections_Some _ _ Hraws) as [info ->].
    rewrite (completeSearch_present host_parse upstream departure0 passengers sid info []
               Hraws (primarySearch_passengers _ _ _ _ _ _ _ _ Hprim)).
    reflexivity.
  - rewrite (completeSearch_absent _ _ _ _ _ _ Hraws). reflexivity.
Qed.

Lemma truthy_Z_toString (v : Z) : truthy (Z_toString v) = true.
Proof.
  unfold Z_toString. destruct (v <? 0); [reflexivity|].
  destruct (pad_nonempty v) as (c & s & ->). reflexivity.
Qed.

(** X16: a result with at least one connection always carries a handle,
    so the text of the tool always ends with the pagination line that
    quotes it; the handle is the decimal numeral of the upstream's, for
    a handle that a double holds exactly. *)
Theorem nonempty_result_advertises_pagination
    (from to departure0 : string) (passengers : Z) t res :
  searchConnections host_parse upstream from to departure0 passengers = (t, Return res) ->
  connections res <> [] ->
  exists h b info,
    handle res = Some h /\
    In (SearchConnectionInfo1 b) t /\
    settle (answer upstream (SearchConnectionInfo1 b)) = Return (Some info) /\
    (safe_integer (iHandle info) -> decimal_of (iHandle info) h) /\
    snd (search_connections_tool host_parse upstream Number_toString_Q
           from to departure0 passengers) =
    Return {| content_text :=
                ("Found " +++ Z_toString (Z.of_nat (List.length (connections res))) +++
                 " connection(s) from " +++ DQ +++ from +++ DQ +++ " to " +++ DQ +++ to +++
                 DQ +++ ":" +++ LF +++ LF +++
                 String.concat (LF +++ LF +++ "---" +++ LF +++ LF)
                   (map (formatConnection Number_toString_Q) (connections res))) +++
                LF +++ LF +++ "📑 Pagination handle: " +++ h +++
                " (use with get_more_connections for more results)";
              isError := false |}.
Proof.
  intros Hrun Hne.
  destruct (searchConnections_returned _ _ _ _ _ _ _ _ Hrun)
    as (b & result & Hin & Hr & [(_ & -> & _) | (info & raws & -> & Hraws & Hh & _ & _)]).
  - now contradiction Hne.
  - exists (Z_toString (iHandle info)), b, info.
    repeat (split; [assumption|]). split.
    + intros _. apply decimal_of_Z_toString.
    + unfold search_connections_tool. rewrite Hrun.
      unfold bind, try_catch, Return. cbv beta iota. rewrite Hh.
      cbn [truthy_opt interpolate]. rewrite truthy_Z_toString.
      destruct (connections res) as [|c cs] eqn:Ec; [now contradiction Hne|].
      reflexivity.
Qed.

End Callers.

(** ** [formatConnection] *)

Section Display.

Variable Number_toString_Q : Q -> string.

(** X17: the duration line splits the minutes into hours and a remainder.
    For a duration that is not negative, the two numbers add up to it and
    the remainder is below sixty.  For a negative duration that is not a
    whole number of hours they do not: the hours are rounded down, the
    remainder keeps the sign, and together they fall an hour short. *)
Theorem duration_line_splits_minutes (conn : Connection) (d : Z) :
  duration conn = Some d ->
  exists h m,
    nth_error (connectionLines Number_toString_Q conn) 1 =
      Some ("   Duration: " +++ Z_toString h +++ "h " +++ Z_toString m +++ "m") /\
    (0 <= d -> 60 * h + m = d /\ 0 <= m < 60) /\
    (d < 0 -> d mod 60 = 0 -> 60 * h + m = d /\ m = 0) /\
    (d < 0 -> d mod 60 <> 0 -> 60 * h + m = d - 60 /\ -60 < m < 0).
Proof.
  intros Hd. exists (d / 60), (Z.rem d 60).
  split; [unfold connectionLines; rewrite Hd; reflexivity|].
  pose proof (Z.quot_rem' d 60) as Hqr.
  repeat split; intros.
  - rewrite Z.rem_mod_nonneg by lia. pose proof (Z.div_mod d 60). lia.
  - apply Z.rem_bound_pos; lia.
  - apply Z.rem_bound_pos; lia.
  - rewrite Z.rem_mod by lia. rewrite Z.abs_neq, Z.sgn_neg by lia.
    rewrite Z.abs_eq by lia.
    assert ((- d) mod 60 = 0) by (apply Z.mod_opp_l_z; lia).
    pose proof (Z.div_mod d 60). lia.
  - rewrite Z.rem_mod by lia. rewrite Z.abs_neq, Z.sgn_neg by lia.
    rewrite Z.abs_eq by lia.
    assert ((- d) mod 60 = 0) by (apply Z.mod_opp_l_z; lia). lia.
  - rewrite Z.rem_mod by lia. rewrite Z.abs_neq, Z.sgn_neg by lia.
    rewrite Z.abs_eq by lia.
    rewrite Z.mod_opp_l_nz by lia.
    pose proof (Z.div_mod d 60). pose proof (Z.mod_pos_bound d 60). lia.
  - rewrite Z.rem_mod by lia. rewrite Z.abs_neq, Z.sgn_neg by lia.
    rewrite Z.abs_eq by lia.
    rewrite Z.mod_opp_l_nz by lia. pose proof (Z.mod_pos_bound d 60). lia.
  - rewrite Z.rem_mod by lia. rewrite Z.abs_neq, Z.sgn_neg by lia.
    rewrite Z.abs_eq by lia.
    rewrite Z.mod_opp_l_nz by lia. pose proof (Z.mod_pos_bound d 60). lia.
Qed.

Lemma truthy_trainNumber (a b c : option string) :
  truthy (String.concat " " (filter_Boolean [a; b; c])) =
  existsb truthy_opt [a; b; c].
Proof.
  destruct a as [[|x a]|]; destruct b as [[|y b]|]; destruct c as [[|z c]|]; reflexivity.
Qed.

(** X18: a leg is displayed with its train line exactly when the upstream
    gave it a type that is not empty and at least one number part that is
    not empty; the two lines before it carry the number of the leg, the
    station names of the upstream and the decoded times. *)
Theorem train_line_needs_type_and_number (rl : RawLeg) (leg : ConnectionLeg) (i : nat) :
  toLeg rl = Return leg ->
  legLines i leg =
    [ "     " +++ Z_toString (Z.of_nat i + 1) +++ ". " +++ sStationName1 rl +++ " → " +++
        sStationName2 rl;
      "        Dep: " +++ leg_departure leg +++ " | Arr: " +++ leg_arrival leg ] ++
    (if truthy_opt (sType rl) && existsb truthy_opt [sNum1 rl; sNum2 rl; sNum3 rl]
     then [ "        Train: " +++ interpolate (sType rl) +++ " " +++
            String.concat " " (filter_Boolean [sNum1 rl; sNum2 rl; sNum3 rl]) ]
     else []).
Proof.
  intros H. destruct (toLeg_fields _ _ H) as (Hf & Ht & Hty & Hn & _).
  unfold legLines. rewrite Hf, Ht, Hty, Hn, truthy_trainNumber. reflexivity.
Qed.

End Display.

(** ** The booking link *)

Lemma count_char_append (c : ascii) (a b : string) :
  count_char c (a +++ b) = (count_char c a + count_char c b)%nat.
Proof.
  induction a as [|x a IH]; cbn [String.append count_char]; [reflexivity|].
  rewrite IH. lia.
Qed.

Lemma form_safe_hex_chars (c : ascii) :
  form_safe (hex_char (Z.of_N (N_of_ascii c) / 16)) = true /\
  form_safe (hex_char (Z.of_N (N_of_ascii c) mod 16)) = true.
Proof.
  destruct c as [[] [] [] [] [] [] [] []]; vm_compute; split; reflexivity.
Qed.

(** A character that the serializer escapes does not occur in what it
    writes. *)
Lemma count_char_form_urlencode (c : ascii) (s : string) :
  form_safe c = false -> c <> "+"%char -> c <> "%"%char ->
  count_char c (form_urlencode s) = O.
Proof.
  intros Hc Hplus Hpct.
  assert (Hsafe : forall x, form_safe x = true -> Ascii.eqb c x = false).
  { intros x Hx. apply Ascii.eqb_neq. intros <-. rewrite Hx in Hc. discriminate. }
  induction s as [|x s IH]; [reflexivity|].
  cbn [form_urlencode]. rewrite count_char_append, IH, Nat.add_0_r.
  destruct (Ascii.eqb x " ").
  - cbn [count_char]. apply Ascii.eqb_neq in Hplus. now rewrite Hplus.
  - destruct (form_safe x) eqn:Hx.
    + cbn [count_char]. now rewrite (Hsafe x Hx).
    + unfold percent_byte. cbv zeta. cbn [count_char].
      destruct (form_safe_hex_chars x) as [Hh Hl].
      rewrite (Hsafe _ Hh), (Hsafe _ Hl).
      apply Ascii.eqb_neq in Hpct. now rewrite Hpct.
Qed.

Lemma generateBookingUrl_run (host_parse : string -> option Z)
    (fromStation toStation departure0 : string) :
  generateBookingUrl host_parse fromStation toStation departure0 =
  match new_Date_string host_parse departure0 with
  | None => Throw (RangeError "Invalid time value")
  | Some ms =>
      Return (BOOKING_BASE_URL +++ "?" +++
              ("fromCity=" +++ form_urlencode fromStation) +++ "&" +++
              ("toCity=" +++ form_urlencode toStation) +++ "&" +++
              ("dateTime=" +++ form_urlencode (substring 0 16 (iso_string ms))))
  end.
Proof.
  unfold generateBookingUrl.
  destruct (new_Date_string host_parse departure0) as [ms|]; reflexivity.
Qed.

(** X19: the booking link is well formed whatever the station names hold.
    A departure that is not a date throws [RangeError]; otherwise the
    link is the base address, a question mark and a query with exactly
    three parameters: two ampersands and three equals signs, and no
    question mark, hash or space. *)
Theorem booking_url_has_three_parameters (host_parse : string -> option Z)
    (fromStation toStation departure0 : string) :
  (new_Date_string host_parse departure0 = None ->
   generateBookingUrl host_parse fromStation toStation departure0 =
   Throw (RangeError "Invalid time value")) /\
  (forall ms, new_Date_string host_parse departure0 = Some ms ->
   exists q,
     generateBookingUrl host_parse fromStation toStation departure0 =
       Return (BOOKING_BASE_URL +++ "?" +++ q) /\
     count_char "&" q = 2%nat /\ count_char "=" q = 3%nat /\
     count_char "?" q = O /\ count_char "#" q = O /\ count_char " " q = O).
Proof.
  rewrite generateBookingUrl_run. split.
  - now intros ->.
  - intros ms ->. eexists. split; [reflexivity|].
    repeat split;
      rewrite ?count_char_append, !count_char_form_urlencode by (reflexivity || discriminate);
      reflexivity.
Qed.

Lemma form_urldecode_other (c : ascii) (r : string) :
  c <> "+"%char -> c <> "%"%char ->
  form_urldecode (String c r) =
  match form_urldecode r with Some d => Some (String c d) | None => None end.
Proof.
  intros Hplus Hpct.
  destruct c as [[] [] [] [] [] [] [] []]; try reflexivity; now contradiction.
Qed.

Lemma hex_round_trip (c : ascii) :
  hex_value (hex_char (Z.of_N (N_of_ascii c) / 16)) = Some (Z.of_N (N_of_ascii c) / 16) /\
  hex_value (hex_char (Z.of_N (N_of_ascii c) mod 16)) = Some (Z.of_N (N_of_ascii c) mod 16) /\
  ascii_of_N (Z.to_N (16 * (Z.of_N (N_of_ascii c) / 16) + Z.of_N (N_of_ascii c) mod 16)) = c.
Proof.
  destruct c as [[] [] [] [] [] [] [] []]; vm_compute; repeat split; reflexivity.
Qed.

Lemma form_safe_not_special (c : ascii) :
  form_safe c = true -> c <> "+"%char /\ c <> "%"%char.
Proof. intros H. split; intros ->; discriminate H. Qed.

(** The serialization can be read back, so it loses nothing. *)
Lemma form_urldecode_form_urlencode (s : string) :
  form_urldecode (form_urlencode s) = Some s.
Proof.
  induction s as [|c s IH]; [reflexivity|].
  cbn [form_urlencode].
  destruct (Ascii.eqb_spec c " ") as [->|Hsp].
  - cbn [String.append form_urldecode]. now rewrite IH.
  - destruct (form_safe c) eqn:Hc.
    + destruct (form_safe_not_special c Hc) as [Hplus Hpct].
      cbn [String.append]. rewrite (form_urldecode_other c _ Hplus Hpct), IH. reflexivity.
    + unfold percent_byte. cbv zeta. cbn [String.append form_urldecode].
      destruct (hex_round_trip c) as (Hh & Hl & Hback).
      rewrite Hh, Hl, IH, Hback. reflexivity.
Qed.

Lemma form_urlencode_injective (a b : string) :
  form_urlencode a = form_urlencode b -> a = b.
Proof.
  intros H. pose proof (form_urldecode_form_urlencode a) as Ha.
  rewrite H, form_urldecode_form_urlencode in Ha. now injection Ha as ->.
Qed.

(** Two texts without a separator, each followed by the separator, agree
    when the whole strings do. *)
Lemma split_at_separator (c : ascii) (a b x y : string) :
  count_char c a = O -> count_char c b = O ->
  a +++ String c x = b +++ String c y -> a = b /\ x = y.
Proof.
  revert b. induction a as [|u a IH]; intros [|v b] Ha Hb H; cbn [String.append] in H.
  - injection H as ->. now split.
  - injection H as <- _. cbn [count_char] in Hb. rewrite Ascii.eqb_refl in Hb. discriminate.
  - injection H as -> _. cbn [count_char] in Ha. rewrite Ascii.eqb_refl in Ha. discriminate.
  - injection H as <- H. cbn [count_char] in Ha, Hb.
    destruct (Ascii.eqb c u); [discriminate|].
    destruct (IH b Ha Hb H) as [-> ->]. now split.
Qed.

(** X20: the booking link tells the stations apart: two calls that return
    the same link were given the same two station names, whatever bytes
    the UTF-8 forms of the names hold. *)
Theorem booking_url_determines_stations (host_parse : string -> option Z)
    (from1 to1 departure1 from2 to2 departure2 url : string) :
  generateBookingUrl host_parse from1 to1 departure1 = Return url ->
  generateBookingUrl host_parse from2 to2 departure2 = Return url ->
  from1 = from2 /\ to1 = to2.
Proof.
  rewrite !generateBookingUrl_run.
  destruct (new_Date_string host_parse departure1) as [ms1|]; [|discriminate].
  destruct (new_Date_string host_parse departure2) as [ms2|]; [|discriminate].
  intros [= <-] [= H].
  apply split_at_separator in H;
    [| apply count_char_form_urlencode; (reflexivity || discriminate) ..].
  destruct H as [Hfrom H]. injection H as H.
  apply split_at_separator in H;
    [| apply count_char_form_urlencode; (reflexivity || discriminate) ..].
  destruct H as [Hto _].
  split; symmetry; now apply form_urlencode_injective.
Qed.

Lemma booking_url_determines_stations_witness :
  generateBookingUrl no_host_parse "Praha hl.n." "Brno" requested =
    Return "https://www.cd.cz/spojeni-a-jizdenka/?fromCity=Praha+hl.n.&toCity=Brno&dateTime=2025-12-15T10%3A00" /\
  generateBookingUrl no_host_parse "Praha hl.n." "Brno" requested_half_past =
    Return "https://www.cd.cz/spojeni-a-jizdenka/?fromCity=Praha+hl.n.&toCity=Brno&dateTime=2025-12-15T10%3A00" /\
  ("Praha hl.n." = "Praha hl.n." /\ "Brno" = "Brno").
Proof.
  split; [reflexivity|]. split; [reflexivity|].
  apply (booking_url_determines_stations no_host_parse
           "Praha hl.n." "Brno" requested "Praha hl.n." "Brno" requested_half_past
           "https://www.cd.cz/spojeni-a-jizdenka/?fromCity=Praha+hl.n.&toCity=Brno&dateTime=2025-12-15T10%3A00");
    reflexivity.
Defined.

Lemma substring_common_prefix (a b1 b2 : string) (n : nat) :
  substring 0 (n - String.length a) b1 = substring 0 (n - String.length a) b2 ->
  substring 0 n (a +++ b1) = substring 0 n (a +++ b2).
Proof.
  revert n. induction a as [|c a IH]; intros n; cbn [String.append String.length].
  - now rewrite Nat.sub_0_r.
  - destruct n as [|n]; [reflexivity|]. cbn [Nat.sub substring].
    intros H. now rewrite (IH n H).
Qed.

Lemma length_pad (n : nat) (v : Z) : String.length (pad n v) = n.
Proof. induction n as [|k IH]; cbn [pad String.length]; [reflexivity | now rewrite IH]. Qed.

Lemma length_year_string (y : Z) : (4 <= String.length (year_string y))%nat.
Proof.
  unfold year_string. destruct ((0 <=? y) && (y <=? 9999)); [rewrite length_pad; lia|].
  destruct (y <? 0); cbn [String.length]; rewrite length_pad; lia.
Qed.

Lemma same_minute (t1 t2 : Z) :
  t1 / 60000 = t2 / 60000 ->
  Day t1 = Day t2 /\
  TimeWithinDay t1 / 3600000 = TimeWithinDay t2 / 3600000 /\
  (TimeWithinDay t1 / 60000) mod 60 = (TimeWithinDay t2 / 60000) mod 60.
Proof.
  intros H. unfold Day, TimeWithinDay, msPerDay.
  assert (Hd : forall t, t / 86400000 = t / 60000 / 1440)
    by (intros t; Z.to_euclidean_division_equations; lia).
  assert (Hm : forall t, t mod 86400000 / 60000 = (t / 60000) mod 1440)
    by (intros t; Z.to_euclidean_division_equations; lia).
  assert (Hh : forall x, x / 3600000 = x / 60000 / 60)
    by (intros x; Z.to_euclidean_division_equations; lia).
  rewrite !Hd, !Hh, !Hm, H. repeat split.
Qed.

(** X21: the booking link keeps the departure to the minute, in UTC: two
    departures within the same minute give the same link. *)
Theorem booking_url_drops_seconds (host_parse : string -> option Z)
    (fromStation toStation departure1 departure2 : string) (t1 t2 : Z) :
  new_Date_string host_parse departure1 = Some t1 ->
  new_Date_string host_parse departure2 = Some t2 ->
  t1 / 60000 = t2 / 60000 ->
  generateBookingUrl host_parse fromStation toStation departure1 =
  generateBookingUrl host_parse fromStation toStation departure2.
Proof.
  intros H1 H2 Hmin. rewrite !generateBookingUrl_run, H1, H2.
  destruct (same_minute t1 t2 Hmin) as (Hday & Hhour & Hminute).
  assert (Hsub : substring 0 16 (iso_string t1) = substring 0 16 (iso_string t2)).
  { unfold iso_string. cbv zeta. rewrite Hday, Hhour, Hminute.
    do 9 apply substring_common_prefix.
    rewrite !length_pad.
    pose proof (length_year_string (YearFromDay (Day t2))) as Hy.
    cbn [String.length].
    replace (16 - String.length (year_string (YearFromDay (Day t2))) - 1 - 2 - 1 - 2 - 1 - 2
             - 1 - 2)%nat with O by lia.
    reflexivity. }
  now rewrite Hsub.
Qed.

Lemma booking_url_drops_seconds_witness :
  generateBookingUrl no_host_parse "Praha" "Brno" requested =
  generateBookingUrl no_host_parse "Praha" "Brno" requested_half_past.
Proof.
  apply (booking_url_drops_seconds no_host_parse "Praha" "Brno"
           requested requested_half_past 1765792800000 1765792830000);
    reflexivity.
Defined.

(** ** Edge cases of the client *)

Section Edges.

Variable host_parse : string -> option Z.
Variable upstream : Upstream.

(** X22: a returned connection without legs has, as its departure and as
    its arrival, the departure that was asked for, as it was written; its
    transfer count is [-1], and its duration is zero, or [NaN] when the
    departure asked for is not a date. *)
Theorem connection_without_legs_takes_requested_departure
    (from to departure0 : string) (passengers : Z) t res (i : nat) (c : Connection) :
  searchConnections host_parse upstream from to departure0 passengers = (t, Return res) ->
  nth_error (connections res) i = Some c ->
  legs c = [] ->
  departure c = departure0 /\ arrival c = departure0 /\ transfers c = -1 /\
  duration c =
    match new_Date_string host_parse departure0 with
    | Some _ => Some 0
    | None => None
    end.
Proof.
  intros Hrun Hc Hnil.
  destruct (searchConnections_returned _ _ _ _ _ _ _ _ Hrun)
    as (b & result & Hin & Hr & [(_ & -> & _) | (info & raws & -> & Hraws & _ & Hmap & _)]).
  - destruct i; discriminate Hc.
  - destruct (emapi_Return _ _ _ Hmap) as (_ & _ & Hback).
    destruct (Hback _ _ Hc) as (raw & Hraw & Hconn).
    destruct (toConnection_Return host_parse _ _ _ _ _ Hconn)
      as (Hlegs & _ & Hdep & Harr & Hdur & Htr & _).
    pose proof (emap_Return_length _ _ _ Hlegs) as Hlen.
    rewrite Hnil in Hdep, Harr, Hlen. cbn in Hdep, Harr, Hlen.
    rewrite <- Hlen in Htr.
    repeat split; try assumption.
    rewrite Hdur, Hdep, Harr. unfold getTime.
    destruct (new_Date_string host_parse departure0) as [ms|]; [|reflexivity].
    unfold durationMinutes. rewrite Math_round_minutes, Z.sub_diag. reflexivity.
Qed.

(** X23: [searchLocations] returns all the candidates or none: when every
    item of the reply has its [oItem], one location for each, as many as
    the upstream sent; when one item lacks it, the call throws a
    [TypeError] and no location is returned. *)
Theorem searchLocations_all_or_nothing
    (query : string) (ty : option string) (r : option (list StationSearchItem)) :
  settle (answer upstream (SearchGlobalListItemInfoExt (stationSearchBody query 10)))
    = Return r ->
  (forallb complete_item (or_empty r) = true ->
   exists locs,
     snd (searchLocations upstream query ty) = Return locs /\
     List.length locs = List.length (or_empty r)) /\
  (forallb complete_item (or_empty r) = false ->
   snd (searchLocations upstream query ty) =
   Throw (TypeError "Cannot read properties of undefined (reading 'iListID')")).
Proof.
  intros Hr.
  assert (Hsnd : snd (searchLocations upstream query ty) = emap toLocation (or_empty r)).
  { unfold searchLocations, postRequest, bind, lift. rewrite Hr. reflexivity. }
  rewrite Hsnd. clear Hsnd Hr.
  induction (or_empty r) as [|item items IH]; cbn [forallb emap].
  - split; [intros _; now exists [] | discriminate].
  - unfold toLocation at 1 3, complete_item at 1 3.
    destruct (oItem item) as [o|]; cbn [andb ebind].
    + destruct IH as [IHt IHf]. split.
      * intros Hall. destruct (IHt Hall) as (locs & -> & Hlen). cbn [ebind].
        eexists. split; [reflexivity|]. cbn [List.length]. now rewrite Hlen.
      * intros Hsome. now rewrite (IHf Hsome).
    + split; [discriminate | reflexivity].
Qed.

(** X24: a response whose status is not a success is reported with its
    status, its status text and its body, and its JSON is not read: the
    [search_locations] tool returns the error text that quotes them. *)
Theorem http_failure_is_reported_with_status
    (query : string) (ty : option string) (status : Z) (statusText errorText : string)
    (json : Exc (option (list StationSearchItem))) :
  answer upstream (SearchGlobalListItemInfoExt (stationSearchBody query 10)) =
    Response false status statusText (Return errorText) json ->
  search_locations_tool upstream query ty =
    ([SearchGlobalListItemInfoExt (stationSearchBody query 10)],
     Return {| content_text :=
                 "Error searching locations: API request failed: " +++
                 Z_toString status +++ " " +++ statusText +++ " - " +++ errorText;
               isError := true |}).
Proof.
  intros H. unfold search_locations_tool, searchLocations, postRequest, bind.
  rewrite H. reflexivity.
Qed.

End Edges.

Lemma connection_without_legs_takes_requested_departure_witness :
  departure legless_connection = requested /\ arrival legless_connection = requested /\
  transfers legless_connection = -1 /\
  duration legless_connection =
    match new_Date_string no_host_parse requested with
    | Some _ => Some 0
    | None => None
    end.
Proof.
  apply (connection_without_legs_takes_requested_departure no_host_parse legless_upstream
           "Praha" "Brno" requested 1
           (fst (searchConnections no_host_parse legless_upstream "Praha" "Brno" requested 1))
           {| handle := Some "7"; connections := [legless_connection] |}
           0 legless_connection).
  - vm_compute. reflexivity.
  - reflexivity.
  - reflexivity.
Defined.

Lemma searchLocations_all_or_nothing_witness :
  (forallb complete_item
     (or_empty (Some [ {| oItem := Some {| iListID := 5457076; sName := "Praha" |} |} ]))
   = true ->
   exists locs,
     snd (searchLocations absent_list_upstream "Praha" None) = Return locs /\
     List.length locs =
     List.length
       (or_empty (Some [ {| oItem := Some {| iListID := 5457076; sName := "Praha" |} |} ]))) /\
  (forallb complete_item
     (or_empty (Some [ {| oItem := Some {| iListID := 5457076; sName := "Praha" |} |} ]))
   = false ->
   snd (searchLocations absent_list_upstream "Praha" None) =
   Throw (TypeError "Cannot read properties of undefined (reading 'iListID')")).
Proof.
  apply (searchLocations_all_or_nothing absent_list_upstream "Praha" None
           (Some [ {| oItem := Some {| iListID := 5457076; sName := "Praha" |} |} ])).
  reflexivity.
Defined.

Lemma http_failure_is_reported_with_status_witness :
  search_locations_tool unavailable_upstream "Praha" None =
    ([SearchGlobalListItemInfoExt (stationSearchBody "Praha" 10)],
     Return {| content_text :=
                 "Error searching locations: API request failed: 503 Service Unavailable - busy";
               isError := true |}).
Proof.
  apply (http_failure_is_reported_with_status unavailable_upstream "Praha" None
           503 "Service Unavailable" "busy" (Return None)).
  reflexivity.
Defined.

(** ** Examples of the properties above *)

Lemma invalid_passenger_count_stops_search_witness :
  searchConnections no_host_parse scenario_upstream "Praha" "Brno" requested (-1) =
  ([lookup_request "Praha"; lookup_request "Brno"; CreateSession sessionBody],
   Throw (RangeError "Invalid array length")).
Proof.
  apply (invalid_passenger_count_stops_search no_host_parse scenario_upstream
           "Praha" "Brno" requested (-1)
           {| station_id := 5457076; station_name := "Praha" |}
           {| station_id := 5457076; station_name := "Brno" |}
           {| sSessionID := "session-1" |});
    [reflexivity | reflexivity | reflexivity | left; lia].
Defined.

Lemma search_request_contents_witness :
  exists rf rt itf itt sess,
    lookup_reply scenario_upstream "Praha" = Return rf /\ first_item rf = Some itf /\
    lookup_reply scenario_upstream "Brno" = Return rt /\ first_item rt = Some itt /\
    session_reply scenario_upstream = Return sess /\
    oFrom scenario_search_body = itf /\ oTo scenario_search_body = itt /\
    sc_sSessionID scenario_search_body = sSessionID sess /\
    dtDateTime scenario_search_body =
      dtDateTime_of (getTime (new_Date_string no_host_parse requested)) /\
    (new_Date_string no_host_parse requested = None ->
     dtDateTime scenario_search_body = "/Date(NaN)/") /\
    sc_aoPassengers scenario_search_body = repeat defaultPassenger (Z.to_nat 1) /\
    valid_length 1.
Proof.
  apply (search_request_contents no_host_parse scenario_upstream "Praha" "Brno" requested 1
           scenario_search_body).
  vm_compute. do 3 right. left. reflexivity.
Defined.

Lemma price_request_contents_witness :
  exists b info raws,
    In (SearchConnectionInfo1 b)
       (fst (searchConnections no_host_parse scenario_upstream "Praha" "Brno" requested 1)) /\
    settle (answer scenario_upstream (SearchConnectionInfo1 b)) = Return (Some info) /\
    raw_connections (Some info) = Some raws /\
    gp_sSessionID scenario_price_body = sc_sSessionID b /\
    gp_iHandle scenario_price_body = iHandle info /\
    aiConnID scenario_price_body = map iID raws /\
    pr_aoPassengers (oPriceRequest scenario_price_body) = sc_aoPassengers b.
Proof.
  apply (price_request_contents no_host_parse scenario_upstream "Praha" "Brno" requested 1
           scenario_price_body).
  vm_compute. do 4 right. left. reflexivity.
Defined.

Lemma legs_mirror_upstream_trains_witness :
  exists b info raws raw,
    In (SearchConnectionInfo1 b) scenario_trace /\
    settle (answer scenario_upstream (SearchConnectionInfo1 b)) = Return (Some info) /\
    raw_connections (Some info) = Some raws /\
    nth_error raws 0 = Some raw /\
    List.length (legs (first_connection (Some czk_269))) = List.length (aoTrains raw) /\
    forall j leg, nth_error (legs (first_connection (Some czk_269))) j = Some leg ->
      exists rl,
        nth_error (aoTrains raw) j = Some rl /\
        leg_from leg = sStationName1 rl /\ leg_to leg = sStationName2 rl /\
        trainType leg = sType rl /\
        trainNumber leg =
          String.concat " " (filter_Boolean [sNum1 rl; sNum2 rl; sNum3 rl]) /\
        parseDate (dtDateTime1 rl) = Return (leg_departure leg) /\
        parseDate (dtDateTime2 rl) = Return (leg_arrival leg).
Proof.
  apply (legs_mirror_upstream_trains no_host_parse scenario_upstream
           "Praha" "Brno" requested 1 scenario_trace scenario_result 0
           (first_connection (Some czk_269))).
  - vm_compute. reflexivity.
  - reflexivity.
Defined.

Lemma connection_ids_read_back_witness :
  exists b info raws raw,
    In (SearchConnectionInfo1 b) scenario_trace /\
    settle (answer scenario_upstream (SearchConnectionInfo1 b)) = Return (Some info) /\
    raw_connections (Some info) = Some raws /\
    List.length (connections scenario_result) = List.length raws /\
    nth_error raws 1 = Some raw /\
    (safe_integer (iID raw) -> decimal_of (iID raw) (id second_connection)) /\
    forall j c' raw',
      nth_error (connections scenario_result) j = Some c' -> nth_error raws j = Some raw' ->
      safe_integer (iID raw) -> safe_integer (iID raw') ->
      id second_connection = id c' -> iID raw = iID raw'.
Proof.
  apply (connection_ids_read_back no_host_parse scenario_upstream
           "Praha" "Brno" requested 1 scenario_trace scenario_result 1 second_connection).
  - vm_compute. reflexivity.
  - reflexivity.
Defined.

Lemma client_locations_format_as_stations_witness :
  formatLocation praha None = "📍 Praha (station)".
Proof.
  apply (client_locations_format_as_stations absent_list_upstream praha).
  right. exists "city", "Praha". reflexivity.
Defined.

Lemma unknown_station_is_reported_by_name_witness :
  exists q,
    (q = "Nonexistentville" \/ q = "Brno") /\
    unresolved absent_list_upstream q /\
    search_connections_tool no_host_parse absent_list_upstream whole_amount
      "Nonexistentville" "Brno" requested 1 =
      ([lookup_request "Nonexistentville"; lookup_request "Brno"],
       Return {| content_text := "Error searching connections: Station not found: " +++ q;
                 isError := true |}).
Proof.
  apply (unknown_station_is_reported_by_name no_host_parse absent_list_upstream whole_amount
           "Nonexistentville" "Brno" requested 1).
  - eexists. reflexivity.
  - eexists. reflexivity.
  - left. eexists. split; reflexivity.
Defined.

Lemma missing_or_empty_list_reads_no_connections_witness :
  snd (search_connections_tool no_host_parse absent_list_upstream whole_amount
         "Praha" "Brno" requested 1) =
  Return {| content_text :=
              "No connections found from " +++ DQ +++ "Praha" +++ DQ +++ " to " +++
              DQ +++ "Brno" +++ DQ +++ " on " +++ requested +++ ".";
            isError := false |}.
Proof.
  apply (missing_or_empty_list_reads_no_connections no_host_parse absent_list_upstream
           whole_amount "Praha" "Brno" requested 1 primary_trace "session-1"
           (Some absent_list_info)).
  - vm_compute. reflexivity.
  - reflexivity.
Defined.

Lemma nonempty_result_advertises_pagination_witness :
  exists h b info,
    handle scenario_result = Some h /\
    In (SearchConnectionInfo1 b) scenario_trace /\
    settle (answer scenario_upstream (SearchConnectionInfo1 b)) = Return (Some info) /\
    (safe_integer (iHandle info) -> decimal_of (iHandle info) h) /\
    snd (search_connections_tool no_host_parse scenario_upstream whole_amount
           "Praha" "Brno" requested 1) =
    Return {| content_text :=
                ("Found " +++ Z_toString (Z.of_nat (List.length (connections scenario_result))) +++
                 " connection(s) from " +++ DQ +++ "Praha" +++ DQ +++ " to " +++ DQ +++
                 "Brno" +++ DQ +++ ":" +++ LF +++ LF +++
                 String.concat (LF +++ LF +++ "---" +++ LF +++ LF)
                   (map (formatConnection whole_amount) (connections scenario_result))) +++
                LF +++ LF +++ "📑 Pagination handle: " +++ h +++
                " (use with get_more_connections for more results)";
              isError := false |}.
Proof.
  apply (nonempty_result_advertises_pagination no_host_parse scenario_upstream whole_amount
           "Praha" "Brno" requested 1 scenario_trace scenario_result).
  - vm_compute. reflexivity.
  - discriminate.
Defined.

Lemma duration_line_splits_minutes_witness :
  exists h m,
    nth_error (connectionLines whole_amount backwards_connection) 1 =
      Some ("   Duration: " +++ Z_toString h +++ "h " +++ Z_toString m +++ "m") /\
    (0 <= -61 -> 60 * h + m = -61 /\ 0 <= m < 60) /\
    (-61 < 0 -> (-61) mod 60 = 0 -> 60 * h + m = -61 /\ m = 0) /\
    (-61 < 0 -> (-61) mod 60 <> 0 -> 60 * h + m = -61 - 60 /\ -60 < m < 0).
Proof.
  apply (duration_line_splits_minutes whole_amount backwards_connection (-61)).
  reflexivity.
Defined.

Lemma train_line_needs_type_and_number_witness :
  legLines 0 (scenario_leg "2025-12-15T10:36:00.000Z" "2025-12-15T13:13:00.000Z") =
  [ "     1. Praha hl.n. → Brno hl.n.";
    "        Dep: 2025-12-15T10:36:00.000Z | Arr: 2025-12-15T13:13:00.000Z";
    "        Train: rj 251" ].
Proof.
  apply (train_line_needs_type_and_number
           (direct_leg "/Date(1765794960000)/" "/Date(1765804380000)/")
           (scenario_leg "2025-12-15T10:36:00.000Z" "2025-12-15T13:13:00.000Z") 0).
  reflexivity.
Defined.
